(** * Air Virtual Drawing: a shallow embedding of the frame loop

    The development follows the four Python sources:
    - [hand_tracker.py]  finger classification and pointer extraction,
    - [mouth_tracker.py] the mouth open test,
    - [painter.py]       the UI layout and the hit-test engine,
    - [main.py]          one iteration of the frame loop (save trigger,
                         pointer smoothing, drawing on the canvas).

    Python integers are [Z].  Python floats are IEEE binary64 values, given
    by the Standard Library's [spec_float] with its correctly rounded
    operations.  Python lists are Rocq lists, indexed with stdpp's lookup;
    the [button_actions] dict is a [gmap].  A raised exception is the
    [Raise] case of a small error monad.  NumPy arrays are mutable objects
    that [main] aliases and rebinds, so they live in an explicit store. *)

From stdpp Require Import base list strings gmap.
From Stdlib Require Import ZArith QArith Qabs Lia Lqa DecimalString.
From Stdlib Require Import Floats.SpecFloat.

Local Open Scope Z_scope.

(** ** Python values shared by the four files *)

Module Py.

(** The exceptions the modelled code can raise. *)
Inductive exn : Set :=
| IndexError
| ValueError
| OverflowError.

Inductive result (A : Type) : Type :=
| Ok (a : A)
| Raise (e : exn).
Arguments Ok {A} a.
Arguments Raise {A} e.

Definition bind {A B : Type} (r : result A) (k : A -> result B) : result B :=
  match r with
  | Ok a => k a
  | Raise e => Raise e
  end.

(** [l[i]] for a non-negative index. *)
Definition getitem {A : Type} (l : list A) (i : nat) : result A :=
  match l !! i with
  | Some a => Ok a
  | None => Raise IndexError
  end.

(** [[f(a) for a in l]] where [f] may raise. *)
Fixpoint for_each {A B : Type} (f : A -> result B) (l : list A) : result (list B) :=
  match l with
  | [] => Ok []
  | a :: l' =>
      bind (f a) (fun b => bind (for_each f l') (fun bs => Ok (b :: bs)))
  end.

(** [range(start, stop, step)] for a positive step. *)
Definition range (start stop step : Z) : list Z :=
  (fun i => start + step * Z.of_nat i) <$> seq 0 (Z.to_nat ((stop - start + step - 1) / step)).

(** [str(n)] and [int(s)] on plain decimal numerals. *)
Definition str (n : Z) : string := NilZero.string_of_int (Z.to_int n).

Definition int_of_str (s : string) : result Z :=
  match NilZero.int_of_string s with
  | Some d => Ok (Z.of_int d)
  | None => Raise ValueError
  end.

(** *** Floats: IEEE 754 binary64 *)

Definition prec : Z := 53.
Definition emax : Z := 1024.

Definition float : Set := spec_float.

(** Conversion of an integer operand, correctly rounded (exact below 2^53). *)
Definition float_of_int (z : Z) : float := binary_normalize prec emax z 0 false.

Definition fmul : float -> float -> float := SFmul prec emax.
Definition fadd : float -> float -> float := SFadd prec emax.
Definition fsub : float -> float -> float := SFsub prec emax.
Definition fdiv : float -> float -> float := SFdiv prec emax.

(** The literals [0.3] and [0.4]: the doubles nearest to 3/10 and 4/10. *)
Definition lit_0_3 : float := S754_finite false 5404319552844595 (-54).
Definition lit_0_4 : float := S754_finite false 7205759403792794 (-54).

(** [int(f)]: truncation towards zero. *)
Definition int_of_float (f : float) : result Z :=
  match f with
  | S754_zero _ => Ok 0
  | S754_finite s m e => Ok (cond_Zopp s (Z.shiftl (Z.pos m) e))
  | S754_infinity _ => Raise OverflowError
  | S754_nan => Raise ValueError
  end.

(** The exact rational value of a finite float. *)
Definition Q_of_float (f : float) : Q :=
  match f with
  | S754_finite s m e =>
      let q := if 0 <=? e then inject_Z (Z.shiftl (Z.pos m) e)
               else Qmake (Z.pos m) (Pos.shiftl 1 (Z.to_N (- e))) in
      if s then Qopp q else q
  | _ => 0%Q
  end.

(** [n > f] for an integer [n] and a float [f]: Python compares the exact
    values, without rounding [n] to a float. *)
Definition int_gt_float (n : Z) (f : float) : bool :=
  match f with
  | S754_nan => false
  | S754_infinity s => s
  | _ => negb (Qle_bool (inject_Z n) (Q_of_float f))
  end.

End Py.

Export Py.

Notation "'let*' x ':=' c1 'in' c2" := (Py.bind c1 (fun x => c2))
  (at level 10, x name, c1 at level 100, c2 at level 200).
Notation "'let*' ' pat ':=' c1 'in' c2" :=
  (Py.bind c1 (fun x => match x with pat => c2 end))
  (at level 10, pat pattern, c1 at level 100, c2 at level 200).

Definition Point : Set := Z * Z.
Definition Color : Set := Z * Z * Z.

(** ** hand_tracker.py *)

Module HandLandmark.

Definition WRIST : nat := 0.
Definition THUMB_TIP : nat := 4.
Definition INDEX_TIP : nat := 8.
Definition MIDDLE_TIP : nat := 12.
Definition RING_TIP : nat := 16.
Definition PINKY_TIP : nat := 20.
Definition THUMB_MCP : nat := 1.
Definition THUMB_PIP : nat := 2.
Definition THUMB_DIP : nat := 3.
Definition INDEX_MCP : nat := 5.
Definition INDEX_PIP : nat := 6.
Definition INDEX_DIP : nat := 7.

End HandLandmark.

Module EnhancedHandTracker.

(** The detector is external.  What the tracker caches in [self.results] is
    given here as [multi_hand_landmarks]: one list of landmark points per
    detected hand, already scaled to pixels; no hand is the empty list. *)
Definition Results : Set := list (list Point).

(** [get_hand_landmarks(image, hand_index=0)]. *)
Definition get_hand_landmarks (multi_hand_landmarks : Results) : list Point :=
  match multi_hand_landmarks with
  | [] => []
  | hand_landmarks :: _ => hand_landmarks
  end.

Definition fingertip_landmarks : list nat :=
  [HandLandmark.INDEX_TIP; HandLandmark.MIDDLE_TIP;
   HandLandmark.RING_TIP; HandLandmark.PINKY_TIP].

Definition detect_gesture (multi_hand_landmarks : Results) : result (list bool) :=
  let landmarks := get_hand_landmarks multi_hand_landmarks in
  if (length landmarks <? 21)%nat then Ok []
  else
    (* Thumb special case (different orientation) *)
    let* thumb_tip := getitem landmarks HandLandmark.THUMB_TIP in
    let* thumb_mcp := getitem landmarks HandLandmark.THUMB_MCP in
    let thumb := thumb_tip.1 <? thumb_mcp.1 in
    (* Other fingers *)
    let* others :=
      for_each
        (fun '(tip, pip) =>
           let* t := getitem landmarks tip in
           let* p := getitem landmarks pip in
           Ok (t.2 <? p.2))
        (zip fingertip_landmarks [6; 10; 14; 18]%nat) in
    Ok (thumb :: others).

Definition get_pointing_finger (multi_hand_landmarks : Results) : result (option Point) :=
  let landmarks := get_hand_landmarks multi_hand_landmarks in
  if (8 <=? length landmarks)%nat then
    let* p := getitem landmarks HandLandmark.INDEX_TIP in
    Ok (Some p)
  else Ok None.

End EnhancedHandTracker.

(** ** mouth_tracker.py *)

Module MouthTracker.

(** [detect_mouth] asks the external face mesh for the four mouth points
    (left corner, right corner, top centre, bottom centre) and returns them
    in that order, or the empty list when no face is found.  That list is
    the input here. *)
Definition detect_mouth_open (mouth_landmarks : list Point) : result bool :=
  if (4 <=? length mouth_landmarks)%nat then
    let* top := getitem mouth_landmarks 2 in
    let* bottom := getitem mouth_landmarks 3 in
    (* Calculate vertical distance between mouth top and bottom *)
    let mouth_height := Z.abs (top.2 - bottom.2) in
    let* left := getitem mouth_landmarks 0 in
    let* right := getitem mouth_landmarks 1 in
    (* Calculate mouth width *)
    let mouth_width := Z.abs (left.1 - right.1) in
    (* Threshold for mouth open: the product is a rounded float *)
    Ok (int_gt_float mouth_height (fmul (float_of_int mouth_width) lit_0_3))
  else Ok false.

End MouthTracker.

(** ** The raster arrays (numpy) and the drawing calls (cv2)

    Rasterisation is external.  An array that was allocated as a white image
    is represented by the drawing calls applied to it since, oldest first.
    Arrays are objects: [copy] allocates a new one, a cv2 call mutates its
    target in place, and a variable holds a reference into the store. *)

Module Np.

Inductive DrawCall : Set :=
| Line (pt1 pt2 : Point) (color : Color) (thickness : Z)
| Circle (center : Point) (radius : Z) (color : Color) (thickness : Z)
| Rectangle (pt1 pt2 : Point) (color : Color) (thickness : Z)
| Polylines (pts : list Point) (is_closed : bool) (color : Color) (thickness : Z).

Abbreviation ndarray := (list DrawCall).
Abbreviation ref := nat.
Abbreviation Store := (list (list DrawCall)).

(** [np.zeros((720, 1280, 3), dtype=np.uint8) + 255] *)
Definition white : ndarray := [].

Definition read (st : Store) (r : ref) : ndarray := default [] (st !! r).

Definition alloc (st : Store) (a : ndarray) : Store * ref := (st ++ [a], length st).

(** [a.copy()] *)
Definition copy (st : Store) (r : ref) : Store * ref := alloc st (read st r).

(** A cv2 drawing call on the array [r]. *)
Definition draw (st : Store) (r : ref) (c : DrawCall) : Store :=
  <[r := read st r ++ [c]]> st.

End Np.

(** ** painter.py *)

Module UIElement.

(** [alpha], [text_color] and [is_visible] are read by [draw] only. *)
Record t : Set := mk {
  x : Z;
  y : Z;
  w : Z;
  h : Z;
  color : Color;
  text : string;
}.

Definition is_over (self : t) (px py : Z) : bool :=
  ((x self <? px) && (px <? x self + w self)) &&
  ((y self <? py) && (py <? y self + h self)).

End UIElement.

Module Interactions.

(** The result dict of [handle_interactions]; its six keys are fixed. *)
Record t : Set := mk {
  color_changed : bool;
  brush_size_changed : bool;
  clear_canvas : bool;
  drawing_mode : bool;
  shape_drawing_mode : bool;
  save_drawing : bool;
}.

Definition none : t := mk false false false false false false.

Definition set_color_changed (i : t) : t :=
  mk true (brush_size_changed i) (clear_canvas i) (drawing_mode i)
     (shape_drawing_mode i) (save_drawing i).
Definition set_brush_size_changed (i : t) : t :=
  mk (color_changed i) true (clear_canvas i) (drawing_mode i)
     (shape_drawing_mode i) (save_drawing i).
Definition set_clear_canvas (i : t) : t :=
  mk (color_changed i) (brush_size_changed i) true (drawing_mode i)
     (shape_drawing_mode i) (save_drawing i).
Definition set_drawing_mode (i : t) : t :=
  mk (color_changed i) (brush_size_changed i) (clear_canvas i) true
     (shape_drawing_mode i) (save_drawing i).
Definition set_shape_drawing_mode (i : t) : t :=
  mk (color_changed i) (brush_size_changed i) (clear_canvas i) (drawing_mode i)
     true (save_drawing i).
Definition set_save_drawing (i : t) : t :=
  mk (color_changed i) (brush_size_changed i) (clear_canvas i) (drawing_mode i)
     (shape_drawing_mode i) true.

End Interactions.

Module PainterUI.

Record t : Type := mk {
  canvas_background_color : Color;
  width : Z;
  height : Z;
  shape_y : Z;
  toggle_buttons : list UIElement.t;
  button_actions : gmap string string;
  colors : list UIElement.t;
  pen_sizes : list UIElement.t;
  shapes : list UIElement.t;
  canvas : UIElement.t;
  current_color : Color;
  current_brush_size : Z;
  hide_colors : bool;
  hide_pen_sizes : bool;
  hide_shapes : bool;
  current_shape : option string;
  shape_start_point : option Point;
  shape_drawing_mode : bool;
}.

(** Assignments to the attributes that [handle_interactions] writes. *)
Definition set_current_color (v : Color) (s : t) : t :=
  mk (canvas_background_color s) (width s) (height s) (shape_y s)
     (toggle_buttons s) (button_actions s) (colors s) (pen_sizes s) (shapes s)
     (canvas s) v (current_brush_size s) (hide_colors s)
     (hide_pen_sizes s) (hide_shapes s) (current_shape s)
     (shape_start_point s) (shape_drawing_mode s).
Definition set_current_brush_size (v : Z) (s : t) : t :=
  mk (canvas_background_color s) (width s) (height s) (shape_y s)
     (toggle_buttons s) (button_actions s) (colors s) (pen_sizes s) (shapes s)
     (canvas s) (current_color s) v (hide_colors s)
     (hide_pen_sizes s) (hide_shapes s) (current_shape s)
     (shape_start_point s) (shape_drawing_mode s).
Definition set_hide_colors (v : bool) (s : t) : t :=
  mk (canvas_background_color s) (width s) (height s) (shape_y s)
     (toggle_buttons s) (button_actions s) (colors s) (pen_sizes s) (shapes s)
     (canvas s) (current_color s) (current_brush_size s) v
     (hide_pen_sizes s) (hide_shapes s) (current_shape s)
     (shape_start_point s) (shape_drawing_mode s).
Definition set_hide_pen_sizes (v : bool) (s : t) : t :=
  mk (canvas_background_color s) (width s) (height s) (shape_y s)
     (toggle_buttons s) (button_actions s) (colors s) (pen_sizes s) (shapes s)
     (canvas s) (current_color s) (current_brush_size s) (hide_colors s)
     v (hide_shapes s) (current_shape s)
     (shape_start_point s) (shape_drawing_mode s).
Definition set_hide_shapes (v : bool) (s : t) : t :=
  mk (canvas_background_color s) (width s) (height s) (shape_y s)
     (toggle_buttons s) (button_actions s) (colors s) (pen_sizes s) (shapes s)
     (canvas s) (current_color s) (current_brush_size s) (hide_colors s)
     (hide_pen_sizes s) v (current_shape s)
     (shape_start_point s) (shape_drawing_mode s).
Definition set_current_shape (v : option string) (s : t) : t :=
  mk (canvas_background_color s) (width s) (height s) (shape_y s)
     (toggle_buttons s) (button_actions s) (colors s) (pen_sizes s) (shapes s)
     (canvas s) (current_color s) (current_brush_size s) (hide_colors s)
     (hide_pen_sizes s) (hide_shapes s) v
     (shape_start_point s) (shape_drawing_mode s).
Definition set_shape_start_point (v : option Point) (s : t) : t :=
  mk (canvas_background_color s) (width s) (height s) (shape_y s)
     (toggle_buttons s) (button_actions s) (colors s) (pen_sizes s) (shapes s)
     (canvas s) (current_color s) (current_brush_size s) (hide_colors s)
     (hide_pen_sizes s) (hide_shapes s) (current_shape s)
     v (shape_drawing_mode s).
Definition set_shape_drawing_mode (v : bool) (s : t) : t :=
  mk (canvas_background_color s) (width s) (height s) (shape_y s)
     (toggle_buttons s) (button_actions s) (colors s) (pen_sizes s) (shapes s)
     (canvas s) (current_color s) (current_brush_size s) (hide_colors s)
     (hide_pen_sizes s) (hide_shapes s) (current_shape s)
     (shape_start_point s) v.

(** [__init__(self, width=1280, height=720)] *)
Definition init (width height : Z) : t :=
  let canvas_background_color := (255, 255, 255) in
  (* Define a more compact UI layout *)
  let base_x := 50 in
  let base_y := 20 in
  let button_width := 120 in
  let button_height := 50 in
  let horizontal_spacing := 10 in
  let vertical_spacing := 10 in
  let color_palette : list Color :=
    [(50, 120, 220); (80, 180, 120); (230, 130, 80); (180, 80, 180); (220, 90, 120)] in
  (* Utility buttons (horizontally stacked) *)
  let button_color := (100, 100, 100) in
  let toggle_buttons :=
    imap (fun i btn_text =>
            UIElement.mk (base_x + (button_width + horizontal_spacing) * Z.of_nat i)
                         base_y button_width button_height button_color btn_text)
         ["Colors"; "Shapes"; "Pen"; "Save"; "Clear"]%string in
  let button_actions : gmap string string :=
    list_to_map [("Colors", "hide_colors"); ("Shapes", "hide_shapes");
                 ("Pen", "hide_pen_sizes"); ("Save", "save_drawing");
                 ("Clear", "clear_canvas")]%string in
  (* Color selection UI *)
  let color_x := base_x in
  let color_y := base_y + button_height + vertical_spacing in
  let colors :=
    imap (fun i color =>
            UIElement.mk (color_x + (80 + horizontal_spacing) * Z.of_nat i)
                         color_y 80 button_height color "")
         color_palette in
  (* Eraser *)
  let colors :=
    colors ++
    [UIElement.mk (color_x + (80 + horizontal_spacing) * Z.of_nat (length color_palette))
                  color_y 100 button_height (240, 240, 240) "Eraser"] in
  (* Pen size selector *)
  let pen_x := base_x in
  let pen_y := color_y + button_height + vertical_spacing in
  let pen_color := (70, 70, 70) in
  let pen_sizes :=
    imap (fun i size =>
            UIElement.mk (pen_x + (button_width + horizontal_spacing) * Z.of_nat i)
                         pen_y button_width button_height pen_color (Py.str size))
         (Py.range 5 25 5) in
  (* Shape selection buttons *)
  let shape_x := base_x in
  let shape_y := pen_y + button_height + vertical_spacing in
  let shape_color := (90, 90, 90) in
  let shapes :=
    imap (fun i shape =>
            UIElement.mk (shape_x + (button_width + horizontal_spacing) * Z.of_nat i)
                         shape_y button_width button_height shape_color shape)
         ["Circle"; "Rectangle"; "Triangle"]%string in
  (* Drawing canvas *)
  let canvas := UIElement.mk 50 (shape_y - 70) (width - 100) 1780 (240, 240, 240) "" in
  {| canvas_background_color := canvas_background_color;
     width := width;
     height := height;
     shape_y := 100;
     toggle_buttons := toggle_buttons;
     button_actions := button_actions;
     colors := colors;
     pen_sizes := pen_sizes;
     shapes := shapes;
     canvas := canvas;
     current_color := default (0, 0, 0) (color_palette !! 0%nat);
     current_brush_size := 5;
     hide_colors := true;
     hide_pen_sizes := true;
     hide_shapes := true;
     current_shape := None;
     shape_start_point := None;
     shape_drawing_mode := false |}.

(** The attributes that are set once in [__init__] and never assigned again:
    the five zone groups, the action table and the background colour. *)
Definition layout (s : t) :=
  (toggle_buttons s, button_actions s, colors s, pen_sizes s, shapes s,
   canvas s, canvas_background_color s).

(** The first element of a group under the pointer: the [for ... break] loops. *)
Definition first_over (group : list UIElement.t) (x y : Z) : option UIElement.t :=
  List.find (fun el => UIElement.is_over el x y) group.

(** Truth value of [self.current_shape]. *)
Definition shape_selected (self : t) : bool :=
  match current_shape self with
  | Some name => negb (bool_decide (name = ""%string))
  | None => false
  end.

(** [handle_interactions], block by block.  [index] is the value of
    [fingers_up[1]], read first by the toggle block. *)

(** Check toggle buttons *)
Definition check_toggle_buttons (self : t) (x y : Z) (index : bool)
    (interactions : Interactions.t) : t * Interactions.t :=
  if index then
    match first_over (toggle_buttons self) x y with
    | Some btn =>
        let action := button_actions self !! UIElement.text btn in
        if bool_decide (action = Some "hide_colors"%string) then
          (set_hide_colors (negb (hide_colors self)) self, interactions)
        else if bool_decide (action = Some "hide_shapes"%string) then
          (set_hide_shapes (negb (hide_shapes self)) self, interactions)
        else if bool_decide (action = Some "hide_pen_sizes"%string) then
          (set_hide_pen_sizes (negb (hide_pen_sizes self)) self, interactions)
        else if bool_decide (action = Some "clear_canvas"%string) then
          (self, Interactions.set_clear_canvas interactions)
        else if bool_decide (action = Some "save_drawing"%string) then
          (self, Interactions.set_save_drawing interactions)
        else (self, interactions)
    | None => (self, interactions)
    end
  else (self, interactions).

(** Color selection *)
Definition color_selection (self : t) (x y : Z) (index : bool)
    (interactions : Interactions.t) : t * Interactions.t :=
  if negb (hide_colors self) && index then
    match first_over (colors self) x y with
    | Some color_btn =>
        let self :=
          if bool_decide (UIElement.text color_btn = "Eraser"%string) then
            set_current_brush_size 20
              (set_current_color (canvas_background_color self) self)
          else
            set_current_brush_size 5
              (set_current_color (UIElement.color color_btn) self) in
        (self, Interactions.set_color_changed interactions)
    | None => (self, interactions)
    end
  else (self, interactions).

(** Pen size selection *)
Definition pen_size_selection (self : t) (x y : Z) (index : bool)
    (interactions : Interactions.t) : result (t * Interactions.t) :=
  if negb (hide_pen_sizes self) && index then
    match first_over (pen_sizes self) x y with
    | Some pen_size_btn =>
        let* size := Py.int_of_str (UIElement.text pen_size_btn) in
        Ok (set_current_brush_size size self,
            Interactions.set_brush_size_changed interactions)
    | None => Ok (self, interactions)
    end
  else Ok (self, interactions).

(** Shape selection *)
Definition shape_selection (self : t) (x y : Z) (index : bool) : t :=
  if negb (hide_shapes self) && index then
    match first_over (shapes self) x y with
    | Some shape_btn =>
        set_shape_drawing_mode false
          (set_current_shape (Some (UIElement.text shape_btn)) self)
    | None => self
    end
  else self.

(** Drawing mode *)
Definition drawing_mode_check (self : t) (x y : Z) (index : bool)
    (fingers_up : list bool) (interactions : Interactions.t) : result Interactions.t :=
  if UIElement.is_over (canvas self) x y then
    (* Check if only index finger is up *)
    if index then
      let* thumb := getitem fingers_up 0 in
      Ok (if negb thumb then Interactions.set_drawing_mode interactions
          else interactions)
    else Ok interactions
  else Ok interactions.

(** Shape drawing mode *)
Definition shape_drawing_check (self : t) (x y : Z) (fingers_up : list bool)
    (interactions : Interactions.t) : result (t * Interactions.t) :=
  if UIElement.is_over (canvas self) x y then
    if negb (hide_shapes self) && shape_selected self then
      let* thumb := getitem fingers_up 0 in
      if negb (shape_drawing_mode self) && thumb then
        (* Start drawing when first detecting the point *)
        Ok (set_shape_drawing_mode true (set_shape_start_point (Some (x, y)) self),
            Interactions.set_shape_drawing_mode interactions)
      else if shape_drawing_mode self && negb thumb then
        (* End drawing and reset *)
        Ok (set_current_shape None (set_shape_drawing_mode false self), interactions)
      else Ok (self, interactions)
    else Ok (self, interactions)
  else Ok (self, interactions).

Definition handle_interactions (self : t) (x y : Z) (fingers_up : list bool)
  : result (t * Interactions.t) :=
  let interactions := Interactions.none in
  let* index := getitem fingers_up 1 in
  let '(self, interactions) := check_toggle_buttons self x y index interactions in
  let '(self, interactions) := color_selection self x y index interactions in
  let* '(self, interactions) := pen_size_selection self x y index interactions in
  let self := shape_selection self x y index in
  let* interactions := drawing_mode_check self x y index fingers_up interactions in
  shape_drawing_check self x y fingers_up interactions.

(** [draw_shape(self, canvas, start_point, end_point)]: draws on the array
    [canvas] in place and returns that same array. *)
Definition draw_shape (self : t) (st : Np.Store) (canvas : Np.ref)
    (start_point end_point : Point) : Np.Store * Np.ref :=
  let '(x1, y1) := start_point in
  let '(x2, y2) := end_point in
  let width := Z.abs (x2 - x1) in
  let height := Z.abs (y2 - y1) in
  if bool_decide (current_shape self = Some "Circle"%string) then
    let center := (x1, y1) in
    (* int(min(width, height) / 2): halving a small non-negative integer is
       exact in binary64, so the truncation is the integer quotient *)
    let radius := Z.min width height / 2 in
    (Np.draw st canvas
       (Np.Circle center radius (current_color self) (current_brush_size self)),
     canvas)
  else if bool_decide (current_shape self = Some "Rectangle"%string) then
    (Np.draw st canvas
       (Np.Rectangle start_point end_point (current_color self) (current_brush_size self)),
     canvas)
  else if bool_decide (current_shape self = Some "Triangle"%string) then
    let points := [(x1, y2); (x2, y2); ((x1 + x2) / 2, y1)] in
    (Np.draw st canvas
       (Np.Polylines points true (current_color self) (current_brush_size self)),
     canvas)
  else (st, canvas).

End PainterUI.

(** ** main.py: one iteration of the frame loop *)

Module Main.

(** [cap.set(3, 1280)], [cap.set(4, 720)] *)
Definition FRAME_WIDTH : Z := 1280.
Definition FRAME_HEIGHT : Z := 720.

Definition SAVE_COOLDOWN_FRAMES : Z := 60.
Definition MOUTH_OPEN_THRESHOLD : Z := 10.
Definition alpha : float := lit_0_4.

(** The variables of [main] that live across iterations. *)
Record State : Type := mkState {
  painter_ui : PainterUI.t;
  store : Np.Store;
  canvas : Np.ref;
  previous : Z * Z;
  save_cooldown : Z;
  mouth_open_count : Z;
  smooth : float * float;
}.

(** What the two trackers find in the captured frame. *)
Record Frame : Set := mkFrame {
  multi_hand_landmarks : EnhancedHandTracker.Results;
  mouth_landmarks : list Point;
}.

(** What an iteration does outside the program: the image handed to
    [cv2.imwrite], if any. *)
Record Out : Set := mkOut {
  saved : option Np.ndarray;
}.

(** The state on entry to the loop. *)
Definition init : State :=
  {| painter_ui := PainterUI.init 1280 720;
     store := [Np.white];
     canvas := 0%nat;
     previous := (0, 0);
     save_cooldown := 0;
     mouth_open_count := 0;
     smooth := (float_of_int 0, float_of_int 0) |}.

(** Lines 78-106: the cooldown, the open counter and the trigger.  The
    boolean is true when the canvas is saved in this iteration. *)
Definition save_trigger (save_cooldown mouth_open_count : Z) (is_mouth_open : bool)
  : Z * Z * bool :=
  let save_cooldown := if 0 <? save_cooldown then save_cooldown - 1 else save_cooldown in
  let mouth_open_count := if is_mouth_open then mouth_open_count + 1 else 0 in
  if (MOUTH_OPEN_THRESHOLD <=? mouth_open_count) && (save_cooldown =? 0) then
    (SAVE_COOLDOWN_FRAMES, 0, true)
  else (save_cooldown, mouth_open_count, false).

(** The trigger run over the mouth states of consecutive frames: for each
    frame, whether a save fired. *)
Fixpoint save_events (save_cooldown mouth_open_count : Z) (opens : list bool)
  : list bool :=
  match opens with
  | [] => []
  | is_mouth_open :: opens' =>
      let '(save_cooldown, mouth_open_count, fired) :=
        save_trigger save_cooldown mouth_open_count is_mouth_open in
      fired :: save_events save_cooldown mouth_open_count opens'
  end.

(** Lines 113-114, for one coordinate:
    [alpha * x + (1 - alpha) * smooth_x]. *)
Definition ema (x : Z) (smooth_x : float) : float :=
  fadd (fmul alpha (float_of_int x)) (fmul (fsub (float_of_int 1) alpha) smooth_x).

Definition smooth_update (pointing_finger : Point) (smooth : float * float) : float * float :=
  let '(x, y) := pointing_finger in
  (ema x smooth.1, ema y smooth.2).

(** The smoother after [n] iterations with the raw pointer held constant. *)
Definition hold (n : nat) (pointing_finger : Point) (smooth : float * float)
  : float * float :=
  Nat.iter n (smooth_update pointing_finger) smooth.

(** Lines 131-139: the freehand segment. *)
Definition freehand_segment (st : Np.Store) (canvas : Np.ref) (drawing_mode : bool)
    (previous current : Z * Z) (color : Color) (brush_size : Z) : Np.Store :=
  if drawing_mode && negb (bool_decide (previous = (0, 0))) then
    Np.draw st canvas (Np.Line previous current color brush_size)
  else st.

(** Lines 119-139: what the iteration does to the canvas, given the result
    of the hit test.  Returns the store and the array that the variable
    [canvas] is bound to afterwards. *)
Definition update_canvas (ui : PainterUI.t) (interactions : Interactions.t)
    (st : Np.Store) (canvas : Np.ref) (previous current : Z * Z)
  : Np.Store * Np.ref :=
  (* Clear canvas *)
  let '(st, canvas) :=
    if Interactions.clear_canvas interactions then Np.alloc st Np.white
    else (st, canvas) in
  match Interactions.shape_drawing_mode interactions,
        PainterUI.shape_start_point ui with
  | true, Some shape_start_point =>
      (* Shape drawing mode: create a copy of the canvas to draw preview *)
      let '(st, preview_canvas) := Np.copy st canvas in
      (* canvas = painter_ui.draw_shape(preview_canvas, ...) *)
      PainterUI.draw_shape ui st preview_canvas shape_start_point current
  | _, _ =>
      (* Drawing mode (line drawing) with smoothing *)
      (freehand_segment st canvas (Interactions.drawing_mode interactions)
         previous current
         (PainterUI.current_color ui) (PainterUI.current_brush_size ui),
       canvas)
  end.

(** Lines 110-142: the iteration when there is a pointer and a finger vector. *)
Definition pointer_step (s : State) (pointing_finger : Point) (fingers_up : list bool)
  : result State :=
  (* Exponential smoothing for cursor movement *)
  let '(smooth_x, smooth_y) := smooth_update pointing_finger (smooth s) in
  let* ix := Py.int_of_float smooth_x in
  let* iy := Py.int_of_float smooth_y in
  (* Check UI interactions *)
  let* '(ui, interactions) :=
    PainterUI.handle_interactions (painter_ui s) ix iy fingers_up in
  let '(st, canvas) :=
    update_canvas ui interactions (store s) (canvas s) (previous s) (ix, iy) in
  (* Update previous coordinates *)
  Ok {| painter_ui := ui; store := st; canvas := canvas;
        previous := (ix, iy);
        save_cooldown := save_cooldown s; mouth_open_count := mouth_open_count s;
        smooth := (smooth_x, smooth_y) |}.

(** Lines 143-145: reset previous coordinates when finger is not pointing. *)
Definition reset_previous (s : State) : State :=
  {| painter_ui := painter_ui s; store := store s; canvas := canvas s;
     previous := (0, 0);
     save_cooldown := save_cooldown s; mouth_open_count := mouth_open_count s;
     smooth := smooth s |}.

Definition set_save_state (save_cooldown mouth_open_count : Z) (s : State) : State :=
  {| painter_ui := painter_ui s; store := store s; canvas := canvas s;
     previous := previous s;
     save_cooldown := save_cooldown; mouth_open_count := mouth_open_count;
     smooth := smooth s |}.

(** Lines 63-69: the finger vector, empty unless a hand is detected. *)
Definition detect_fingers (f : Frame) : result (list bool) :=
  match multi_hand_landmarks f with
  | [] => Ok []
  | _ :: _ => EnhancedHandTracker.detect_gesture (multi_hand_landmarks f)
  end.

Definition frame (s : State) (f : Frame) : result (State * Out) :=
  (* Hand detection and gesture recognition *)
  let* fingers_up := detect_fingers f in
  (* Get pointing finger position *)
  let* pointing_finger :=
    EnhancedHandTracker.get_pointing_finger (multi_hand_landmarks f) in
  (* Handle mouth save detection *)
  let* is_mouth_open := MouthTracker.detect_mouth_open (mouth_landmarks f) in
  let '(save_cooldown, mouth_open_count, fired) :=
    save_trigger (save_cooldown s) (mouth_open_count s) is_mouth_open in
  let out := mkOut (if fired then Some (Np.read (store s) (canvas s)) else None) in
  let s := set_save_state save_cooldown mouth_open_count s in
  (* Smooth pointing finger movement *)
  let* s' :=
    match pointing_finger, fingers_up with
    | Some xy, _ :: _ => pointer_step s xy fingers_up
    | _, _ => Ok (reset_previous s)
    end in
  Ok (s', out).

(** The variable [canvas] refers to an allocated array. *)
Definition wf (s : State) : Prop := (canvas s < length (store s))%nat.

(** The loop over a sequence of captured frames. *)
Fixpoint run (s : State) (fs : list Frame) : result (State * list Out) :=
  match fs with
  | [] => Ok (s, [])
  | f :: fs' =>
      let* '(s', o) := frame s f in
      let* '(s'', os) := run s' fs' in
      Ok (s'', o :: os)
  end.

End Main.

(** ** Inputs used in the examples below *)

Module Sample.

(** A hand with all 21 landmarks and the index fingertip at [(x, y)]: index
    finger up, middle, ring and pinky curled, the thumb as asked. *)
Definition hand_at (tip : Point) (thumb_up : bool) : list Point :=
  let '(x, y) := tip in
  [(x, y + 200);
   (x - 40, y + 180); (x - 50, y + 160); (x - 60, y + 140);
   ((if thumb_up then x - 70 else x - 10), y + 120);
   (x, y + 100); (x, y + 50); (x, y + 20); (x, y);
   (x + 20, y + 100); (x + 20, y + 60); (x + 20, y + 80); (x + 20, y + 90);
   (x + 40, y + 100); (x + 40, y + 70); (x + 40, y + 90); (x + 40, y + 95);
   (x + 60, y + 110); (x + 60, y + 80); (x + 60, y + 95); (x + 60, y + 100)].

Definition hand21 : list Point := hand_at (600, 400) false.

(** Partial detections. *)
Definition hand9 : list Point := take 9 hand21.
Definition hand8 : list Point := take 8 hand21.
Definition hand7 : list Point := take 7 hand21.

(** A frame with one such hand and no face, and a frame with nothing. *)
Definition pointing (tip : Point) (thumb_up : bool) : Main.Frame :=
  {| Main.multi_hand_landmarks := [hand_at tip thumb_up];
     Main.mouth_landmarks := [] |}.

Definition no_hand : Main.Frame :=
  {| Main.multi_hand_landmarks := []; Main.mouth_landmarks := [] |}.

(** A whole shape gesture, from the state on entry to the loop: the pointer
    lands on the Shapes toggle, then on the Rectangle button, then the thumb
    rises over the canvas (anchor), the hand moves with the thumb up, and
    the thumb is lowered. *)
Definition shape_gesture : list Main.Frame :=
  [pointing (600, 112) false; pointing (240, 495) false;
   pointing (1140, 663) true; pointing (1200, 700) true;
   pointing (1200, 700) false].

(** A closed mouth, 60 wide and 10 high, and an open one, 60 wide and 30 high. *)
Definition mouth_closed : list Point := [(670, 500); (610, 500); (640, 495); (640, 505)].
Definition mouth_open : list Point := [(670, 500); (610, 500); (640, 485); (640, 515)].

End Sample.

(** ** Checkers for the floating-point facts

    The facts about binary64 arithmetic are established by running the
    operations on every integer of the frame. *)

Module Check.

Definition float_eqb (a b : float) : bool :=
  match a, b with
  | S754_zero s, S754_zero s' => Bool.eqb s s'
  | S754_infinity s, S754_infinity s' => Bool.eqb s s'
  | S754_nan, S754_nan => true
  | S754_finite s m e, S754_finite s' m' e' =>
      Bool.eqb s s' && Pos.eqb m m' && Z.eqb e e'
  | _, _ => false
  end.

(** The integers [0..n]. *)
Definition upto (n : nat) : list Z := Z.of_nat <$> seq 0 (S n).

(** For every width [w] in [0..W]: the binary64 product [w * 0.3] lies in
    the same unit interval [k, k + 1) as [3 * w / 10]. *)
Definition mouth_ratio_row (w : Z) : bool :=
  let product := fmul (float_of_int w) lit_0_3 in
  let k := 3 * w / 10 in
  match product with
  | S754_zero _ | S754_finite _ _ _ =>
      Qle_bool (inject_Z k) (Q_of_float product) &&
      negb (Qle_bool (inject_Z (k + 1)) (Q_of_float product))
  | _ => false
  end.

Definition mouth_ratio_table (W : nat) : bool :=
  forallb mouth_ratio_row (upto W).

(** [a <= b], read off the mantissas when the exponents agree. *)
Definition float_leb (a b : float) : bool :=
  match a, b with
  | S754_finite false m e, S754_finite false m' e' =>
      if e =? e' then (m <=? m')%positive
      else Qle_bool (Q_of_float a) (Q_of_float b)
  | _, _ => Qle_bool (Q_of_float a) (Q_of_float b)
  end.

(** With the raw coordinate held at [x], the smoothed coordinate climbs
    without passing [x] until it stops moving, within [fuel] iterations.
    [ax] is [alpha * x] and [b] is [1 - alpha], computed once. *)
Fixpoint climbs (fuel : nat) (ax b : float) (x : Q) (smooth_x : float) : bool :=
  match fuel with
  | O => false
  | S fuel' =>
      let next := fadd ax (fmul b smooth_x) in
      if float_leb smooth_x next && Qle_bool (Q_of_float next) x
      then if float_eqb next smooth_x then true else climbs fuel' ax b x next
      else false
  end.

Definition climbs_from (x : Z) (smooth_x : float) : bool :=
  climbs 200 (fmul Main.alpha (float_of_int x))
         (fsub (float_of_int 1) Main.alpha) (inject_Z x) smooth_x.

Definition climbs_table (X : nat) : bool :=
  forallb (fun x => climbs_from x (float_of_int 0)) (upto X).

End Check.

(** ** [handle_interactions] after the toggle block *)

Module Blocks.

Import PainterUI.

(** The blocks of [handle_interactions] that follow the toggle block, as
    one function of the state the toggle block leaves. *)
Definition after_toggles (self : PainterUI.t) (x y : Z) (index : bool)
    (fingers_up : list bool) (interactions : Interactions.t)
  : result (PainterUI.t * Interactions.t) :=
  let '(self, interactions) := color_selection self x y index interactions in
  let* '(self, interactions) := pen_size_selection self x y index interactions in
  let self := shape_selection self x y index in
  let* interactions := drawing_mode_check self x y index fingers_up interactions in
  shape_drawing_check self x y fingers_up interactions.

End Blocks.

(** ** painter.py: what is painted on the camera frame *)

Module Render.

(** [UIElement.draw(image)] for an image of [rows] by [cols] pixels: the
    slice [image[y:y_end, x:x_end]] that is overwritten, or nothing when the
    clipped size is not positive.  The blending and the text are cv2 work.
    [is_visible] is set to [True] by the constructor and never assigned
    again. *)
Definition draw (self : UIElement.t) (rows cols : Z) : option (Z * Z * Z * Z) :=
  (* Ensure ROI is within image bounds *)
  let y_end := Z.min (UIElement.y self + UIElement.h self) rows in
  let x_end := Z.min (UIElement.x self + UIElement.w self) cols in
  (* Adjust dimensions to prevent out-of-bounds errors *)
  let h := y_end - UIElement.y self in
  let w := x_end - UIElement.x self in
  if (h <=? 0) || (w <=? 0) then None
  else Some (UIElement.y self, y_end, UIElement.x self, x_end).


End Render.

(** ** The states of the loop *)

Module Reach.

Import Main.

(** What [main] establishes before the loop and every iteration keeps. *)
Definition inv (s : State) : Prop :=
  let ui := painter_ui s in
  wf s /\
  PainterUI.layout ui = PainterUI.layout (PainterUI.init 1280 720) /\
  In (PainterUI.current_brush_size ui) [5; 10; 15; 20] /\
  In (PainterUI.current_color ui)
     [(50, 120, 220); (80, 180, 120); (230, 130, 80); (180, 80, 180);
      (220, 90, 120); (255, 255, 255)] /\
  In (PainterUI.current_shape ui)
     [None; Some "Circle"; Some "Rectangle"; Some "Triangle"]%string /\
  (PainterUI.shape_drawing_mode ui = true ->
   PainterUI.shape_selected ui = true /\ is_Some (PainterUI.shape_start_point ui)) /\
  0 <= save_cooldown s <= SAVE_COOLDOWN_FRAMES /\
  0 <= mouth_open_count s /\
  (save_cooldown s = 0 -> mouth_open_count s < MOUTH_OPEN_THRESHOLD) /\
  (0 < save_cooldown s -> mouth_open_count s <= SAVE_COOLDOWN_FRAMES - save_cooldown s).

End Reach.

(** ** Inputs and checkers used by the properties of the whole iteration *)

Module Scene.

Import Main.

(** A frame with a face, the mouth open, and no hand. *)
Definition gaping : Frame :=
  {| multi_hand_landmarks := []; mouth_landmarks := Sample.mouth_open |}.

(** A frame with a hand of which only the first [n] landmarks are given. *)
Definition partial (n : nat) : Frame :=
  {| multi_hand_landmarks := [take n Sample.hand21]; mouth_landmarks := [] |}.

(** The finger vector with the index finger up and nothing else. *)
Definition index_only : list bool := [false; true; false; false; false].

(** Four buttons of the constructor's layout: the Colors toggle, the second
    swatch, the first pen size and the first shape. *)
Definition colors_toggle : UIElement.t :=
  UIElement.mk 50 20 120 50 (100, 100, 100) "Colors".
Definition green_swatch : UIElement.t :=
  UIElement.mk 140 80 80 50 (80, 180, 120) "".
Definition pen_5 : UIElement.t :=
  UIElement.mk 50 140 120 50 (70, 70, 70) "5".
Definition circle_button : UIElement.t :=
  UIElement.mk 50 200 120 50 (90, 90, 90) "Circle".

(** The state on entry to the loop with the open counter at 9. *)
Definition about_to_save : State := set_save_state 0 9 init.

(** For every raw coordinate [x] in [0..X]: the first smoothed value, from
    0.0, truncates to the integer quotient [2 * x / 5]. *)
Definition first_step_row (x : Z) : bool :=
  match Py.int_of_float (ema x (float_of_int 0)) with
  | Ok i => i =? 2 * x / 5
  | Raise _ => false
  end.

Definition first_step_table (X : nat) : bool :=
  forallb first_step_row (Check.upto X).

End Scene.


(** * Properties *)

(** ** Pointer extraction and finger classification *)

Section HandTracker.

Import EnhancedHandTracker.

Lemma getitem_lookup {A : Type} (l : list A) (i : nat) (a : A) :
  l !! i = Some a -> getitem l i = Ok a.
Proof. intros H. unfold getitem. now rewrite H. Qed.

Lemma getitem_short {A : Type} (l : list A) (i : nat) :
  (length l <= i)%nat -> getitem l i = Raise IndexError.
Proof.
  intros H. unfold getitem.
  now rewrite (proj2 (lookup_ge_None l i) H).
Qed.

(** C3 (as amended): the pointer is the index fingertip (landmark 8) whenever
    at least 9 landmarks are present, in particular whenever all 21 are, and
    there is no pointer when fewer than 8 landmarks are present. *)
Theorem get_pointing_finger_spec (hands : Results) :
  let landmarks := get_hand_landmarks hands in
  ((9 <= length landmarks)%nat ->
     exists p, landmarks !! HandLandmark.INDEX_TIP = Some p /\
               get_pointing_finger hands = Ok (Some p)) /\
  ((length landmarks < 8)%nat -> get_pointing_finger hands = Ok None).
Proof.
  intros landmarks. unfold get_pointing_finger. fold landmarks. split.
  - intros Hlen.
    destruct (lookup_lt_is_Some_2 landmarks HandLandmark.INDEX_TIP) as [p Hp].
    { unfold HandLandmark.INDEX_TIP. lia. }
    exists p. split; [exact Hp|].
    destruct (Nat.leb_spec 8 (length landmarks)) as [_|Hlt]; [|lia].
    now rewrite (getitem_lookup _ _ _ Hp).
  - intros Hlen.
    destruct (Nat.leb_spec 8 (length landmarks)) as [Hge|_]; [lia|reflexivity].
Qed.

Lemma get_pointing_finger_spec_witness :
  get_pointing_finger [Sample.hand21] = Ok (Some (600, 400)) /\
  get_pointing_finger [Sample.hand7] = Ok None.
Proof.
  split.
  - destruct (proj1 (get_pointing_finger_spec [Sample.hand21])) as [p [Hp Hr]].
    + simpl. lia.
    + simpl in Hp. injection Hp as <-. exact Hr.
  - apply (proj2 (get_pointing_finger_spec [Sample.hand7])). simpl. lia.
Defined.

(** C3 as stated fails: nine landmarks are fewer than 21, yet a pointer is
    produced. *)
Lemma get_pointing_finger_nine_landmarks :
  (length (get_hand_landmarks [Sample.hand9]) < 21)%nat /\
  get_pointing_finger [Sample.hand9] = Ok (Some (600, 400)) /\
  get_pointing_finger [Sample.hand9] <> Ok None.
Proof. repeat split; [simpl; lia | discriminate]. Qed.

(** C10: with exactly 8 landmarks the guard [len(landmarks) >= 8] lets the
    call through and [landmarks[8]] is out of range. *)
Theorem get_pointing_finger_eight_landmarks :
  (8 <= length (get_hand_landmarks [Sample.hand8]))%nat /\
  get_pointing_finger [Sample.hand8] = Raise IndexError.
Proof. split; [simpl; lia | reflexivity]. Qed.

(** The classifier never raises: its guard covers every index it reads. *)
Lemma detect_gesture_total (hands : Results) :
  exists fingers_up, detect_gesture hands = Ok fingers_up.
Proof.
  unfold detect_gesture.
  destruct (Nat.ltb_spec (length (get_hand_landmarks hands)) 21) as [_|Hlen];
    [eauto|].
  destruct (get_hand_landmarks hands) as [|? landmarks]; [simpl in Hlen; lia|].
  do 20 (destruct landmarks as [|? landmarks]; [simpl in Hlen; lia|]).
  cbn. eauto.
Qed.

(** C5: fewer than 21 landmarks give the empty result; otherwise the result
    is the vector (thumb, index, middle, ring, pinky), the thumb extended iff
    the x of landmark 4 is below the x of landmark 1, every other finger
    extended iff the y of its tip (8, 12, 16, 20) is strictly below the y of
    its second joint (6, 10, 14, 18). *)
Theorem detect_gesture_spec (hands : Results) :
  let landmarks := get_hand_landmarks hands in
  ((length landmarks < 21)%nat -> detect_gesture hands = Ok []) /\
  ((21 <= length landmarks)%nat ->
     exists thumb_mcp thumb_tip index_pip index_tip middle_pip middle_tip
            ring_pip ring_tip pinky_pip pinky_tip,
       landmarks !! 1%nat = Some thumb_mcp /\ landmarks !! 4%nat = Some thumb_tip /\
       landmarks !! 6%nat = Some index_pip /\ landmarks !! 8%nat = Some index_tip /\
       landmarks !! 10%nat = Some middle_pip /\ landmarks !! 12%nat = Some middle_tip /\
       landmarks !! 14%nat = Some ring_pip /\ landmarks !! 16%nat = Some ring_tip /\
       landmarks !! 18%nat = Some pinky_pip /\ landmarks !! 20%nat = Some pinky_tip /\
       exists thumb index middle ring pinky,
         detect_gesture hands = Ok [thumb; index; middle; ring; pinky] /\
         (thumb = true <-> thumb_tip.1 < thumb_mcp.1) /\
         (index = true <-> index_tip.2 < index_pip.2) /\
         (middle = true <-> middle_tip.2 < middle_pip.2) /\
         (ring = true <-> ring_tip.2 < ring_pip.2) /\
         (pinky = true <-> pinky_tip.2 < pinky_pip.2)).
Proof.
  intros landmarks. unfold detect_gesture. fold landmarks. split.
  - intros Hlen.
    destruct (Nat.ltb_spec (length landmarks) 21) as [_|Hge]; [reflexivity|lia].
  - intros Hlen.
    destruct (Nat.ltb_spec (length landmarks) 21) as [Hlt|_]; [lia|].
    clearbody landmarks.
    do 21 (destruct landmarks as [|? landmarks]; [simpl in Hlen; lia|]).
    clear Hlen. cbn.
    do 10 eexists. repeat (split; [reflexivity|]).
    do 5 eexists. split; [reflexivity|].
    repeat split; intros H;
      first [ apply Z.ltb_lt; exact H | apply Z.ltb_lt in H; exact H ].
Qed.

Lemma detect_gesture_spec_witness :
  detect_gesture [] = Ok [] /\
  exists thumb index middle ring pinky,
    detect_gesture [Sample.hand21] = Ok [thumb; index; middle; ring; pinky] /\
    (index = true <-> 400 < 450).
Proof.
  split.
  - apply (proj1 (detect_gesture_spec [])). simpl. lia.
  - destruct (proj2 (detect_gesture_spec [Sample.hand21])) as
      (p1 & p4 & p6 & p8 & p10 & p12 & p14 & p16 & p18 & p20 &
       H1 & H4 & H6 & H8 & H10 & H12 & H14 & H16 & H18 & H20 &
       thumb & index & middle & ring & pinky & Hr & _ & Hi & _).
    + simpl. lia.
    + simpl in H6, H8. injection H6 as <-. injection H8 as <-.
      exists thumb, index, middle, ring, pinky. split; [exact Hr | exact Hi].
Defined.

End HandTracker.

(** ** The save trigger *)

Section SaveTrigger.

Import Main.

(** While the cooldown exceeds the number of frames left, nothing fires. *)
Lemma save_events_cooldown (opens : list bool) :
  forall cd cnt, Z.of_nat (length opens) < cd ->
  save_events cd cnt opens = replicate (length opens) false.
Proof.
  induction opens as [|o opens IH]; intros cd cnt Hlen; [reflexivity|].
  cbn [length] in Hlen. cbn [save_events length replicate].
  unfold save_trigger.
  destruct (Z.ltb_spec 0 cd) as [_|Hcd]; [|lia].
  destruct (Z.eqb_spec (cd - 1) 0) as [Hz|_]; [lia|].
  rewrite andb_false_r. f_equal. apply IH. lia.
Qed.

(** A save leaves the cooldown at 60 and the counter at 0. *)
Lemma save_trigger_fired (cd cnt : Z) (o : bool) (cd' cnt' : Z) :
  save_trigger cd cnt o = (cd', cnt', true) ->
  cd' = SAVE_COOLDOWN_FRAMES /\ cnt' = 0.
Proof.
  unfold save_trigger.
  destruct (_ && _); intros H; [|discriminate].
  injection H as <- <-. split; reflexivity.
Qed.

(** C4: from a zero open counter, nine open frames and one closed frame fire
    no save, whatever the cooldown; from zero counter and zero cooldown, ten
    open frames fire exactly one save, at the tenth frame; and after a save,
    no save fires in fewer than 60 frames, whatever the mouth does. *)
Theorem save_debounce :
  (forall cd, save_events cd 0 (replicate 9 true ++ [false]) = replicate 10 false) /\
  (save_events 0 0 (replicate 10 true) = replicate 9 false ++ [true]) /\
  (forall cd cnt o cd' cnt',
     save_trigger cd cnt o = (cd', cnt', true) ->
     forall opens, (length opens < 60)%nat ->
     save_events cd' cnt' opens = replicate (length opens) false).
Proof.
  split; [|split].
  - intros cd. vm_compute. reflexivity.
  - reflexivity.
  - intros cd cnt o cd' cnt' Hfired opens Hlen.
    destruct (save_trigger_fired _ _ _ _ _ Hfired) as [-> ->].
    apply save_events_cooldown. unfold SAVE_COOLDOWN_FRAMES. lia.
Qed.

Lemma save_debounce_witness :
  save_events 60 0 (replicate 59 true) = replicate 59 false.
Proof.
  apply (proj2 (proj2 save_debounce) 0 9 true 60 0).
  - reflexivity.
  - simpl. lia.
Defined.

(** The cooldown is tight: with the mouth held open, the next save fires at
    the 60th frame after a save. *)
Lemma save_events_refire :
  save_events 60 0 (replicate 60 true) = replicate 59 false ++ [true].
Proof. reflexivity. Qed.

(** The loop drives the trigger with the mouth test of each frame and saves
    the canvas as it stands when the trigger fires. *)
Lemma pointer_step_save_state (s s' : State) (xy : Point) (fingers_up : list bool) :
  pointer_step s xy fingers_up = Ok s' ->
  save_cooldown s' = save_cooldown s /\ mouth_open_count s' = mouth_open_count s.
Proof.
  unfold pointer_step. intros H.
  destruct (smooth_update xy (smooth s)) as [smooth_x smooth_y].
  destruct (Py.int_of_float smooth_x) as [ix|]; [|discriminate].
  destruct (Py.int_of_float smooth_y) as [iy|]; [|discriminate].
  cbn [Py.bind] in H.
  destruct (PainterUI.handle_interactions _ _ _ _) as [[ui interactions]|];
    [|discriminate].
  cbn [Py.bind] in H.
  destruct (update_canvas _ _ _ _ _ _) as [st cv].
  injection H as <-. split; reflexivity.
Qed.

Lemma frame_save_trigger (s s' : State) (f : Frame) (o : Out) :
  frame s f = Ok (s', o) ->
  exists is_mouth_open fired,
    MouthTracker.detect_mouth_open (mouth_landmarks f) = Ok is_mouth_open /\
    save_trigger (save_cooldown s) (mouth_open_count s) is_mouth_open
    = (save_cooldown s', mouth_open_count s', fired) /\
    saved o = if fired then Some (Np.read (store s) (canvas s)) else None.
Proof.
  unfold frame. intros H.
  destruct (detect_fingers f) as [fingers_up|]; [|discriminate].
  cbn [Py.bind] in H.
  destruct (EnhancedHandTracker.get_pointing_finger _) as [pointing_finger|];
    [|discriminate].
  cbn [Py.bind] in H.
  destruct (MouthTracker.detect_mouth_open _) as [is_mouth_open|]; [|discriminate].
  cbn [Py.bind] in H.
  exists is_mouth_open.
  destruct (save_trigger _ _ _) as [[cd cnt] fired].
  exists fired. split; [reflexivity|].
  destruct (match pointing_finger with Some _ => _ | None => _ end) as [s1|] eqn:Hstep;
    [|discriminate].
  cbn [Py.bind] in H. injection H as <- <-.
  destruct pointing_finger as [xy|]; [destruct fingers_up as [|b fingers_up]|].
  - injection Hstep as <-. split; reflexivity.
  - apply pointer_step_save_state in Hstep as [-> ->]. split; reflexivity.
  - injection Hstep as <-. split; reflexivity.
Qed.

End SaveTrigger.

(** ** The hit-test engine *)

Section HitTest.

Import PainterUI.

(** With the index finger down, the four selection blocks and the freehand
    test do nothing. *)
Lemma check_toggle_buttons_index_down self x y i :
  check_toggle_buttons self x y false i = (self, i).
Proof. reflexivity. Qed.

Lemma color_selection_index_down self x y i :
  color_selection self x y false i = (self, i).
Proof. unfold color_selection. now rewrite andb_false_r. Qed.

Lemma pen_size_selection_index_down self x y i :
  pen_size_selection self x y false i = Ok (self, i).
Proof. unfold pen_size_selection. now rewrite andb_false_r. Qed.

Lemma shape_selection_index_down self x y :
  shape_selection self x y false = self.
Proof. unfold shape_selection. now rewrite andb_false_r. Qed.

Lemma drawing_mode_check_index_down self x y fingers_up i :
  drawing_mode_check self x y false fingers_up i = Ok i.
Proof. unfold drawing_mode_check. now destruct (UIElement.is_over _ _ _). Qed.

(** C9: with the index finger down, [handle_interactions] keeps the colour,
    the brush size and the three visibility flags, and reports no colour
    change, brush-size change, clear, save or freehand drawing. *)
Theorem handle_interactions_index_down
    (self : PainterUI.t) (x y : Z) (fingers_up : list bool) :
  length fingers_up = 5%nat ->
  fingers_up !! 1%nat = Some false ->
  exists self' interactions,
    handle_interactions self x y fingers_up = Ok (self', interactions) /\
    current_color self' = current_color self /\
    current_brush_size self' = current_brush_size self /\
    hide_colors self' = hide_colors self /\
    hide_pen_sizes self' = hide_pen_sizes self /\
    hide_shapes self' = hide_shapes self /\
    Interactions.color_changed interactions = false /\
    Interactions.brush_size_changed interactions = false /\
    Interactions.clear_canvas interactions = false /\
    Interactions.save_drawing interactions = false /\
    Interactions.drawing_mode interactions = false.
Proof.
  intros Hlen Hindex.
  destruct fingers_up as [|thumb [|index rest]]; try discriminate.
  cbn in Hindex. injection Hindex as ->.
  unfold handle_interactions.
  cbn [getitem lookup list_lookup Py.bind].
  rewrite check_toggle_buttons_index_down, color_selection_index_down,
    pen_size_selection_index_down.
  cbn [Py.bind].
  rewrite shape_selection_index_down, drawing_mode_check_index_down.
  cbn [Py.bind]. unfold shape_drawing_check.
  destruct (UIElement.is_over (canvas self) x y);
    [|eexists _, _; repeat split; reflexivity].
  destruct (negb (hide_shapes self) && shape_selected self);
    [|eexists _, _; repeat split; reflexivity].
  cbn [getitem lookup list_lookup Py.bind].
  destruct (shape_drawing_mode self), thumb; cbn;
    eexists _, _; repeat split; reflexivity.
Qed.

Lemma handle_interactions_index_down_witness :
  exists self' interactions,
    handle_interactions (init 1280 720) 600 400 [true; false; false; false; false]
    = Ok (self', interactions) /\
    current_color self' = current_color (init 1280 720) /\
    current_brush_size self' = current_brush_size (init 1280 720) /\
    hide_colors self' = hide_colors (init 1280 720) /\
    hide_pen_sizes self' = hide_pen_sizes (init 1280 720) /\
    hide_shapes self' = hide_shapes (init 1280 720) /\
    Interactions.color_changed interactions = false /\
    Interactions.brush_size_changed interactions = false /\
    Interactions.clear_canvas interactions = false /\
    Interactions.save_drawing interactions = false /\
    Interactions.drawing_mode interactions = false.
Proof. apply handle_interactions_index_down; reflexivity. Defined.

(** *** The rows of the layout *)

Lemma first_over_Some (group : list UIElement.t) (x y : Z) (el : UIElement.t) :
  first_over group x y = Some el ->
  In el group /\ UIElement.is_over el x y = true.
Proof. unfold first_over. apply find_some. Qed.

Lemma is_over_row (el : UIElement.t) (x y : Z) :
  UIElement.is_over el x y = true ->
  UIElement.x el < x < UIElement.x el + UIElement.w el /\
  UIElement.y el < y < UIElement.y el + UIElement.h el.
Proof. unfold UIElement.is_over. lia. Qed.

Lemma first_over_other_row (group : list UIElement.t) (x y : Z) :
  Forall (fun el => y <= UIElement.y el \/ UIElement.y el + UIElement.h el <= y) group ->
  first_over group x y = None.
Proof.
  intros Hrow. unfold first_over.
  destruct (List.find _ group) as [el|] eqn:Hfind; [|reflexivity].
  apply find_some in Hfind as [Hin Hover].
  apply is_over_row in Hover.
  rewrite Forall_forall in Hrow. apply list_elem_of_In in Hin.
  specialize (Hrow el Hin). lia.
Qed.

(** The swatches lie in the row 80 < y < 130. *)
Lemma colors_row (width height x y : Z) (el : UIElement.t) :
  first_over (colors (init width height)) x y = Some el ->
  80 < y < 130.
Proof.
  intros Hfind. apply first_over_Some in Hfind as [Hin Hover].
  apply is_over_row in Hover as [_ Hy].
  cbn in Hin.
  repeat (destruct Hin as [<-|Hin]; [cbn in Hy; lia|]).
  destruct Hin.
Qed.

Lemma toggle_buttons_row (width height x y : Z) :
  70 <= y -> first_over (toggle_buttons (init width height)) x y = None.
Proof.
  intros Hy. apply first_over_other_row. cbn.
  repeat (constructor; [cbn; lia|]). constructor.
Qed.

Lemma pen_sizes_row (width height x y : Z) :
  y <= 140 -> first_over (pen_sizes (init width height)) x y = None.
Proof.
  intros Hy. apply first_over_other_row. cbn.
  repeat (constructor; [cbn; lia|]). constructor.
Qed.

Lemma shapes_row (width height x y : Z) :
  y <= 200 -> first_over (shapes (init width height)) x y = None.
Proof.
  intros Hy. apply first_over_other_row. cbn.
  repeat (constructor; [cbn; lia|]). constructor.
Qed.

Lemma canvas_row (width height x y : Z) :
  y <= 130 -> UIElement.is_over (canvas (init width height)) x y = false.
Proof. intros Hy. unfold UIElement.is_over. cbn. lia. Qed.

(** No point is inside both a swatch and the canvas region: the swatch row
    ends where the canvas begins. *)
Lemma swatch_outside_canvas (width height x y : Z) (el : UIElement.t) :
  first_over (colors (init width height)) x y = Some el ->
  UIElement.is_over (canvas (init width height)) x y = false.
Proof. intros Hel. apply colors_row in Hel. apply canvas_row. lia. Qed.

Lemma layout_eq (self other : PainterUI.t) :
  layout self = layout other ->
  toggle_buttons self = toggle_buttons other /\
  colors self = colors other /\
  pen_sizes self = pen_sizes other /\
  shapes self = shapes other /\
  canvas self = canvas other.
Proof. unfold layout. intros H. injection H as -> _ -> -> -> -> _. auto. Qed.

(** *** The layout is never reassigned *)

Lemma check_toggle_buttons_layout self x y index i :
  layout (check_toggle_buttons self x y index i).1 = layout self.
Proof.
  unfold check_toggle_buttons.
  destruct index; [|reflexivity].
  destruct (first_over _ _ _); [|reflexivity].
  repeat (destruct (bool_decide _); [reflexivity|]). reflexivity.
Qed.

Lemma color_selection_layout self x y index i :
  layout (color_selection self x y index i).1 = layout self.
Proof.
  unfold color_selection.
  destruct (_ && _); [|reflexivity].
  destruct (first_over _ _ _); [|reflexivity].
  destruct (bool_decide _); reflexivity.
Qed.

Lemma pen_size_selection_layout self x y index i self' i' :
  pen_size_selection self x y index i = Ok (self', i') ->
  layout self' = layout self.
Proof.
  unfold pen_size_selection.
  destruct (_ && _); [|now intros [= <- _]].
  destruct (first_over _ _ _) as [btn|]; [|now intros [= <- _]].
  destruct (Py.int_of_str _); [|discriminate].
  now intros [= <- _].
Qed.

Lemma shape_selection_layout self x y index :
  layout (shape_selection self x y index) = layout self.
Proof.
  unfold shape_selection.
  destruct (_ && _); [|reflexivity].
  destruct (first_over _ _ _); reflexivity.
Qed.

Lemma shape_drawing_check_layout self x y fingers_up i self' i' :
  shape_drawing_check self x y fingers_up i = Ok (self', i') ->
  layout self' = layout self.
Proof.
  unfold shape_drawing_check.
  destruct (UIElement.is_over _ _ _); [|now intros [= <- _]].
  destruct (_ && _); [|now intros [= <- _]].
  destruct (getitem fingers_up 0) as [thumb|]; [|discriminate].
  cbn [Py.bind].
  destruct (_ && thumb); [now intros [= <- _]|].
  destruct (_ && negb thumb); now intros [= <- _].
Qed.

Lemma handle_interactions_layout self x y fingers_up self' interactions :
  handle_interactions self x y fingers_up = Ok (self', interactions) ->
  layout self' = layout self.
Proof.
  unfold handle_interactions.
  destruct (getitem fingers_up 1) as [index|]; [|discriminate].
  cbn [Py.bind].
  pose proof (check_toggle_buttons_layout self x y index Interactions.none) as H1.
  destruct (check_toggle_buttons _ _ _ _ _) as [self1 i1]. cbn [fst] in H1.
  pose proof (color_selection_layout self1 x y index i1) as H2.
  destruct (color_selection _ _ _ _ _) as [self2 i2]. cbn [fst] in H2.
  destruct (pen_size_selection _ _ _ _ _) as [[self3 i3]|] eqn:H3; [|discriminate].
  apply pen_size_selection_layout in H3.
  cbn [Py.bind].
  pose proof (shape_selection_layout self3 x y index) as H4.
  destruct (drawing_mode_check _ _ _ _ _ _) as [i4|]; [|discriminate].
  cbn [Py.bind]. intros H5. apply shape_drawing_check_layout in H5.
  congruence.
Qed.

(** C2: with the layout built by [__init__], a pointer inside a visible
    colour swatch with the index finger up selects that swatch's colour and
    reports [color_changed] and no [drawing_mode].  No such pointer is inside
    the canvas region ([swatch_outside_canvas]), so the statement covers every
    pointer inside both. *)
Theorem swatch_hit_is_not_a_draw
    (self : PainterUI.t) (width height x y : Z) (fingers_up : list bool)
    (color_btn : UIElement.t) :
  layout self = layout (init width height) ->
  hide_colors self = false ->
  length fingers_up = 5%nat ->
  fingers_up !! 1%nat = Some true ->
  first_over (colors self) x y = Some color_btn ->
  exists self' interactions,
    handle_interactions self x y fingers_up = Ok (self', interactions) /\
    Interactions.color_changed interactions = true /\
    Interactions.drawing_mode interactions = false /\
    current_color self' =
      (if bool_decide (UIElement.text color_btn = "Eraser"%string)
       then canvas_background_color self else UIElement.color color_btn).
Proof.
  intros Hlayout Hvisible Hlen Hindex Hbtn.
  apply layout_eq in Hlayout as (Htoggle & Hcolors & Hpens & Hshapes & Hcanvas).
  assert (Hy : 80 < y < 130).
  { rewrite Hcolors in Hbtn. now apply colors_row in Hbtn. }
  destruct fingers_up as [|thumb [|index rest]]; try discriminate.
  cbn in Hindex. injection Hindex as ->.
  unfold handle_interactions.
  cbn [getitem lookup list_lookup Py.bind].
  unfold check_toggle_buttons.
  rewrite Htoggle, toggle_buttons_row by lia.
  unfold color_selection. rewrite Hvisible, Hbtn. cbn [negb andb].
  set (self1 := if bool_decide (UIElement.text color_btn = "Eraser"%string)
                then _ else _).
  assert (H1 : pen_sizes self1 = pen_sizes self /\ shapes self1 = shapes self /\
               canvas self1 = canvas self /\
               current_color self1 =
                 (if bool_decide (UIElement.text color_btn = "Eraser"%string)
                  then canvas_background_color self else UIElement.color color_btn)).
  { subst self1. destruct (bool_decide _); repeat split; reflexivity. }
  destruct H1 as (Hpens1 & Hshapes1 & Hcanvas1 & Hcolor1).
  clearbody self1.
  unfold pen_size_selection.
  rewrite Hpens1, Hpens, pen_sizes_row by lia.
  replace (if negb (hide_pen_sizes self1) && true
           then Ok (self1, Interactions.set_color_changed Interactions.none)
           else Ok (self1, Interactions.set_color_changed Interactions.none))
    with (Ok (self1, Interactions.set_color_changed Interactions.none))
    by (now destruct (negb _ && true)).
  cbn [Py.bind].
  unfold shape_selection.
  rewrite Hshapes1, Hshapes, shapes_row by lia.
  replace (if negb (hide_shapes self1) && true then self1 else self1)
    with self1 by (now destruct (negb _ && true)).
  unfold drawing_mode_check, shape_drawing_check.
  rewrite Hcanvas1, Hcanvas, canvas_row by lia.
  cbn [Py.bind].
  eexists _, _. split; [reflexivity|]. repeat split. exact Hcolor1.
Qed.

Lemma swatch_hit_is_not_a_draw_witness :
  exists self' interactions,
    handle_interactions (set_hide_colors false (init 1280 720)) 180 100
      [false; true; false; false; false]
    = Ok (self', interactions) /\
    Interactions.color_changed interactions = true /\
    Interactions.drawing_mode interactions = false /\
    current_color self' = (80, 180, 120).
Proof.
  apply (swatch_hit_is_not_a_draw (set_hide_colors false (init 1280 720))
           1280 720 180 100 [false; true; false; false; false]
           (UIElement.mk 140 80 80 50 (80, 180, 120) ""));
    reflexivity.
Defined.

End HitTest.

(** ** The canvas and the frame loop *)

Section Canvas.

Import Main.

Lemma read_alloc (st : Np.Store) (a : Np.ndarray) (r : Np.ref) :
  (r < length st)%nat -> Np.read (Np.alloc st a).1 r = Np.read st r.
Proof.
  intros Hr. unfold Np.read, Np.alloc. cbn [fst snd].
  now rewrite lookup_app_l.
Qed.

Lemma read_alloc_new (st : Np.Store) (a : Np.ndarray) :
  Np.read (Np.alloc st a).1 (Np.alloc st a).2 = a.
Proof.
  unfold Np.read, Np.alloc. cbn [fst snd].
  rewrite lookup_app_r by lia. now rewrite Nat.sub_diag.
Qed.

Lemma read_draw_other (st : Np.Store) (r r' : Np.ref) (c : Np.DrawCall) :
  r <> r' -> Np.read (Np.draw st r' c) r = Np.read st r.
Proof.
  intros Hne. unfold Np.read, Np.draw.
  rewrite list_lookup_insert_ne by congruence. reflexivity.
Qed.

Lemma read_draw (st : Np.Store) (r : Np.ref) (c : Np.DrawCall) :
  (r < length st)%nat -> Np.read (Np.draw st r c) r = Np.read st r ++ [c].
Proof.
  intros Hr. unfold Np.read at 1, Np.draw.
  rewrite list_lookup_insert_eq by exact Hr. reflexivity.
Qed.

Lemma length_draw (st : Np.Store) (r : Np.ref) (c : Np.DrawCall) :
  length (Np.draw st r c) = length st.
Proof. unfold Np.draw. apply length_insert. Qed.

(** [draw_shape] returns its target and touches no other array. *)
Lemma draw_shape_spec (ui : PainterUI.t) (st : Np.Store) (target : Np.ref)
    (p q : Point) :
  (PainterUI.draw_shape ui st target p q).2 = target /\
  length (PainterUI.draw_shape ui st target p q).1 = length st /\
  forall r, r <> target ->
    Np.read (PainterUI.draw_shape ui st target p q).1 r = Np.read st r.
Proof.
  unfold PainterUI.draw_shape. destruct p as [x1 y1], q as [x2 y2].
  repeat (destruct (bool_decide _); cbn [fst snd];
          [rewrite length_draw; repeat split; intros r Hr;
           now apply read_draw_other|]).
  auto.
Qed.

(** The mouth test never raises. *)
Lemma detect_mouth_open_total (mouth_landmarks : list Point) :
  exists is_mouth_open,
    MouthTracker.detect_mouth_open mouth_landmarks = Ok is_mouth_open.
Proof.
  unfold MouthTracker.detect_mouth_open.
  destruct (Nat.leb_spec 4 (length mouth_landmarks)) as [Hlen|_]; [|eauto].
  do 4 (destruct mouth_landmarks as [|? mouth_landmarks]; [simpl in Hlen; lia|]).
  cbn. eauto.
Qed.

(** The canvas step: [canvas] stays bound to an allocated array, no array is
    freed, and with the previous point at the (0, 0) marker the array that
    [canvas] referred to is left as it was. *)
Lemma update_canvas_spec ui interactions st cv previous current :
  (cv < length st)%nat ->
  ((update_canvas ui interactions st cv previous current).2
   < length (update_canvas ui interactions st cv previous current).1)%nat /\
  (length st <= length (update_canvas ui interactions st cv previous current).1)%nat /\
  (previous = (0, 0) ->
   Np.read (update_canvas ui interactions st cv previous current).1 cv = Np.read st cv).
Proof.
  intros Hwf. unfold update_canvas.
  destruct (if Interactions.clear_canvas interactions then _ else _)
    as [st1 cv1] eqn:Hclear.
  assert (H1 : (cv1 < length st1)%nat /\ (length st <= length st1)%nat /\
               Np.read st1 cv = Np.read st cv).
  { destruct (Interactions.clear_canvas interactions); injection Hclear as <- <-.
    - rewrite length_app. cbn [length]. repeat split; try lia.
      unfold Np.read. now rewrite lookup_app_l.
    - auto. }
  destruct H1 as (Hwf1 & Hlen1 & Hread1).
  destruct (Interactions.shape_drawing_mode interactions);
    [destruct (PainterUI.shape_start_point ui) as [p|]|].
  - unfold Np.copy, Np.alloc.
    destruct (draw_shape_spec ui (st1 ++ [Np.read st1 cv1]) (length st1) p current)
      as (-> & -> & Hother).
    rewrite length_app. cbn [length]. repeat split; try lia.
    intros _. rewrite Hother by lia.
    rewrite <- Hread1. unfold Np.read. rewrite lookup_app_l by lia. reflexivity.
  - cbn [fst snd]. unfold freehand_segment.
    destruct (_ && _) eqn:Hdraw; rewrite ?length_draw; repeat split; try lia.
    + intros ->. rewrite bool_decide_eq_true_2 in Hdraw by reflexivity.
      now rewrite andb_false_r in Hdraw.
    + intros _. exact Hread1.
  - cbn [fst snd]. unfold freehand_segment.
    destruct (_ && _) eqn:Hdraw; rewrite ?length_draw; repeat split; try lia.
    + intros ->. rewrite bool_decide_eq_true_2 in Hdraw by reflexivity.
      now rewrite andb_false_r in Hdraw.
    + intros _. exact Hread1.
Qed.

(** In the shape branch the variable [canvas] ends up bound to the copy that
    [draw_shape] drew on, while the array it was bound to is not touched. *)
Lemma update_canvas_shape ui interactions st cv previous current anchor :
  (cv < length st)%nat ->
  Interactions.clear_canvas interactions = false ->
  Interactions.shape_drawing_mode interactions = true ->
  PainterUI.shape_start_point ui = Some anchor ->
  PainterUI.current_shape ui = Some "Rectangle"%string ->
  let after := update_canvas ui interactions st cv previous current in
  after.2 = length st /\
  Np.read after.1 after.2
  = Np.read st cv ++ [Np.Rectangle anchor current (PainterUI.current_color ui)
                                   (PainterUI.current_brush_size ui)] /\
  Np.read after.1 cv = Np.read st cv.
Proof.
  intros Hwf Hclear Hshape Hanchor Hrect after. subst after.
  unfold update_canvas. rewrite Hclear, Hshape, Hanchor.
  unfold Np.copy, Np.alloc, PainterUI.draw_shape.
  destruct anchor as [x1 y1], current as [x2 y2].
  rewrite Hrect.
  rewrite bool_decide_eq_false_2 by discriminate.
  rewrite bool_decide_eq_true_2 by reflexivity.
  cbn [fst snd]. split; [reflexivity|]. split.
  - rewrite read_draw by (rewrite length_app; cbn [length]; lia).
    f_equal. apply (read_alloc_new st (Np.read st cv)).
  - rewrite read_draw_other by lia. apply (read_alloc st _ cv Hwf).
Qed.

(** What a successful pointer step is made of. *)
Lemma pointer_step_inv (s s' : State) (xy : Point) (fingers_up : list bool) :
  pointer_step s xy fingers_up = Ok s' ->
  exists ix iy ui interactions,
    Py.int_of_float (smooth_update xy (smooth s)).1 = Ok ix /\
    Py.int_of_float (smooth_update xy (smooth s)).2 = Ok iy /\
    PainterUI.handle_interactions (painter_ui s) ix iy fingers_up
    = Ok (ui, interactions) /\
    s' = {| painter_ui := ui;
            store := (update_canvas ui interactions (store s) (canvas s)
                        (previous s) (ix, iy)).1;
            canvas := (update_canvas ui interactions (store s) (canvas s)
                         (previous s) (ix, iy)).2;
            previous := (ix, iy);
            save_cooldown := save_cooldown s;
            mouth_open_count := mouth_open_count s;
            smooth := smooth_update xy (smooth s) |}.
Proof.
  unfold pointer_step. intros H.
  destruct (smooth_update xy (smooth s)) as [smooth_x smooth_y].
  cbn [fst snd].
  destruct (Py.int_of_float smooth_x) as [ix|] eqn:Hix; [|discriminate].
  destruct (Py.int_of_float smooth_y) as [iy|] eqn:Hiy; [|discriminate].
  cbn [Py.bind] in H.
  destruct (PainterUI.handle_interactions _ _ _ _) as [[ui interactions]|] eqn:Hui;
    [|discriminate].
  cbn [Py.bind] in H.
  destruct (update_canvas _ _ _ _ _ _) as [st cv] eqn:Hcanvas.
  injection H as <-.
  exists ix, iy, ui, interactions. rewrite Hcanvas. cbn [fst snd].
  repeat split; first [assumption|reflexivity].
Qed.

(** What a successful iteration is made of. *)
Lemma frame_inv (s s' : State) (f : Frame) (o : Out) :
  frame s f = Ok (s', o) ->
  exists fingers_up pointing_finger cd cnt,
    detect_fingers f = Ok fingers_up /\
    EnhancedHandTracker.get_pointing_finger (multi_hand_landmarks f)
    = Ok pointing_finger /\
    match pointing_finger, fingers_up with
    | Some xy, _ :: _ => pointer_step (set_save_state cd cnt s) xy fingers_up = Ok s'
    | _, _ => s' = reset_previous (set_save_state cd cnt s)
    end.
Proof.
  unfold frame. intros H.
  destruct (detect_fingers f) as [fingers_up|]; [|discriminate].
  cbn [Py.bind] in H.
  destruct (EnhancedHandTracker.get_pointing_finger _) as [pointing_finger|];
    [|discriminate].
  cbn [Py.bind] in H.
  destruct (MouthTracker.detect_mouth_open _) as [is_mouth_open|]; [|discriminate].
  cbn [Py.bind] in H.
  destruct (save_trigger _ _ _) as [[cd cnt] fired].
  exists fingers_up, pointing_finger, cd, cnt. do 2 (split; [reflexivity|]).
  destruct pointing_finger as [xy|]; [destruct fingers_up as [|b fingers_up]|];
    cbn [Py.bind] in H.
  - now injection H as <- _.
  - destruct (pointer_step _ _ _) as [s1|]; [|discriminate].
    cbn [Py.bind] in H. now injection H as <- _.
  - now injection H as <- _.
Qed.

(** Every iteration keeps [canvas] bound to an allocated array. *)
Lemma frame_wf (s s' : State) (f : Frame) (o : Out) :
  wf s -> frame s f = Ok (s', o) -> wf s'.
Proof.
  intros Hwf Hframe.
  apply frame_inv in Hframe
    as (fingers_up & pointing_finger & cd & cnt & _ & _ & Hstep).
  destruct pointing_finger as [xy|]; [destruct fingers_up as [|b fingers_up]|];
    try (subst s'; exact Hwf).
  apply pointer_step_inv in Hstep as (ix & iy & ui & interactions & _ & _ & _ & ->).
  unfold wf. cbn [store canvas set_save_state previous].
  now apply update_canvas_spec.
Qed.

(** The loop never changes the layout of the UI. *)
Lemma frame_layout (s s' : State) (f : Frame) (o : Out) :
  frame s f = Ok (s', o) ->
  PainterUI.layout (painter_ui s') = PainterUI.layout (painter_ui s).
Proof.
  intros Hframe.
  apply frame_inv in Hframe
    as (fingers_up & pointing_finger & cd & cnt & _ & _ & Hstep).
  destruct pointing_finger as [xy|]; [destruct fingers_up as [|b fingers_up]|];
    try (subst s'; reflexivity).
  apply pointer_step_inv in Hstep as (ix & iy & ui & interactions & _ & _ & Hui & ->).
  cbn [painter_ui]. now apply handle_interactions_layout in Hui.
Qed.

Lemma run_layout (fs : list Frame) : forall s s' outs,
  run s fs = Ok (s', outs) ->
  PainterUI.layout (painter_ui s') = PainterUI.layout (painter_ui s).
Proof.
  induction fs as [|f fs IH]; intros s s' outs Hrun.
  - cbn in Hrun. now injection Hrun as <- _.
  - cbn [run] in Hrun.
    destruct (frame s f) as [[s1 o]|] eqn:Hframe; [|discriminate].
    cbn [Py.bind] in Hrun.
    destruct (run s1 fs) as [[s2 os]|] eqn:Hrest; [|discriminate].
    cbn [Py.bind] in Hrun. injection Hrun as <- _.
    rewrite (IH _ _ _ Hrest). now apply frame_layout in Hframe.
Qed.

(** C6: a freehand segment whose from-point is the (0, 0) marker draws
    nothing, for every destination; an iteration entered with the previous
    point at the marker leaves the canvas array as it was; and an iteration
    without a pointer completes with the previous point reset to (0, 0). *)
Theorem stroke_discontinuity_guard :
  (forall st cv drawing_mode current color brush_size,
     freehand_segment st cv drawing_mode (0, 0) current color brush_size = st) /\
  (forall s f s' o,
     wf s -> previous s = (0, 0) -> frame s f = Ok (s', o) ->
     Np.read (store s') (canvas s) = Np.read (store s) (canvas s)) /\
  (forall s f,
     EnhancedHandTracker.get_pointing_finger (multi_hand_landmarks f) = Ok None ->
     exists s' o, frame s f = Ok (s', o) /\ previous s' = (0, 0)).
Proof.
  split; [|split].
  - intros st cv drawing_mode current color brush_size.
    unfold freehand_segment.
    rewrite bool_decide_eq_true_2 by reflexivity. now rewrite andb_false_r.
  - intros s f s' o Hwf Hprev Hframe.
    apply frame_inv in Hframe
      as (fingers_up & pointing_finger & cd & cnt & _ & _ & Hstep).
    destruct pointing_finger as [xy|]; [destruct fingers_up as [|b fingers_up]|];
      try (subst s'; reflexivity).
    apply pointer_step_inv in Hstep as (ix & iy & ui & interactions & _ & _ & _ & ->).
    cbn [store canvas set_save_state previous].
    now apply update_canvas_spec.
  - intros s f Hptr. unfold frame.
    assert (Hfingers : exists fingers_up, detect_fingers f = Ok fingers_up).
    { unfold detect_fingers.
      destruct (multi_hand_landmarks f); [eauto|apply detect_gesture_total]. }
    destruct Hfingers as [fingers_up ->]. rewrite Hptr.
    destruct (detect_mouth_open_total (mouth_landmarks f)) as [is_mouth_open ->].
    cbn [Py.bind].
    destruct (save_trigger _ _ _) as [[cd cnt] fired].
    cbn [Py.bind]. eexists _, _. split; reflexivity.
Qed.

Lemma stroke_discontinuity_guard_witness :
  (exists s' o, frame init (Sample.pointing (600, 400) false) = Ok (s', o) /\
                Np.read (store s') (canvas init) = Np.read (store init) (canvas init)) /\
  (exists s' o, frame init Sample.no_hand = Ok (s', o) /\ previous s' = (0, 0)).
Proof.
  split.
  - eexists _, _. split; [vm_compute; reflexivity|].
    apply (proj1 (proj2 stroke_discontinuity_guard)
             init (Sample.pointing (600, 400) false) _ (mkOut None)).
    + unfold wf. cbn. lia.
    + reflexivity.
    + vm_compute. reflexivity.
  - apply (proj2 (proj2 stroke_discontinuity_guard) init Sample.no_hand).
    reflexivity.
Defined.

(** C1: the shape gesture run from the state on entry to the loop.  After
    the anchor frame the UI is in the preview phase and the array bound to
    [canvas] already holds a rectangle, from the anchor to the anchor; the
    frame that leaves the shape mode adds a freehand line and no rectangle
    from the anchor to the pointer. *)
Theorem shape_gesture_on_canvas :
  exists anchored outs3 done outs5,
    run init (take 3 Sample.shape_gesture) = Ok (anchored, outs3) /\
    PainterUI.shape_drawing_mode (painter_ui anchored) = true /\
    PainterUI.shape_start_point (painter_ui anchored) = Some (600, 400) /\
    Np.read (store anchored) (canvas anchored)
    = [Np.Line (240, 44) (240, 224) (50, 120, 220) 5;
       Np.Rectangle (600, 400) (600, 400) (50, 120, 220) 5] /\
    run init Sample.shape_gesture = Ok (done, outs5) /\
    PainterUI.shape_drawing_mode (painter_ui done) = false /\
    PainterUI.current_shape (painter_ui done) = None /\
    previous done = (984, 592) /\
    Np.read (store done) (canvas done)
    = [Np.Line (240, 44) (240, 224) (50, 120, 220) 5;
       Np.Rectangle (600, 400) (600, 400) (50, 120, 220) 5;
       Np.Line (840, 520) (984, 592) (50, 120, 220) 5].
Proof.
  eexists _, _, _, _.
  split; [vm_compute; reflexivity|].
  do 3 (split; [reflexivity|]).
  split; [vm_compute; reflexivity|].
  repeat split; reflexivity.
Qed.

End Canvas.

(** ** Floating point: the mouth test and the pointer smoother *)

Section Floats.

Import Main.

Lemma float_eqb_eq (a b : float) : Check.float_eqb a b = true -> a = b.
Proof.
  destruct a as [s|s| |s m e], b as [s'|s'| |s' m' e']; cbn; try discriminate.
  - intros H. apply eqb_prop in H. now subst.
  - intros H. apply eqb_prop in H. now subst.
  - reflexivity.
  - intros H. apply andb_true_iff in H as [H He].
    apply andb_true_iff in H as [Hs Hm].
    apply eqb_prop in Hs. apply Pos.eqb_eq in Hm. apply Z.eqb_eq in He.
    now subst.
Qed.

Lemma upto_In (n : nat) (z : Z) : 0 <= z <= Z.of_nat n -> In z (Check.upto n).
Proof.
  intros Hz. unfold Check.upto. apply list_elem_of_In.
  apply list_elem_of_fmap. exists (Z.to_nat z). split; [lia|].
  apply list_elem_of_In, in_seq. lia.
Qed.

(** The two literals are the correctly rounded quotients. *)
Lemma literals_rounded :
  lit_0_3 = fdiv (float_of_int 3) (float_of_int 10) /\
  lit_0_4 = fdiv (float_of_int 4) (float_of_int 10).
Proof. split; vm_compute; reflexivity. Qed.

(** *** The mouth test *)

Lemma mouth_ratio_row_sound (w h : Z) :
  0 <= w ->
  Check.mouth_ratio_row w = true ->
  int_gt_float h (fmul (float_of_int w) lit_0_3) = (3 * w <? 10 * h).
Proof.
  intros Hw. unfold Check.mouth_ratio_row.
  set (product := fmul (float_of_int w) lit_0_3).
  set (k := 3 * w / 10).
  assert (Hk : 10 * k <= 3 * w < 10 * k + 10).
  { subst k. pose proof (Z.div_mod (3 * w) 10) as Hdiv.
    pose proof (Z.mod_pos_bound (3 * w) 10). lia. }
  clearbody k.
  assert (Hexact : Qle_bool (inject_Z k) (Q_of_float product)
                   && negb (Qle_bool (inject_Z (k + 1)) (Q_of_float product)) = true ->
                   negb (Qle_bool (inject_Z h) (Q_of_float product))
                   = (3 * w <? 10 * h)).
  { intros Hrow. apply andb_true_iff in Hrow as [Hlow Hhigh].
    apply Qle_bool_iff in Hlow. apply negb_true_iff in Hhigh.
    destruct (Z.ltb_spec (3 * w) (10 * h)) as [Hlt|Hge].
    - apply negb_true_iff.
      destruct (Qle_bool (inject_Z h) (Q_of_float product)) eqn:Hh; [|reflexivity].
      apply Qle_bool_iff in Hh.
      assert (Hk1 : (inject_Z (k + 1) <= Q_of_float product)%Q).
      { eapply Qle_trans; [|exact Hh]. rewrite <- Zle_Qle. lia. }
      apply Qle_bool_iff in Hk1. congruence.
    - apply negb_false_iff. apply Qle_bool_iff.
      eapply Qle_trans; [|exact Hlow]. rewrite <- Zle_Qle. lia. }
  clearbody product.
  destruct product as [s|s| |s m e]; try discriminate; exact Hexact.
Qed.

Lemma mouth_ratio_sound (W : nat) :
  Check.mouth_ratio_table W = true ->
  forall w h, 0 <= w <= Z.of_nat W ->
  int_gt_float h (fmul (float_of_int w) lit_0_3) = (3 * w <? 10 * h).
Proof.
  unfold Check.mouth_ratio_table. intros Htable w h Hw.
  rewrite forallb_forall in Htable.
  apply mouth_ratio_row_sound; [lia|]. apply Htable. now apply upto_In.
Qed.

Lemma mouth_ratio_frame : Check.mouth_ratio_table 1280 = true.
Proof. vm_cast_no_check (eq_refl true). Qed.

(** C8: with fewer than 4 mouth points the test is false; with the four
    points it is true iff the vertical gap |top.y - bottom.y| is strictly
    greater than 3/10 of the horizontal gap |left.x - right.x|.  The product
    with 0.3 is a rounded binary64 product; the rounding never changes the
    outcome for a horizontal gap that fits in the 1280-wide frame. *)
Theorem detect_mouth_open_spec (mouth_landmarks : list Point) :
  ((length mouth_landmarks < 4)%nat ->
   MouthTracker.detect_mouth_open mouth_landmarks = Ok false) /\
  (forall left right top bottom rest,
     mouth_landmarks = left :: right :: top :: bottom :: rest ->
     Z.abs (left.1 - right.1) <= FRAME_WIDTH ->
     exists is_open,
       MouthTracker.detect_mouth_open mouth_landmarks = Ok is_open /\
       (is_open = true <->
        (inject_Z (Z.abs (left.1 - right.1)) * (3 # 10)
         < inject_Z (Z.abs (top.2 - bottom.2)))%Q)).
Proof.
  split.
  - intros Hlen. unfold MouthTracker.detect_mouth_open.
    destruct (Nat.leb_spec 4 (length mouth_landmarks)) as [Hge|_]; [lia|reflexivity].
  - intros left right top bottom rest -> Hw.
    unfold MouthTracker.detect_mouth_open.
    cbn [length Nat.leb getitem lookup list_lookup Py.bind].
    eexists. split; [reflexivity|].
    rewrite (mouth_ratio_sound 1280 mouth_ratio_frame)
      by (unfold FRAME_WIDTH in *; lia).
    rewrite Z.ltb_lt. unfold Qlt. cbn [Qnum Qden Qmult inject_Z]. lia.
Qed.

Example detect_mouth_open_closed :
  MouthTracker.detect_mouth_open Sample.mouth_closed = Ok false.
Proof. vm_compute. reflexivity. Qed.

Example detect_mouth_open_open :
  MouthTracker.detect_mouth_open Sample.mouth_open = Ok true.
Proof. vm_compute. reflexivity. Qed.

Lemma detect_mouth_open_spec_witness :
  MouthTracker.detect_mouth_open [] = Ok false /\
  exists is_open,
    MouthTracker.detect_mouth_open Sample.mouth_open = Ok is_open /\
    (is_open = true <-> (inject_Z 60 * (3 # 10) < inject_Z 30)%Q).
Proof.
  split.
  - apply (proj1 (detect_mouth_open_spec [])). simpl. lia.
  - apply (proj2 (detect_mouth_open_spec Sample.mouth_open)
             (670, 500) (610, 500) (640, 485) (640, 515) []).
    + reflexivity.
    + vm_compute. discriminate.
Defined.

(** *** The pointer smoother *)

Lemma float_leb_sound (a b : float) :
  Check.float_leb a b = true -> (Q_of_float a <= Q_of_float b)%Q.
Proof.
  assert (Hq : Qle_bool (Q_of_float a) (Q_of_float b) = true ->
               (Q_of_float a <= Q_of_float b)%Q) by apply Qle_bool_iff.
  unfold Check.float_leb.
  destruct a as [s|s| |[|] m e]; try exact Hq.
  destruct b as [s'|s'| |[|] m' e']; try exact Hq.
  destruct (Z.eqb_spec e e') as [<-|_]; [|exact Hq].
  intros Hm. apply Pos.leb_le, Pos2Z.pos_le_pos in Hm. cbn [Q_of_float].
  destruct (Z.leb_spec 0 e) as [He|He].
  - rewrite <- Zle_Qle, !Z.shiftl_mul_pow2 by exact He.
    apply Z.mul_le_mono_nonneg_r; [apply Z.pow_nonneg; lia|exact Hm].
  - unfold Qle. cbn [Qnum Qden].
    apply Z.mul_le_mono_nonneg_r; [apply Pos2Z.is_nonneg|exact Hm].
Qed.

Lemma climbs_fuel_sound (x : Z) (fuel : nat) : forall s,
  Check.climbs fuel (fmul alpha (float_of_int x)) (fsub (float_of_int 1) alpha)
    (inject_Z x) s = true ->
  forall n,
    (Q_of_float (Nat.iter n (ema x) s) <= Q_of_float (Nat.iter (S n) (ema x) s))%Q /\
    (Q_of_float (Nat.iter (S n) (ema x) s) <= inject_Z x)%Q.
Proof.
  induction fuel as [|fuel IH]; intros s Hc n; [discriminate|].
  cbn [Check.climbs] in Hc.
  change (fadd _ (fmul _ s)) with (ema x s) in Hc.
  destruct (Check.float_leb s (ema x s) &&
            Qle_bool (Q_of_float (ema x s)) (inject_Z x)) eqn:Hle; [|discriminate].
  apply andb_true_iff in Hle as [Hup Hbound].
  apply float_leb_sound in Hup. apply Qle_bool_iff in Hbound.
  destruct (Check.float_eqb (ema x s) s) eqn:Hfix.
  - apply float_eqb_eq in Hfix.
    assert (Hn : forall k, Nat.iter k (ema x) s = s).
    { induction k as [|k IHk]; [reflexivity|].
      rewrite Nat.iter_succ, IHk. exact Hfix. }
    rewrite !Hn. rewrite <- Hfix at 2 3. auto.
  - destruct n as [|n]; [split; assumption|].
    specialize (IH (ema x s) Hc n).
    rewrite <- !Nat.iter_succ_r in IH. exact IH.
Qed.

Lemma climbs_sound (x : Z) (s : float) :
  Check.climbs_from x s = true ->
  forall n,
    (Q_of_float (Nat.iter n (ema x) s) <= Q_of_float (Nat.iter (S n) (ema x) s))%Q /\
    (Q_of_float (Nat.iter (S n) (ema x) s) <= inject_Z x)%Q.
Proof. unfold Check.climbs_from. apply climbs_fuel_sound. Qed.

Lemma climbs_table_sound (X : nat) :
  Check.climbs_table X = true ->
  forall x, 0 <= x <= Z.of_nat X -> Check.climbs_from x (float_of_int 0) = true.
Proof.
  unfold Check.climbs_table. intros Htable x Hx.
  rewrite forallb_forall in Htable. apply Htable. now apply upto_In.
Qed.

Lemma climbs_frame : Check.climbs_table 1280 = true.
Proof. vm_cast_no_check (eq_refl true). Qed.

Lemma ema_climbs (x : Z) (n : nat) :
  0 <= x <= FRAME_WIDTH ->
  (Q_of_float (Nat.iter n (ema x) (float_of_int 0))
   <= Q_of_float (Nat.iter (S n) (ema x) (float_of_int 0)))%Q /\
  (Q_of_float (Nat.iter (S n) (ema x) (float_of_int 0)) <= inject_Z x)%Q.
Proof.
  intros Hx. apply climbs_sound.
  apply (climbs_table_sound 1280 climbs_frame).
  unfold FRAME_WIDTH in Hx. lia.
Qed.

Lemma ema_climbs_le (x : Z) (n m : nat) :
  0 <= x <= FRAME_WIDTH -> (n <= m)%nat ->
  (Q_of_float (Nat.iter n (ema x) (float_of_int 0))
   <= Q_of_float (Nat.iter m (ema x) (float_of_int 0)))%Q.
Proof.
  intros Hx Hnm. induction Hnm as [|m Hnm IH]; [apply Qle_refl|].
  eapply Qle_trans; [exact IH|]. now apply ema_climbs.
Qed.

Lemma hold_coordinates (n : nat) (x y : Z) (sx sy : float) :
  hold n (x, y) (sx, sy) = (Nat.iter n (ema x) sx, Nat.iter n (ema y) sy).
Proof.
  unfold hold. induction n as [|n IH]; [reflexivity|].
  rewrite !Nat.iter_succ, IH. reflexivity.
Qed.

Lemma within_one (x : Z) (n : nat) :
  0 <= x <= FRAME_WIDTH -> (50 <= n)%nat ->
  (inject_Z x - 1 < Q_of_float (Nat.iter 50 (ema x) (float_of_int 0)))%Q ->
  (Qabs (Q_of_float (Nat.iter n (ema x) (float_of_int 0)) - inject_Z x) < 1)%Q.
Proof.
  intros Hx Hn H50.
  pose proof (ema_climbs_le x 50 n Hx Hn) as Hlow.
  assert (Hhigh : (Q_of_float (Nat.iter n (ema x) (float_of_int 0)) <= inject_Z x)%Q).
  { destruct n as [|n]; [lia|]. now apply ema_climbs. }
  set (s := Q_of_float (Nat.iter n (ema x) (float_of_int 0))) in *.
  set (s50 := Q_of_float (Nat.iter 50 (ema x) (float_of_int 0))) in *.
  apply Qabs_Qlt_condition. clearbody s s50. lra.
Qed.

(** An iteration with a pointer and a finger vector smooths the pointer. *)
Lemma frame_smooth (s s' : State) (f : Frame) (o : Out) (xy : Point)
    (b : bool) (fingers : list bool) :
  detect_fingers f = Ok (b :: fingers) ->
  EnhancedHandTracker.get_pointing_finger (multi_hand_landmarks f) = Ok (Some xy) ->
  frame s f = Ok (s', o) ->
  smooth s' = smooth_update xy (smooth s).
Proof.
  intros Hfingers Hptr Hframe.
  apply frame_inv in Hframe
    as (fingers_up & pointing_finger & cd & cnt & Hf & Hp & Hstep).
  rewrite Hfingers in Hf. injection Hf as <-.
  rewrite Hptr in Hp. injection Hp as <-.
  apply pointer_step_inv in Hstep as (ix & iy & ui & interactions & _ & _ & _ & ->).
  reflexivity.
Qed.

(** The same frame fed [n] times: the smoother is in the state [hold n]. *)
Lemma run_hold (f : Frame) (xy : Point) (b : bool) (fingers : list bool) :
  detect_fingers f = Ok (b :: fingers) ->
  EnhancedHandTracker.get_pointing_finger (multi_hand_landmarks f) = Ok (Some xy) ->
  forall n s s' outs,
    run s (replicate n f) = Ok (s', outs) ->
    smooth s' = hold n xy (smooth s).
Proof.
  intros Hfingers Hptr. induction n as [|n IH]; intros s s' outs Hrun.
  - cbn in Hrun. now injection Hrun as <- _.
  - cbn [replicate run] in Hrun.
    destruct (frame s f) as [[s1 o]|] eqn:Hframe; [|discriminate].
    cbn [Py.bind] in Hrun.
    destruct (run s1 (replicate n f)) as [[s2 os]|] eqn:Hrest; [|discriminate].
    cbn [Py.bind] in Hrun. injection Hrun as <- _.
    rewrite (IH _ _ _ Hrest).
    rewrite (frame_smooth _ _ _ _ _ _ _ Hfingers Hptr Hframe).
    unfold hold. now rewrite Nat.iter_succ_r.
Qed.

(** C7: the smoother starts at (0, 0) with alpha the double nearest 0.4 and
    updates each coordinate by alpha * raw + (1 - alpha) * smoothed, in
    binary64; the loop applies that update at every frame with a pointer.
    With the raw pointer held at a point of the 1280 x 720 frame, from the
    initial state, each smoothed coordinate never decreases and never passes
    the raw one, so its distance to the raw value never grows; and from 50
    frames of raw (500, 300) on, the smoothed point is within 1 unit of
    (500, 300) in each coordinate. *)
Theorem pointer_smoothing :
  smooth init = (float_of_int 0, float_of_int 0) /\
  alpha = fdiv (float_of_int 4) (float_of_int 10) /\
  (forall x y sx sy,
     smooth_update (x, y) (sx, sy)
     = (fadd (fmul alpha (float_of_int x)) (fmul (fsub (float_of_int 1) alpha) sx),
        fadd (fmul alpha (float_of_int y)) (fmul (fsub (float_of_int 1) alpha) sy))) /\
  (forall f xy b fingers n s s' outs,
     detect_fingers f = Ok (b :: fingers) ->
     EnhancedHandTracker.get_pointing_finger (multi_hand_landmarks f) = Ok (Some xy) ->
     run s (replicate n f) = Ok (s', outs) ->
     smooth s' = hold n xy (smooth s)) /\
  (forall x y n,
     0 <= x <= FRAME_WIDTH -> 0 <= y <= FRAME_HEIGHT ->
     let before := hold n (x, y) (smooth init) in
     let after := hold (S n) (x, y) (smooth init) in
     (Q_of_float before.1 <= Q_of_float after.1 <= inject_Z x)%Q /\
     (Q_of_float before.2 <= Q_of_float after.2 <= inject_Z y)%Q) /\
  (forall n, (50 <= n)%nat ->
     let s := hold n (500, 300) (smooth init) in
     (Qabs (Q_of_float s.1 - inject_Z 500) < 1)%Q /\
     (Qabs (Q_of_float s.2 - inject_Z 300) < 1)%Q).
Proof.
  split; [reflexivity|].
  split; [exact (proj2 literals_rounded)|].
  split; [reflexivity|].
  split; [intros f xy b fingers n s s' outs Hf Hp; now apply (run_hold f xy b fingers)|].
  split.
  - intros x y n Hx Hy before after. subst before after.
    change (smooth init) with (float_of_int 0, float_of_int 0).
    rewrite !hold_coordinates. cbn [fst snd].
    split; apply ema_climbs; unfold FRAME_WIDTH, FRAME_HEIGHT in *; lia.
  - intros n Hn s. subst s.
    change (smooth init) with (float_of_int 0, float_of_int 0).
    rewrite hold_coordinates. cbn [fst snd].
    split; apply within_one; try exact Hn; try (unfold FRAME_WIDTH; lia);
      unfold Qlt; vm_compute; reflexivity.
Qed.

Lemma pointer_smoothing_witness :
  (exists s' outs,
     run init (replicate 2 (Sample.pointing (500, 300) false)) = Ok (s', outs) /\
     smooth s' = hold 2 (500, 300) (smooth init)) /\
  (Q_of_float (hold 3 (500, 300)%Z (smooth init)).1
   <= Q_of_float (hold 4 (500, 300)%Z (smooth init)).1 <= inject_Z 500)%Q /\
  (Qabs (Q_of_float (hold 50 (500, 300)%Z (smooth init)).1 - inject_Z 500) < 1)%Q.
Proof.
  destruct pointer_smoothing as (_ & _ & _ & Hrun & Hclimb & Hnear).
  split; [|split].
  - eexists _, _. split; [vm_compute; reflexivity|].
    eapply (Hrun (Sample.pointing (500, 300) false) (500, 300) false
              [true; false; false; false] 2%nat init).
    + reflexivity.
    + reflexivity.
    + vm_compute. reflexivity.
  - apply (Hclimb 500 300 3%nat); unfold FRAME_WIDTH, FRAME_HEIGHT; lia.
  - apply (Hnear 50%nat). lia.
Defined.

End Floats.

(** ** What a pointer on the UI does *)

Section HitTestEffects.

Import PainterUI Blocks.

Lemma layout_fields (self other : PainterUI.t) :
  layout self = layout other ->
  toggle_buttons self = toggle_buttons other /\
  button_actions self = button_actions other /\
  colors self = colors other /\
  pen_sizes self = pen_sizes other /\
  shapes self = shapes other /\
  canvas self = canvas other /\
  canvas_background_color self = canvas_background_color other.
Proof. unfold layout. intros H. injection H as -> -> -> -> -> -> ->. auto 10. Qed.

Lemma toggle_buttons_other_row (width height x y : Z) :
  y <= 20 \/ 70 <= y -> first_over (toggle_buttons (init width height)) x y = None.
Proof.
  intros Hy. apply first_over_other_row. cbn.
  repeat (constructor; [cbn; lia|]). constructor.
Qed.

Lemma colors_other_row (width height x y : Z) :
  y <= 80 \/ 130 <= y -> first_over (colors (init width height)) x y = None.
Proof.
  intros Hy. apply first_over_other_row. cbn.
  repeat (constructor; [cbn; lia|]). constructor.
Qed.

Lemma pen_sizes_other_row (width height x y : Z) :
  y <= 140 \/ 190 <= y -> first_over (pen_sizes (init width height)) x y = None.
Proof.
  intros Hy. apply first_over_other_row. cbn.
  repeat (constructor; [cbn; lia|]). constructor.
Qed.

Lemma shapes_other_row (width height x y : Z) :
  y <= 200 \/ 250 <= y -> first_over (shapes (init width height)) x y = None.
Proof.
  intros Hy. apply first_over_other_row. cbn.
  repeat (constructor; [cbn; lia|]). constructor.
Qed.

(** A pointer over a toggle button: the button is one of the five, in the
    row 20 < y < 70, and its action is the one of its label. *)
Lemma toggle_button_cases (width height x y : Z) (btn : UIElement.t) :
  first_over (toggle_buttons (init width height)) x y = Some btn ->
  20 < y < 70 /\
  (UIElement.text btn = "Colors" /\ button_actions (init width height) !! UIElement.text btn = Some "hide_colors" \/
   UIElement.text btn = "Shapes" /\ button_actions (init width height) !! UIElement.text btn = Some "hide_shapes" \/
   UIElement.text btn = "Pen" /\ button_actions (init width height) !! UIElement.text btn = Some "hide_pen_sizes" \/
   UIElement.text btn = "Save" /\ button_actions (init width height) !! UIElement.text btn = Some "save_drawing" \/
   UIElement.text btn = "Clear" /\ button_actions (init width height) !! UIElement.text btn = Some "clear_canvas")%string.
Proof.
  intros Hbtn.
  apply first_over_Some in Hbtn as [Hin Hover].
  apply is_over_row in Hover as [_ Hy].
  cbn in Hin.
  destruct Hin as [<-|[<-|[<-|[<-|[<-|[]]]]]]; cbn in Hy; (split; [lia|]).
  - left. split; reflexivity.
  - right; left. split; reflexivity.
  - do 2 right; left. split; reflexivity.
  - do 3 right; left. split; reflexivity.
  - do 4 right. split; reflexivity.
Qed.

Lemma handle_interactions_blocks self x y fingers_up :
  handle_interactions self x y fingers_up
  = let* index := getitem fingers_up 1 in
    after_toggles (check_toggle_buttons self x y index Interactions.none).1 x y index
      fingers_up (check_toggle_buttons self x y index Interactions.none).2.
Proof.
  unfold handle_interactions, after_toggles.
  destruct (getitem fingers_up 1) as [index|]; [|reflexivity].
  cbn [Py.bind]. now destruct (check_toggle_buttons _ _ _ _ _).
Qed.

(** After the toggle block, a pointer in the toggle row meets no other zone. *)
Lemma after_toggles_toggle_row (self : PainterUI.t) (width height x y : Z)
    (fingers_up : list bool) (i : Interactions.t) :
  layout self = layout (init width height) ->
  20 < y < 70 ->
  after_toggles self x y true fingers_up i = Ok (self, i).
Proof.
  intros Hlayout Hy. unfold after_toggles.
  apply layout_fields in Hlayout as (_ & _ & Hcolors & Hpens & Hshapes & Hcanvas & _).
  unfold color_selection. rewrite Hcolors, colors_other_row by lia.
  replace (if negb (hide_colors self) && true then (self, i) else (self, i))
    with (self, i) by (now destruct (negb _ && true)).
  unfold pen_size_selection. rewrite Hpens, pen_sizes_other_row by lia.
  replace (if negb (hide_pen_sizes self) && true then Ok (self, i) else Ok (self, i))
    with (Ok (self, i)) by (now destruct (negb _ && true)).
  cbn [Py.bind].
  unfold shape_selection. rewrite Hshapes, shapes_other_row by lia.
  replace (if negb (hide_shapes self) && true then self else self)
    with self by (now destruct (negb _ && true)).
  unfold drawing_mode_check, shape_drawing_check.
  rewrite Hcanvas, canvas_row by lia. reflexivity.
Qed.

(** *** The toggle buttons *)

(** The full effect of a pointer over a toggle button. *)
Lemma toggle_hit
    (self : PainterUI.t) (width height x y : Z) (fingers_up : list bool)
    (btn : UIElement.t) :
  PainterUI.layout self = PainterUI.layout (PainterUI.init width height) ->
  fingers_up !! 1%nat = Some true ->
  PainterUI.first_over (PainterUI.toggle_buttons self) x y = Some btn ->
  PainterUI.handle_interactions self x y fingers_up
  = Ok (if bool_decide (UIElement.text btn = "Colors"%string) then
          (PainterUI.set_hide_colors (negb (PainterUI.hide_colors self)) self,
           Interactions.none)
        else if bool_decide (UIElement.text btn = "Shapes"%string) then
          (PainterUI.set_hide_shapes (negb (PainterUI.hide_shapes self)) self,
           Interactions.none)
        else if bool_decide (UIElement.text btn = "Pen"%string) then
          (PainterUI.set_hide_pen_sizes (negb (PainterUI.hide_pen_sizes self)) self,
           Interactions.none)
        else if bool_decide (UIElement.text btn = "Clear"%string) then
          (self, Interactions.set_clear_canvas Interactions.none)
        else (self, Interactions.set_save_drawing Interactions.none)).
Proof.
  intros Hlayout Hindex Hbtn.
  pose proof (layout_fields _ _ Hlayout) as (Htoggle & Hactions & _).
  destruct fingers_up as [|thumb [|index rest]]; try discriminate.
  cbn in Hindex. injection Hindex as ->.
  rewrite handle_interactions_blocks. cbn [getitem lookup list_lookup Py.bind].
  unfold PainterUI.check_toggle_buttons. rewrite Hbtn, Hactions.
  rewrite Htoggle in Hbtn.
  apply toggle_button_cases in Hbtn as [Hy Hcases].
  destruct Hcases as [[-> ->]|[[-> ->]|[[-> ->]|[[-> ->]|[-> ->]]]]];
    repeat (rewrite bool_decide_eq_false_2 by discriminate);
    rewrite ?bool_decide_eq_true_2 by reflexivity;
    cbn [fst snd];
    (rewrite (after_toggles_toggle_row _ width height); [reflexivity|exact Hlayout|exact Hy]).
Qed.

(** X1: with the layout of the constructor and the index finger up, a
    pointer over a toggle button has exactly the effect of its label:
    Colors, Shapes and Pen invert their visibility flag and report nothing,
    Clear reports [clear_canvas], Save reports [save_drawing]; nothing else
    in the state changes and no other flag is reported. *)
Theorem toggle_button_effect
    (self : PainterUI.t) (width height x y : Z) (fingers_up : list bool)
    (btn : UIElement.t) :
  layout self = layout (init width height) ->
  fingers_up !! 1%nat = Some true ->
  first_over (toggle_buttons self) x y = Some btn ->
  handle_interactions self x y fingers_up
  = Ok (if bool_decide (UIElement.text btn = "Colors"%string) then
          (set_hide_colors (negb (hide_colors self)) self, Interactions.none)
        else if bool_decide (UIElement.text btn = "Shapes"%string) then
          (set_hide_shapes (negb (hide_shapes self)) self, Interactions.none)
        else if bool_decide (UIElement.text btn = "Pen"%string) then
          (set_hide_pen_sizes (negb (hide_pen_sizes self)) self, Interactions.none)
        else if bool_decide (UIElement.text btn = "Clear"%string) then
          (self, Interactions.set_clear_canvas Interactions.none)
        else (self, Interactions.set_save_drawing Interactions.none)).
Proof. exact (toggle_hit self width height x y fingers_up btn). Qed.

Lemma toggle_button_effect_witness :
  handle_interactions (init 1280 720) 100 40 Scene.index_only
  = Ok (set_hide_colors false (init 1280 720), Interactions.none).
Proof.
  apply (toggle_button_effect (init 1280 720) 1280 720 100 40 Scene.index_only
           Scene.colors_toggle); reflexivity.
Defined.

Lemma set_hide_colors_id self : set_hide_colors (hide_colors self) self = self.
Proof. now destruct self. Qed.

Lemma set_hide_shapes_id self : set_hide_shapes (hide_shapes self) self = self.
Proof. now destruct self. Qed.

Lemma set_hide_pen_sizes_id self : set_hide_pen_sizes (hide_pen_sizes self) self = self.
Proof. now destruct self. Qed.

(** X2: a pointer resting on the Colors, Shapes or Pen toggle inverts the
    flag at every call: the first call changes the state, and a second call
    with the same pointer gives the first state back; neither reports
    anything. *)
Theorem toggle_button_twice
    (self : PainterUI.t) (width height x y : Z) (fingers_up : list bool)
    (btn : UIElement.t) :
  layout self = layout (init width height) ->
  fingers_up !! 1%nat = Some true ->
  first_over (toggle_buttons self) x y = Some btn ->
  UIElement.text btn = "Colors"%string \/ UIElement.text btn = "Shapes"%string \/
  UIElement.text btn = "Pen"%string ->
  exists flipped,
    handle_interactions self x y fingers_up = Ok (flipped, Interactions.none) /\
    flipped <> self /\
    handle_interactions flipped x y fingers_up = Ok (self, Interactions.none).
Proof.
  intros Hlayout Hindex Hbtn Hlabel.
  pose proof (toggle_hit self width height x y fingers_up btn
                Hlayout Hindex Hbtn) as Hfirst.
  destruct Hlabel as [Hl|[Hl|Hl]]; rewrite Hl in Hfirst;
    repeat (rewrite bool_decide_eq_false_2 in Hfirst by discriminate);
    rewrite bool_decide_eq_true_2 in Hfirst by reflexivity;
    eexists; (split; [exact Hfirst|]); split.
  - intros Heq. apply (f_equal hide_colors) in Heq. cbn in Heq.
    now destruct (hide_colors self).
  - rewrite (toggle_hit _ width height x y fingers_up btn);
      try assumption.
    rewrite Hl, bool_decide_eq_true_2 by reflexivity. cbn [hide_colors set_hide_colors].
    rewrite negb_involutive. f_equal. f_equal. now destruct self.
  - intros Heq. apply (f_equal hide_shapes) in Heq. cbn in Heq.
    now destruct (hide_shapes self).
  - rewrite (toggle_hit _ width height x y fingers_up btn);
      try assumption.
    rewrite Hl. rewrite bool_decide_eq_false_2 by discriminate.
    rewrite bool_decide_eq_true_2 by reflexivity. cbn [hide_shapes set_hide_shapes].
    rewrite negb_involutive. f_equal. f_equal. now destruct self.
  - intros Heq. apply (f_equal hide_pen_sizes) in Heq. cbn in Heq.
    now destruct (hide_pen_sizes self).
  - rewrite (toggle_hit _ width height x y fingers_up btn);
      try assumption.
    rewrite Hl. do 2 rewrite bool_decide_eq_false_2 by discriminate.
    rewrite bool_decide_eq_true_2 by reflexivity. cbn [hide_pen_sizes set_hide_pen_sizes].
    rewrite negb_involutive. f_equal. f_equal. now destruct self.
Qed.

Lemma toggle_button_twice_witness :
  exists flipped,
    handle_interactions (init 1280 720) 100 40 Scene.index_only
    = Ok (flipped, Interactions.none) /\
    flipped <> init 1280 720 /\
    handle_interactions flipped 100 40 Scene.index_only
    = Ok (init 1280 720, Interactions.none).
Proof.
  apply (toggle_button_twice (init 1280 720) 1280 720 100 40 Scene.index_only
           Scene.colors_toggle); try reflexivity.
  left. reflexivity.
Defined.

(** *** What each block leaves alone *)

Lemma check_toggle_buttons_keeps self x y index i :
  let r := check_toggle_buttons self x y index i in
  current_color r.1 = current_color self /\
  current_brush_size r.1 = current_brush_size self /\
  current_shape r.1 = current_shape self /\
  shape_start_point r.1 = shape_start_point self /\
  shape_drawing_mode r.1 = shape_drawing_mode self /\
  Interactions.color_changed r.2 = Interactions.color_changed i /\
  Interactions.brush_size_changed r.2 = Interactions.brush_size_changed i /\
  Interactions.drawing_mode r.2 = Interactions.drawing_mode i /\
  Interactions.shape_drawing_mode r.2 = Interactions.shape_drawing_mode i.
Proof.
  unfold check_toggle_buttons.
  destruct index; [|cbn; auto 10].
  destruct (first_over _ _ _); [|cbn; auto 10].
  repeat (destruct (bool_decide _); [cbn; auto 10|]). cbn; auto 10.
Qed.

Lemma color_selection_keeps self x y index i :
  let r := color_selection self x y index i in
  hide_colors r.1 = hide_colors self /\
  hide_pen_sizes r.1 = hide_pen_sizes self /\
  hide_shapes r.1 = hide_shapes self /\
  current_shape r.1 = current_shape self /\
  shape_start_point r.1 = shape_start_point self /\
  shape_drawing_mode r.1 = shape_drawing_mode self /\
  Interactions.brush_size_changed r.2 = Interactions.brush_size_changed i /\
  Interactions.clear_canvas r.2 = Interactions.clear_canvas i /\
  Interactions.save_drawing r.2 = Interactions.save_drawing i /\
  Interactions.drawing_mode r.2 = Interactions.drawing_mode i /\
  Interactions.shape_drawing_mode r.2 = Interactions.shape_drawing_mode i /\
  (hide_colors self = true -> r = (self, i)).
Proof.
  unfold color_selection.
  destruct (hide_colors self) eqn:Hhide; [cbn; auto 20|].
  destruct index; [|cbn; intuition congruence].
  cbn [negb andb].
  destruct (first_over _ _ _); [|cbn; intuition congruence].
  destruct (bool_decide _); cbn; intuition congruence.
Qed.

Lemma pen_size_selection_keeps self x y index i self' i' :
  pen_size_selection self x y index i = Ok (self', i') ->
  current_color self' = current_color self /\
  hide_colors self' = hide_colors self /\
  hide_pen_sizes self' = hide_pen_sizes self /\
  hide_shapes self' = hide_shapes self /\
  current_shape self' = current_shape self /\
  shape_start_point self' = shape_start_point self /\
  shape_drawing_mode self' = shape_drawing_mode self /\
  Interactions.color_changed i' = Interactions.color_changed i /\
  Interactions.clear_canvas i' = Interactions.clear_canvas i /\
  Interactions.save_drawing i' = Interactions.save_drawing i /\
  Interactions.drawing_mode i' = Interactions.drawing_mode i /\
  Interactions.shape_drawing_mode i' = Interactions.shape_drawing_mode i /\
  (hide_pen_sizes self = true -> (self', i') = (self, i)).
Proof.
  unfold pen_size_selection.
  destruct (hide_pen_sizes self) eqn:Hhide;
    [intros [= <- <-]; cbn; auto 20|].
  destruct index; [|intros [= <- <-]; cbn; intuition congruence].
  cbn [negb andb].
  destruct (first_over _ _ _); [|intros [= <- <-]; cbn; intuition congruence].
  destruct (Py.int_of_str _); [|discriminate].
  intros [= <- <-]. cbn. intuition congruence.
Qed.

Lemma shape_selection_keeps self x y index :
  let r := shape_selection self x y index in
  current_color r = current_color self /\
  current_brush_size r = current_brush_size self /\
  hide_colors r = hide_colors self /\
  hide_pen_sizes r = hide_pen_sizes self /\
  hide_shapes r = hide_shapes self /\
  shape_start_point r = shape_start_point self /\
  (hide_shapes self = true -> r = self).
Proof.
  unfold shape_selection.
  destruct (hide_shapes self) eqn:Hhide; [cbn; auto 20|].
  destruct index; [|cbn; intuition congruence].
  cbn [negb andb].
  destruct (first_over _ _ _); cbn; intuition congruence.
Qed.

Lemma drawing_mode_check_keeps self x y index fingers_up i i' :
  drawing_mode_check self x y index fingers_up i = Ok i' ->
  Interactions.color_changed i' = Interactions.color_changed i /\
  Interactions.brush_size_changed i' = Interactions.brush_size_changed i /\
  Interactions.clear_canvas i' = Interactions.clear_canvas i /\
  Interactions.save_drawing i' = Interactions.save_drawing i /\
  Interactions.shape_drawing_mode i' = Interactions.shape_drawing_mode i.
Proof.
  unfold drawing_mode_check.
  destruct (UIElement.is_over _ _ _); [|intros [= <-]; auto].
  destruct index; [|intros [= <-]; auto].
  destruct (getitem fingers_up 0) as [thumb|]; [|discriminate].
  cbn [Py.bind]. destruct thumb; intros [= <-]; cbn; auto.
Qed.

Lemma shape_drawing_check_keeps self x y fingers_up i self' i' :
  shape_drawing_check self x y fingers_up i = Ok (self', i') ->
  current_color self' = current_color self /\
  current_brush_size self' = current_brush_size self /\
  hide_colors self' = hide_colors self /\
  hide_pen_sizes self' = hide_pen_sizes self /\
  hide_shapes self' = hide_shapes self /\
  Interactions.color_changed i' = Interactions.color_changed i /\
  Interactions.brush_size_changed i' = Interactions.brush_size_changed i /\
  Interactions.clear_canvas i' = Interactions.clear_canvas i /\
  Interactions.save_drawing i' = Interactions.save_drawing i /\
  Interactions.drawing_mode i' = Interactions.drawing_mode i /\
  (hide_shapes self = true -> (self', i') = (self, i)).
Proof.
  unfold shape_drawing_check.
  destruct (UIElement.is_over _ _ _); [|intros [= <- <-]; auto 20].
  destruct (hide_shapes self) eqn:Hhide; [intros [= <- <-]; auto 20|].
  cbn [negb andb].
  destruct (shape_selected self); [|intros [= <- <-]; intuition congruence].
  destruct (getitem fingers_up 0) as [thumb|]; [|discriminate].
  cbn [Py.bind].
  destruct (shape_drawing_mode self), thumb; intros [= <- <-]; cbn;
    intuition congruence.
Qed.

Lemma check_toggle_buttons_miss self x y index i :
  first_over (toggle_buttons self) x y = None ->
  check_toggle_buttons self x y index i = (self, i).
Proof. unfold check_toggle_buttons. intros ->. now destruct index. Qed.

(** *** The palette, the pen sizes and the shapes *)

(** X3: with the layout of the constructor, the palette visible and the
    index finger up, a pointer over a swatch sets the colour of the swatch
    and the brush size 5, and over the eraser sets white and the brush size
    20; the call reports [color_changed] alone and changes nothing else,
    whatever the thumb does. *)
Theorem swatch_effect
    (self : PainterUI.t) (width height x y : Z) (thumb : bool) (rest : list bool)
    (color_btn : UIElement.t) :
  layout self = layout (init width height) ->
  hide_colors self = false ->
  first_over (colors self) x y = Some color_btn ->
  handle_interactions self x y (thumb :: true :: rest)
  = Ok (if bool_decide (UIElement.text color_btn = "Eraser"%string)
        then set_current_brush_size 20 (set_current_color (255, 255, 255) self)
        else set_current_brush_size 5 (set_current_color (UIElement.color color_btn) self),
        Interactions.set_color_changed Interactions.none).
Proof.
  intros Hlayout Hvisible Hbtn.
  pose proof (layout_fields _ _ Hlayout)
    as (Htoggle & _ & Hcolors & Hpens & Hshapes & Hcanvas & Hbg).
  assert (Hy : 80 < y < 130).
  { rewrite Hcolors in Hbtn. now apply colors_row in Hbtn. }
  rewrite handle_interactions_blocks. cbn [getitem lookup list_lookup Py.bind].
  rewrite check_toggle_buttons_miss
    by (rewrite Htoggle; apply toggle_buttons_other_row; lia).
  cbn [fst snd]. unfold after_toggles, color_selection.
  rewrite Hvisible, Hbtn, Hbg. cbn [negb andb].
  change (canvas_background_color (init width height)) with (255, 255, 255).
  set (self1 := if bool_decide (UIElement.text color_btn = "Eraser"%string)
                then _ else _).
  assert (H1 : pen_sizes self1 = pen_sizes self /\ shapes self1 = shapes self /\
               canvas self1 = canvas self).
  { subst self1. destruct (bool_decide _); repeat split; reflexivity. }
  destruct H1 as (Hpens1 & Hshapes1 & Hcanvas1). clearbody self1.
  unfold pen_size_selection.
  rewrite Hpens1, Hpens, pen_sizes_other_row by lia.
  replace (if negb (hide_pen_sizes self1) && true
           then Ok (self1, Interactions.set_color_changed Interactions.none)
           else Ok (self1, Interactions.set_color_changed Interactions.none))
    with (Ok (self1, Interactions.set_color_changed Interactions.none))
    by (now destruct (negb _ && true)).
  cbn [Py.bind]. unfold shape_selection.
  rewrite Hshapes1, Hshapes, shapes_other_row by lia.
  replace (if negb (hide_shapes self1) && true then self1 else self1)
    with self1 by (now destruct (negb _ && true)).
  unfold drawing_mode_check, shape_drawing_check.
  rewrite Hcanvas1, Hcanvas, canvas_row by lia. reflexivity.
Qed.

Lemma swatch_effect_witness :
  handle_interactions (set_hide_colors false (init 1280 720)) 180 100 Scene.index_only
  = Ok (set_current_brush_size 5
          (set_current_color (80, 180, 120) (set_hide_colors false (init 1280 720))),
        Interactions.set_color_changed Interactions.none).
Proof.
  apply (swatch_effect (set_hide_colors false (init 1280 720)) 1280 720 180 100
           false [false; false; false] Scene.green_swatch); reflexivity.
Defined.

(** The pen-size buttons: labels and sizes. *)
Lemma pen_size_button_cases (width height x y : Z) (btn : UIElement.t) :
  first_over (pen_sizes (init width height)) x y = Some btn ->
  50 < x < 560 /\ 140 < y < 190 /\
  exists size, Py.int_of_str (UIElement.text btn) = Ok size /\
               UIElement.x btn = 50 + 130 * (size / 5 - 1) /\
               (size = 5 \/ size = 10 \/ size = 15 \/ size = 20).
Proof.
  intros Hbtn. apply first_over_Some in Hbtn as [Hin Hover].
  apply is_over_row in Hover as [Hx Hy]. cbn in Hin.
  destruct Hin as [<-|[<-|[<-|[<-|[]]]]]; cbn in Hx, Hy;
    (split; [lia|]); (split; [lia|]).
  - exists 5. repeat split; auto.
  - exists 10. repeat split; auto.
  - exists 15. repeat split; auto.
  - exists 20. repeat split; auto.
Qed.

(** The canvas region of the constructor's layout. *)
Lemma canvas_over (width height x y : Z) :
  50 < x < width - 50 -> 130 < y < 1910 ->
  UIElement.is_over (canvas (init width height)) x y = true.
Proof. intros Hx Hy. unfold UIElement.is_over. cbn. lia. Qed.

(** X4: with the layout of the constructor, at least 610 wide, the
    pen-size row visible and the index finger up, a pointer over a pen-size
    button sets the brush size to the number on the button (5, 10, 15 or
    20), keeps the colour and reports [brush_size_changed]; the button lies
    inside the canvas region, so with the thumb down the same call also
    reports [drawing_mode]. *)
Theorem pen_size_hit_also_draws
    (self : PainterUI.t) (width height x y : Z) (thumb : bool) (rest : list bool)
    (pen_size_btn : UIElement.t) :
  layout self = layout (init width height) ->
  610 <= width ->
  hide_pen_sizes self = false ->
  first_over (pen_sizes self) x y = Some pen_size_btn ->
  exists self' interactions size,
    handle_interactions self x y (thumb :: true :: rest) = Ok (self', interactions) /\
    Py.int_of_str (UIElement.text pen_size_btn) = Ok size /\
    (size = 5 \/ size = 10 \/ size = 15 \/ size = 20) /\
    current_brush_size self' = size /\
    current_color self' = current_color self /\
    Interactions.brush_size_changed interactions = true /\
    Interactions.color_changed interactions = false /\
    Interactions.drawing_mode interactions = negb thumb.
Proof.
  intros Hlayout Hwidth Hvisible Hbtn.
  pose proof (layout_fields _ _ Hlayout)
    as (Htoggle & _ & Hcolors & Hpens & Hshapes & Hcanvas & _).
  rewrite Hpens in Hbtn.
  pose proof (pen_size_button_cases _ _ _ _ _ Hbtn) as (Hx & Hy & size & Hsize & _ & Hsizes).
  rewrite <- Hpens in Hbtn.
  rewrite handle_interactions_blocks. cbn [getitem lookup list_lookup Py.bind].
  rewrite check_toggle_buttons_miss
    by (rewrite Htoggle; apply toggle_buttons_other_row; lia).
  cbn [fst snd]. unfold after_toggles, color_selection.
  rewrite Hcolors, colors_other_row by lia.
  replace (if negb (hide_colors self) && true
           then (self, Interactions.none) else (self, Interactions.none))
    with (self, Interactions.none) by (now destruct (negb _ && true)).
  unfold pen_size_selection. rewrite Hvisible, Hbtn, Hsize.
  cbn [negb andb Py.bind].
  pose proof (shape_selection_keeps (set_current_brush_size size self) x y true) as Hsel.
  set (self2 := shape_selection _ x y true) in *. cbv zeta in Hsel.
  destruct Hsel as (Hc2 & Hb2 & _ & _ & _ & _ & _).
  assert (Hcanvas2 : canvas self2 = canvas self).
  { pose proof (shape_selection_layout (set_current_brush_size size self) x y true) as Hl.
    fold self2 in Hl. apply layout_fields in Hl as (_ & _ & _ & _ & _ & Hcv & _).
    exact Hcv. }
  clearbody self2.
  unfold drawing_mode_check.
  rewrite Hcanvas2, Hcanvas, canvas_over by lia.
  cbn [getitem lookup list_lookup Py.bind].
  destruct (shape_drawing_check self2 x y (thumb :: true :: rest) _)
    as [[self3 i3]|] eqn:Hshape.
  - apply shape_drawing_check_keeps in Hshape
      as (Hc3 & Hb3 & _ & _ & _ & Hcc & Hbc & _ & _ & Hdm & _).
    exists self3, i3, size. split; [reflexivity|].
    split; [reflexivity|]. split; [exact Hsizes|].
    destruct thumb; cbn in *; repeat split; congruence.
  - exfalso. unfold shape_drawing_check in Hshape.
    destruct (UIElement.is_over _ _ _); [|discriminate].
    destruct (_ && _); [|discriminate].
    cbn [getitem lookup list_lookup Py.bind] in Hshape.
    destruct (_ && thumb); [discriminate|].
    destruct (_ && negb thumb); discriminate.
Qed.

Lemma pen_size_hit_also_draws_witness :
  exists self' interactions size,
    handle_interactions (set_hide_pen_sizes false (init 1280 720)) 100 160
      (false :: true :: [false; false; false])
    = Ok (self', interactions) /\
    Py.int_of_str (UIElement.text Scene.pen_5) = Ok size /\
    (size = 5 \/ size = 10 \/ size = 15 \/ size = 20) /\
    current_brush_size self' = size /\
    current_color self' = current_color (set_hide_pen_sizes false (init 1280 720)) /\
    Interactions.brush_size_changed interactions = true /\
    Interactions.color_changed interactions = false /\
    Interactions.drawing_mode interactions = negb false.
Proof.
  apply (pen_size_hit_also_draws (set_hide_pen_sizes false (init 1280 720))
           1280 720 100 160 false [false; false; false] Scene.pen_5);
    first [reflexivity | lia].
Defined.

(** The shape buttons: their region and their names. *)
Lemma shape_button_cases (width height x y : Z) (btn : UIElement.t) :
  first_over (shapes (init width height)) x y = Some btn ->
  50 < x < 430 /\ 200 < y < 250 /\
  (UIElement.text btn = "Circle" \/ UIElement.text btn = "Rectangle" \/
   UIElement.text btn = "Triangle")%string.
Proof.
  intros Hbtn. apply first_over_Some in Hbtn as [Hin Hover].
  apply is_over_row in Hover as [Hx Hy]. cbn in Hin.
  destruct Hin as [<-|[<-|[<-|[]]]]; cbn in Hx, Hy;
    (split; [lia|]); (split; [lia|]); auto.
Qed.

(** X5: with the layout of the constructor, at least 480 wide, the shape
    row visible and the index finger up, a pointer over a shape button
    selects the shape of the button.  The button lies inside the canvas
    region: with the thumb down the call reports [drawing_mode], and with
    the thumb up it anchors the shape at the pointer, on the button itself,
    and reports [shape_drawing_mode]. *)
Theorem shape_button_hit
    (self : PainterUI.t) (width height x y : Z) (thumb : bool) (rest : list bool)
    (shape_btn : UIElement.t) :
  layout self = layout (init width height) ->
  480 <= width ->
  hide_shapes self = false ->
  first_over (shapes self) x y = Some shape_btn ->
  exists self' interactions,
    handle_interactions self x y (thumb :: true :: rest) = Ok (self', interactions) /\
    current_shape self' = Some (UIElement.text shape_btn) /\
    shape_drawing_mode self' = thumb /\
    shape_start_point self'
    = (if thumb then Some (x, y) else shape_start_point self) /\
    Interactions.shape_drawing_mode interactions = thumb /\
    Interactions.drawing_mode interactions = negb thumb.
Proof.
  intros Hlayout Hwidth Hvisible Hbtn.
  pose proof (layout_fields _ _ Hlayout)
    as (Htoggle & _ & Hcolors & Hpens & Hshapes & Hcanvas & _).
  rewrite Hshapes in Hbtn.
  pose proof (shape_button_cases _ _ _ _ _ Hbtn) as (Hx & Hy & Hname).
  rewrite <- Hshapes in Hbtn.
  rewrite handle_interactions_blocks. cbn [getitem lookup list_lookup Py.bind].
  rewrite check_toggle_buttons_miss
    by (rewrite Htoggle; apply toggle_buttons_other_row; lia).
  cbn [fst snd]. unfold after_toggles, color_selection.
  rewrite Hcolors, colors_other_row by lia.
  replace (if negb (hide_colors self) && true
           then (self, Interactions.none) else (self, Interactions.none))
    with (self, Interactions.none) by (now destruct (negb _ && true)).
  unfold pen_size_selection. rewrite Hpens, pen_sizes_other_row by lia.
  replace (if negb (hide_pen_sizes self) && true
           then Ok (self, Interactions.none) else Ok (self, Interactions.none))
    with (Ok (self, Interactions.none)) by (now destruct (negb _ && true)).
  cbn [Py.bind]. unfold shape_selection. rewrite Hvisible, Hbtn. cbn [negb andb].
  unfold drawing_mode_check, shape_drawing_check.
  cbn [canvas set_shape_drawing_mode set_current_shape hide_shapes
       shape_drawing_mode].
  rewrite Hcanvas, canvas_over, Hvisible by lia.
  cbn [getitem lookup list_lookup Py.bind negb andb].
  assert (Hsel : shape_selected
                   (set_shape_drawing_mode false
                      (set_current_shape (Some (UIElement.text shape_btn)) self))
                 = true).
  { unfold shape_selected. cbn.
    destruct Hname as [-> | [-> | ->]]; reflexivity. }
  rewrite Hsel. cbn [Py.bind].
  destruct thumb; cbn; eexists _, _; repeat split; reflexivity.
Qed.

Lemma shape_button_hit_witness :
  exists self' interactions,
    handle_interactions (set_hide_shapes false (init 1280 720)) 100 220
      (true :: true :: [false; false; false])
    = Ok (self', interactions) /\
    current_shape self' = Some (UIElement.text Scene.circle_button) /\
    shape_drawing_mode self' = true /\
    shape_start_point self'
    = (if true then Some (100, 220)
       else shape_start_point (set_hide_shapes false (init 1280 720))) /\
    Interactions.shape_drawing_mode interactions = true /\
    Interactions.drawing_mode interactions = negb true.
Proof.
  apply (shape_button_hit (set_hide_shapes false (init 1280 720))
           1280 720 100 220 true [false; false; false] Scene.circle_button);
    first [reflexivity | lia].
Defined.

(** *** Hidden groups *)

(** A hidden group does nothing in the blocks after the toggles, whatever
    the layout. *)
Lemma after_toggles_hidden self x y index fingers_up i self' i' :
  after_toggles self x y index fingers_up i = Ok (self', i') ->
  (hide_colors self = true ->
   Interactions.color_changed i' = Interactions.color_changed i /\
   current_color self' = current_color self) /\
  (hide_pen_sizes self = true ->
   Interactions.brush_size_changed i' = Interactions.brush_size_changed i) /\
  (hide_shapes self = true ->
   current_shape self' = current_shape self /\
   shape_start_point self' = shape_start_point self /\
   shape_drawing_mode self' = shape_drawing_mode self /\
   Interactions.shape_drawing_mode i' = Interactions.shape_drawing_mode i).
Proof.
  unfold after_toggles. intros H.
  pose proof (color_selection_keeps self x y index i) as Hc. cbv zeta in Hc.
  destruct (color_selection self x y index i) as [s1 i1]. cbn [fst snd] in Hc.
  destruct (pen_size_selection s1 x y index i1) as [[s2 i2]|] eqn:Hp; [|discriminate].
  apply pen_size_selection_keeps in Hp. cbn [Py.bind] in H.
  pose proof (shape_selection_keeps s2 x y index) as Hs. cbv zeta in Hs.
  set (s3 := shape_selection s2 x y index) in *. clearbody s3.
  destruct (drawing_mode_check s3 x y index fingers_up i2) as [i3|] eqn:Hd;
    [|discriminate].
  apply drawing_mode_check_keeps in Hd. cbn [Py.bind] in H.
  apply shape_drawing_check_keeps in H.
  destruct Hc as (Hc1 & Hc2 & Hc3 & Hc4 & Hc5 & Hc6 & Hc7 & Hc8 & Hc9 & Hc10 & Hc11 & Hc12).
  destruct Hp as (Hp1 & Hp2 & Hp3 & Hp4 & Hp5 & Hp6 & Hp7 & Hp8 & Hp9 & Hp10 & Hp11 & Hp12 & Hp13).
  destruct Hs as (Hs1 & Hs2 & Hs3 & Hs4 & Hs5 & Hs6 & Hs7).
  destruct Hd as (Hd1 & Hd2 & Hd3 & Hd4 & Hd5).
  destruct H as (H1 & H2 & H3 & H4 & H5 & H6 & H7 & H8 & H9 & H10 & H11).
  split; [|split].
  - intros Hhide. specialize (Hc12 Hhide). injection Hc12 as -> ->.
    split; congruence.
  - intros Hhide.
    assert (Hhide1 : hide_pen_sizes s1 = true) by congruence.
    specialize (Hp13 Hhide1). injection Hp13 as -> ->. congruence.
  - intros Hhide.
    assert (Hhide2 : hide_shapes s2 = true) by congruence.
    specialize (Hs7 Hhide2). subst s3.
    specialize (H11 Hhide2). injection H11 as -> ->.
    repeat split; congruence.
Qed.

(** X6: with the layout of the constructor, a group that is hidden when
    the call starts does nothing in it: a hidden palette leaves the colour
    alone and [color_changed] unset, a hidden pen-size row leaves
    [brush_size_changed] unset, and hidden shape buttons leave the shape,
    the anchor and the shape phase alone and [shape_drawing_mode] unset. *)
Theorem hidden_groups_are_inert
    (self self' : PainterUI.t) (width height x y : Z) (fingers_up : list bool)
    (interactions : Interactions.t) :
  layout self = layout (init width height) ->
  handle_interactions self x y fingers_up = Ok (self', interactions) ->
  (hide_colors self = true ->
   Interactions.color_changed interactions = false /\
   current_color self' = current_color self) /\
  (hide_pen_sizes self = true ->
   Interactions.brush_size_changed interactions = false) /\
  (hide_shapes self = true ->
   current_shape self' = current_shape self /\
   shape_start_point self' = shape_start_point self /\
   shape_drawing_mode self' = shape_drawing_mode self /\
   Interactions.shape_drawing_mode interactions = false).
Proof.
  intros Hlayout H. rewrite handle_interactions_blocks in H.
  destruct (getitem fingers_up 1) as [index|]; [|discriminate].
  cbn [Py.bind] in H.
  destruct index, (first_over (toggle_buttons self) x y) as [btn|] eqn:Hbtn.
  - pose proof (check_toggle_buttons_keeps self x y true Interactions.none) as Hk.
    pose proof (check_toggle_buttons_layout self x y true Interactions.none) as Hl.
    cbv zeta in Hk.
    destruct (check_toggle_buttons self x y true Interactions.none) as [s1 i1].
    cbn [fst snd] in *.
    pose proof (layout_fields _ _ Hlayout) as (Htoggle & _).
    rewrite Htoggle in Hbtn. apply toggle_button_cases in Hbtn as [Hy _].
    rewrite (after_toggles_toggle_row s1 width height) in H by congruence.
    injection H as <- <-.
    destruct Hk as (Hk1 & Hk2 & Hk3 & Hk4 & Hk5 & Hk6 & Hk7 & Hk8 & Hk9).
    cbn in Hk6, Hk7, Hk9. repeat split; congruence.
  - rewrite check_toggle_buttons_miss in H by exact Hbtn. cbn [fst snd] in H.
    apply after_toggles_hidden in H. exact H.
  - rewrite check_toggle_buttons_index_down in H. cbn [fst snd] in H.
    apply after_toggles_hidden in H. exact H.
  - rewrite check_toggle_buttons_index_down in H. cbn [fst snd] in H.
    apply after_toggles_hidden in H. exact H.
Qed.

Lemma hidden_groups_are_inert_witness :
  Interactions.color_changed Interactions.none = false /\
  current_color (init 1280 720) = current_color (init 1280 720).
Proof.
  apply (proj1 (hidden_groups_are_inert (init 1280 720) (init 1280 720)
                  1280 720 180 100 Scene.index_only Interactions.none
                  eq_refl eq_refl)).
  reflexivity.
Defined.

(** *** Errors *)

(** With the layout of the constructor, a finger vector of two entries or
    more is enough for the call to return. *)
Lemma handle_interactions_total
    (self : PainterUI.t) (width height x y : Z) (thumb index : bool)
    (rest : list bool) :
  layout self = layout (init width height) ->
  exists self' interactions,
    handle_interactions self x y (thumb :: index :: rest) = Ok (self', interactions).
Proof.
  intros Hlayout.
  rewrite handle_interactions_blocks. cbn [getitem lookup list_lookup Py.bind].
  pose proof (check_toggle_buttons_layout self x y index Interactions.none) as Hl.
  destruct (check_toggle_buttons self x y index Interactions.none) as [s1 i1].
  cbn [fst snd] in *. unfold after_toggles.
  pose proof (color_selection_layout s1 x y index i1) as Hl2.
  destruct (color_selection s1 x y index i1) as [s2 i2]. cbn [fst] in Hl2.
  assert (Hpen : exists s3 i3, pen_size_selection s2 x y index i2 = Ok (s3, i3)).
  { unfold pen_size_selection.
    destruct (_ && _); [|eauto].
    destruct (first_over (pen_sizes s2) x y) as [btn|] eqn:Hbtn; [|eauto].
    assert (Hpens : pen_sizes s2 = pen_sizes (init width height)).
    { assert (Hl3 : layout s2 = layout (init width height)) by congruence.
      now apply layout_fields in Hl3 as (_ & _ & _ & -> & _). }
    rewrite Hpens in Hbtn.
    apply pen_size_button_cases in Hbtn as (_ & _ & size & -> & _).
    cbn [Py.bind]. eauto. }
  destruct Hpen as (s3 & i3 & ->). cbn [Py.bind].
  unfold drawing_mode_check.
  assert (Hdm : exists i4,
             (if UIElement.is_over (canvas (shape_selection s3 x y index)) x y
              then if index
                   then let* thumb := getitem (thumb :: index :: rest) 0 in
                        Ok (if negb thumb then Interactions.set_drawing_mode i3 else i3)
                   else Ok i3
              else Ok i3) = Ok i4).
  { destruct (UIElement.is_over _ _ _); [|eauto].
    destruct index; cbn; eauto. }
  destruct Hdm as [i4 ->]. cbn [Py.bind].
  unfold shape_drawing_check.
  destruct (UIElement.is_over _ _ _); [|eauto].
  destruct (_ && _); [|eauto].
  cbn [getitem lookup list_lookup Py.bind].
  destruct (_ && thumb); [eauto|].
  destruct (_ && negb thumb); eauto.
Qed.

(** X7: with the layout of the constructor, [handle_interactions] returns
    for every pointer when the finger vector has two entries or more, and
    raises IndexError when it has fewer: the labels of the pen-size buttons
    always parse as integers, and entry 0 is read only after entry 1. *)
Theorem handle_interactions_raises
    (self : PainterUI.t) (width height x y : Z) (fingers_up : list bool) :
  layout self = layout (init width height) ->
  ((2 <= length fingers_up)%nat ->
   exists self' interactions,
     handle_interactions self x y fingers_up = Ok (self', interactions)) /\
  ((length fingers_up < 2)%nat ->
   handle_interactions self x y fingers_up = Raise IndexError).
Proof.
  intros Hlayout. split.
  - intros Hlen. destruct fingers_up as [|thumb [|index rest]]; try (cbn in Hlen; lia).
    now apply (handle_interactions_total self width height).
  - intros Hlen. unfold handle_interactions.
    rewrite getitem_short by lia. reflexivity.
Qed.

Lemma handle_interactions_raises_witness :
  handle_interactions (init 1280 720) 600 400 [true] = Raise IndexError.
Proof.
  apply (proj2 (handle_interactions_raises (init 1280 720) 1280 720 600 400 [true]
                  eq_refl)).
  simpl. lia.
Defined.

(** *** The shape phase *)

(** The shape flag is raised by the anchoring branch alone. *)
Lemma shape_drawing_check_anchor self x y fingers_up i self' i' :
  shape_drawing_check self x y fingers_up i = Ok (self', i') ->
  Interactions.shape_drawing_mode i = false ->
  Interactions.shape_drawing_mode i' = true ->
  shape_start_point self' = Some (x, y) /\
  shape_drawing_mode self' = true /\
  shape_drawing_mode self = false /\
  shape_selected self' = true /\
  hide_shapes self' = false /\
  fingers_up !! 0%nat = Some true /\
  UIElement.is_over (canvas self') x y = true.
Proof.
  unfold shape_drawing_check. intros H Hi Hi'.
  destruct (UIElement.is_over (canvas self) x y) eqn:Hover;
    [|injection H as <- <-; congruence].
  destruct (hide_shapes self) eqn:Hhide; [injection H as <- <-; congruence|].
  cbn [negb andb] in H.
  destruct (shape_selected self) eqn:Hsel; [|injection H as <- <-; congruence].
  unfold getitem in H.
  destruct (fingers_up !! 0%nat) as [thumb|]; [|discriminate].
  cbn [Py.bind] in H.
  destruct (shape_drawing_mode self) eqn:Hmode, thumb; cbn in H;
    injection H as <- <-; try congruence.
  repeat split; try assumption; reflexivity.
Qed.

(** The same for the whole call. *)
Lemma shape_flag_anchor
    (self self' : PainterUI.t) (x y : Z) (fingers_up : list bool)
    (interactions : Interactions.t) :
  handle_interactions self x y fingers_up = Ok (self', interactions) ->
  Interactions.shape_drawing_mode interactions = true ->
  shape_start_point self' = Some (x, y) /\
  shape_drawing_mode self' = true /\
  shape_selected self' = true /\
  hide_shapes self' = false /\
  fingers_up !! 0%nat = Some true /\
  UIElement.is_over (canvas self') x y = true.
Proof.
  intros H Hflag. rewrite handle_interactions_blocks in H.
  destruct (getitem fingers_up 1) as [index|]; [|discriminate].
  cbn [Py.bind] in H.
  pose proof (check_toggle_buttons_keeps self x y index Interactions.none) as Hk.
  cbv zeta in Hk.
  destruct (check_toggle_buttons self x y index Interactions.none) as [s1 i1].
  cbn [fst snd] in *. destruct Hk as (_ & _ & _ & _ & _ & _ & _ & _ & Hk).
  unfold after_toggles in H.
  pose proof (color_selection_keeps s1 x y index i1) as Hc. cbv zeta in Hc.
  destruct (color_selection s1 x y index i1) as [s2 i2]. cbn [fst snd] in Hc.
  destruct Hc as (_ & _ & _ & _ & _ & _ & _ & _ & _ & _ & Hc & _).
  destruct (pen_size_selection s2 x y index i2) as [[s3 i3]|] eqn:Hp; [|discriminate].
  apply pen_size_selection_keeps in Hp
    as (_ & _ & _ & _ & _ & _ & _ & _ & _ & _ & _ & Hp & _).
  cbn [Py.bind] in H.
  destruct (drawing_mode_check _ x y index fingers_up i3) as [i4|] eqn:Hd;
    [|discriminate].
  apply drawing_mode_check_keeps in Hd as (_ & _ & _ & _ & Hd).
  cbn [Py.bind] in H.
  apply shape_drawing_check_anchor in H; [|cbn in Hk; congruence|exact Hflag].
  tauto.
Qed.

(** X8: whatever the layout, a call that reports [shape_drawing_mode] has
    just anchored the shape at the pointer of this very call: the anchor is
    the pointer, the shape phase is on, a shape is selected and its buttons
    are visible, the thumb is up and the pointer is inside the canvas
    region.  The flag is never reported on a later call of the same
    gesture. *)
Theorem shape_anchor_is_the_pointer
    (self self' : PainterUI.t) (x y : Z) (fingers_up : list bool)
    (interactions : Interactions.t) :
  handle_interactions self x y fingers_up = Ok (self', interactions) ->
  Interactions.shape_drawing_mode interactions = true ->
  shape_start_point self' = Some (x, y) /\
  shape_drawing_mode self' = true /\
  shape_selected self' = true /\
  hide_shapes self' = false /\
  fingers_up !! 0%nat = Some true /\
  UIElement.is_over (canvas self') x y = true.
Proof. exact (shape_flag_anchor self self' x y fingers_up interactions). Qed.

Lemma shape_anchor_is_the_pointer_witness :
  exists self' interactions,
    handle_interactions
      (set_current_shape (Some "Rectangle"%string) (set_hide_shapes false (init 1280 720)))
      600 400 [true; true; false; false; false]
    = Ok (self', interactions) /\
    shape_start_point self' = Some (600, 400).
Proof.
  eexists _, _. split; [vm_compute; reflexivity|].
  refine (proj1 (shape_anchor_is_the_pointer
                   (set_current_shape (Some "Rectangle"%string)
                      (set_hide_shapes false (init 1280 720)))
                   _ 600 400 [true; true; false; false; false] _ _ _)).
  - vm_compute. reflexivity.
  - reflexivity.
Defined.

(** Being in the shape phase implies a selected shape and an anchor; every
    call keeps it so. *)
Lemma shape_phase_preserved self x y fingers_up self' interactions :
  handle_interactions self x y fingers_up = Ok (self', interactions) ->
  (shape_drawing_mode self = true ->
   shape_selected self = true /\ is_Some (shape_start_point self)) ->
  shape_drawing_mode self' = true ->
  shape_selected self' = true /\ is_Some (shape_start_point self').
Proof.
  intros H Hinv. rewrite handle_interactions_blocks in H.
  destruct (getitem fingers_up 1) as [index|]; [|discriminate].
  cbn [Py.bind] in H.
  pose proof (check_toggle_buttons_keeps self x y index Interactions.none) as Hk.
  cbv zeta in Hk.
  destruct (check_toggle_buttons self x y index Interactions.none) as [s1 i1].
  cbn [fst snd] in *. destruct Hk as (_ & _ & Hk1 & Hk2 & Hk3 & _).
  unfold after_toggles in H.
  pose proof (color_selection_keeps s1 x y index i1) as Hc. cbv zeta in Hc.
  destruct (color_selection s1 x y index i1) as [s2 i2]. cbn [fst snd] in Hc.
  destruct Hc as (_ & _ & _ & Hc1 & Hc2 & Hc3 & _).
  destruct (pen_size_selection s2 x y index i2) as [[s3 i3]|] eqn:Hp; [|discriminate].
  apply pen_size_selection_keeps in Hp
    as (_ & _ & _ & _ & Hp1 & Hp2 & Hp3 & _).
  cbn [Py.bind] in H.
  assert (Hinv3 : shape_drawing_mode s3 = true ->
                  shape_selected s3 = true /\ is_Some (shape_start_point s3)).
  { unfold shape_selected in *. rewrite Hp1, Hp2, Hp3, Hc1, Hc2, Hc3, Hk1, Hk2, Hk3.
    exact Hinv. }
  clear Hinv.
  assert (Hinv4 : let s4 := shape_selection s3 x y index in
                  shape_drawing_mode s4 = true ->
                  shape_selected s4 = true /\ is_Some (shape_start_point s4)).
  { unfold shape_selection.
    destruct (_ && _); [|exact Hinv3].
    destruct (first_over _ _ _); [discriminate|exact Hinv3]. }
  cbv zeta in Hinv4. set (s4 := shape_selection s3 x y index) in *. clearbody s4.
  destruct (drawing_mode_check s4 x y index fingers_up i3) as [i4|]; [|discriminate].
  cbn [Py.bind] in H. unfold shape_drawing_check in H.
  destruct (UIElement.is_over _ _ _); [|injection H as <- <-; exact Hinv4].
  destruct (negb (hide_shapes s4) && shape_selected s4) eqn:Hcond;
    [|injection H as <- <-; exact Hinv4].
  apply andb_true_iff in Hcond as [_ Hsel].
  destruct (getitem fingers_up 0) as [thumb|]; [|discriminate].
  cbn [Py.bind] in H.
  destruct (shape_drawing_mode s4) eqn:Hmode, thumb; cbn in H;
    injection H as <- <-; cbn;
    first [ intros Habs; congruence
          | intros _; now apply Hinv4
          | intros _; split; [exact Hsel|eauto] ].
Qed.

(** *** Drawing on the canvas *)

(** Index finger up, thumb down, pointer inside the canvas region of the
    constructor's layout: the call reports [drawing_mode] and neither
    [clear_canvas] nor [shape_drawing_mode]. *)
Lemma canvas_stroke_flags (self : PainterUI.t) (width height x y : Z)
    (rest : list bool) (self' : PainterUI.t) (interactions : Interactions.t) :
  layout self = layout (init width height) ->
  UIElement.is_over (canvas self) x y = true ->
  handle_interactions self x y (false :: true :: rest) = Ok (self', interactions) ->
  Interactions.drawing_mode interactions = true /\
  Interactions.clear_canvas interactions = false /\
  Interactions.shape_drawing_mode interactions = false.
Proof.
  intros Hlayout Hover H.
  assert (Hflag : Interactions.shape_drawing_mode interactions = false).
  { destruct (Interactions.shape_drawing_mode interactions) eqn:Hflag; [|reflexivity].
    destruct (shape_flag_anchor _ _ _ _ _ _ H Hflag) as (_ & _ & _ & _ & Hthumb & _).
    discriminate. }
  pose proof (layout_fields _ _ Hlayout) as (Htoggle & _ & _ & _ & _ & Hcanvas & _).
  assert (Hy : 130 < y).
  { rewrite Hcanvas in Hover. apply is_over_row in Hover as [_ Hy]. cbn in Hy. lia. }
  rewrite handle_interactions_blocks in H. cbn [getitem lookup list_lookup Py.bind] in H.
  rewrite check_toggle_buttons_miss in H
    by (rewrite Htoggle; apply toggle_buttons_other_row; lia).
  cbn [fst snd] in H. unfold after_toggles in H.
  pose proof (color_selection_keeps self x y true Interactions.none) as Hc.
  pose proof (color_selection_layout self x y true Interactions.none) as Hl1.
  cbv zeta in Hc.
  destruct (color_selection self x y true Interactions.none) as [s1 i1].
  cbn [fst snd] in Hc, Hl1.
  destruct Hc as (_ & _ & _ & _ & _ & _ & _ & Hc1 & _).
  destruct (pen_size_selection s1 x y true i1) as [[s2 i2]|] eqn:Hp; [|discriminate].
  pose proof (pen_size_selection_layout _ _ _ _ _ _ _ Hp) as Hl2.
  apply pen_size_selection_keeps in Hp as (_ & _ & _ & _ & _ & _ & _ & _ & Hp1 & _).
  cbn [Py.bind] in H.
  pose proof (shape_selection_layout s2 x y true) as Hl3.
  set (s3 := shape_selection s2 x y true) in *. clearbody s3.
  assert (Hcanvas3 : canvas s3 = canvas self).
  { assert (Hl : layout s3 = layout self) by congruence.
    now apply layout_fields in Hl as (_ & _ & _ & _ & _ & -> & _). }
  unfold drawing_mode_check in H. rewrite Hcanvas3, Hover in H.
  cbn [getitem lookup list_lookup Py.bind negb] in H.
  apply shape_drawing_check_keeps in H
    as (_ & _ & _ & _ & _ & _ & _ & Hs1 & _ & Hs2 & _).
  cbn in Hs1, Hs2, Hc1. repeat split; congruence.
Qed.

(** *** The geometry of the layout *)

(** X9: in the layout of the constructor, whatever the width and the
    height, two elements of the same group (toggle buttons, swatches,
    pen-size buttons, shape buttons) that are both under one pointer are the
    same element: within a group the hit zones do not overlap, so the
    first-match loops of [handle_interactions] never hide a second match. *)
Theorem zones_do_not_overlap (width height x y : Z) (group : list UIElement.t)
    (a b : UIElement.t) :
  In group [toggle_buttons (init width height); colors (init width height);
            pen_sizes (init width height); shapes (init width height)] ->
  In a group -> In b group ->
  UIElement.is_over a x y = true -> UIElement.is_over b x y = true ->
  a = b.
Proof.
  intros Hgroup Ha Hb Hover_a Hover_b.
  apply is_over_row in Hover_a as [Hxa _].
  apply is_over_row in Hover_b as [Hxb _].
  cbn [In] in Hgroup.
  destruct Hgroup as [<-|[<-|[<-|[<-|[]]]]]; cbn in Ha, Hb;
    repeat (destruct Ha as [<-|Ha]; [|]); try destruct Ha;
    repeat (destruct Hb as [<-|Hb]; [|]); try destruct Hb;
    cbn in Hxa, Hxb; first [reflexivity | lia].
Qed.

Lemma zones_do_not_overlap_witness :
  UIElement.is_over Scene.green_swatch 180 100 = true /\
  (forall b, In b (colors (init 1280 720)) ->
             UIElement.is_over b 180 100 = true -> Scene.green_swatch = b).
Proof.
  split; [reflexivity|]. intros b Hb Hover.
  apply (zones_do_not_overlap 1280 720 180 100 (colors (init 1280 720))
           Scene.green_swatch b).
  - simpl. tauto.
  - simpl. tauto.
  - exact Hb.
  - reflexivity.
  - exact Hover.
Defined.

(** *** The values the buttons offer *)

(** A swatch under the pointer is the eraser or carries a colour of the
    palette. *)
Lemma color_button_cases (width height x y : Z) (btn : UIElement.t) :
  first_over (colors (init width height)) x y = Some btn ->
  UIElement.text btn = "Eraser"%string \/
  UIElement.text btn <> "Eraser"%string /\
  In (UIElement.color btn)
     [(50, 120, 220); (80, 180, 120); (230, 130, 80); (180, 80, 180); (220, 90, 120)].
Proof.
  intros Hbtn. apply first_over_Some in Hbtn as [Hin _]. cbn in Hin.
  destruct Hin as [<-|[<-|[<-|[<-|[<-|[<-|[]]]]]]]; cbn;
    first [now left | right; split; [discriminate|tauto]].
Qed.

Lemma shape_drawing_check_shape self x y fingers_up i self' i' :
  shape_drawing_check self x y fingers_up i = Ok (self', i') ->
  current_shape self' = current_shape self \/ current_shape self' = None.
Proof.
  unfold shape_drawing_check.
  destruct (UIElement.is_over _ _ _); [|intros [= <- <-]; auto].
  destruct (_ && _); [|intros [= <- <-]; auto].
  destruct (getitem fingers_up 0) as [thumb|]; [|discriminate].
  cbn [Py.bind].
  destruct (_ && thumb); [intros [= <- <-]; auto|].
  destruct (_ && negb thumb); intros [= <- <-]; auto.
Qed.

(** The brush size, the colour and the shape name stay among the values
    the buttons of the layout offer. *)
Lemma handle_interactions_values
    (self : PainterUI.t) (width height x y : Z) (fingers_up : list bool)
    (self' : PainterUI.t) (interactions : Interactions.t) :
  layout self = layout (init width height) ->
  handle_interactions self x y fingers_up = Ok (self', interactions) ->
  (In (current_brush_size self) [5; 10; 15; 20] ->
   In (current_brush_size self') [5; 10; 15; 20]) /\
  (In (current_color self)
      [(50, 120, 220); (80, 180, 120); (230, 130, 80); (180, 80, 180);
       (220, 90, 120); (255, 255, 255)] ->
   In (current_color self')
      [(50, 120, 220); (80, 180, 120); (230, 130, 80); (180, 80, 180);
       (220, 90, 120); (255, 255, 255)]) /\
  (In (current_shape self)
      [None; Some "Circle"; Some "Rectangle"; Some "Triangle"]%string ->
   In (current_shape self')
      [None; Some "Circle"; Some "Rectangle"; Some "Triangle"]%string).
Proof.
  intros Hlayout H. rewrite handle_interactions_blocks in H.
  destruct (getitem fingers_up 1) as [index|]; [|discriminate].
  cbn [Py.bind] in H.
  pose proof (check_toggle_buttons_keeps self x y index Interactions.none) as Hk.
  pose proof (check_toggle_buttons_layout self x y index Interactions.none) as Hl1.
  cbv zeta in Hk.
  destruct (check_toggle_buttons self x y index Interactions.none) as [s1 i1].
  cbn [fst snd] in *. destruct Hk as (Hk1 & Hk2 & Hk3 & _).
  rewrite Hlayout in Hl1. unfold after_toggles in H.
  (* colour block *)
  assert (Hc : let r := color_selection s1 x y index i1 in
               layout r.1 = layout (init width height) /\
               current_shape r.1 = current_shape s1 /\
               (r.1 = s1 \/
                In (current_brush_size r.1) [5; 10; 15; 20] /\
                In (current_color r.1)
                   [(50, 120, 220); (80, 180, 120); (230, 130, 80); (180, 80, 180);
                    (220, 90, 120); (255, 255, 255)])).
  { cbv zeta. pose proof (color_selection_layout s1 x y index i1) as Hl.
    rewrite Hl1 in Hl. split; [exact Hl|].
    pose proof (color_selection_keeps s1 x y index i1) as Hkeep. cbv zeta in Hkeep.
    split; [tauto|]. clear Hl Hkeep.
    unfold color_selection. destruct (_ && _); [|now left].
    destruct (first_over (colors s1) x y) as [btn|] eqn:Hbtn; [|now left].
    right. cbn [fst].
    apply layout_fields in Hl1 as (_ & _ & Hcolors & _ & _ & _ & Hbg).
    rewrite Hcolors in Hbtn. apply color_button_cases in Hbtn as [Hbtn|[Hbtn Hcol]].
    - rewrite bool_decide_eq_true_2 by exact Hbtn. rewrite Hbg. cbn. tauto.
    - rewrite bool_decide_eq_false_2 by exact Hbtn. cbn.
      split; [tauto|]. cbn in Hcol. tauto. }
  cbv zeta in Hc.
  destruct (color_selection s1 x y index i1) as [s2 i2]. cbn [fst snd] in Hc.
  destruct Hc as (Hl2 & Hc1 & Hc2).
  (* pen block *)
  destruct (pen_size_selection s2 x y index i2) as [[s3 i3]|] eqn:Hp; [|discriminate].
  cbn [Py.bind] in H.
  pose proof (pen_size_selection_layout _ _ _ _ _ _ _ Hp) as Hl3. rewrite Hl2 in Hl3.
  pose proof (pen_size_selection_keeps _ _ _ _ _ _ _ Hp)
    as (Hp1 & _ & _ & _ & Hp2 & _).
  assert (Hp3 : current_brush_size s3 = current_brush_size s2 \/
                In (current_brush_size s3) [5; 10; 15; 20]).
  { clear H. unfold pen_size_selection in Hp.
    destruct (_ && _); [|injection Hp as <- _; now left].
    destruct (first_over (pen_sizes s2) x y) as [btn|] eqn:Hbtn;
      [|injection Hp as <- _; now left].
    apply layout_fields in Hl2 as (_ & _ & _ & Hpens & _).
    rewrite Hpens in Hbtn.
    apply pen_size_button_cases in Hbtn as (_ & _ & size & Hsize & _ & Hsizes).
    rewrite Hsize in Hp. cbn [Py.bind] in Hp. injection Hp as <- _.
    right. cbn. destruct Hsizes as [-> | [-> | [-> | ->]]]; tauto. }
  (* shape block *)
  pose proof (shape_selection_keeps s3 x y index) as Hs. cbv zeta in Hs.
  pose proof (shape_selection_layout s3 x y index) as Hl4. rewrite Hl3 in Hl4.
  assert (Hs3 : current_shape (shape_selection s3 x y index) = current_shape s3 \/
                In (current_shape (shape_selection s3 x y index))
                   [None; Some "Circle"; Some "Rectangle"; Some "Triangle"]%string).
  { unfold shape_selection. destruct (_ && _); [|now left].
    destruct (first_over (shapes s3) x y) as [btn|] eqn:Hbtn; [|now left].
    apply layout_fields in Hl3 as (_ & _ & _ & _ & Hshapes & _).
    rewrite Hshapes in Hbtn.
    apply shape_button_cases in Hbtn as (_ & _ & Hname).
    right. cbn. destruct Hname as [-> | [-> | ->]]; tauto. }
  set (s4 := shape_selection s3 x y index) in *. clearbody s4.
  destruct Hs as (Hs1 & Hs2 & _).
  destruct (drawing_mode_check s4 x y index fingers_up i3) as [i4|]; [|discriminate].
  cbn [Py.bind] in H.
  pose proof (shape_drawing_check_shape _ _ _ _ _ _ _ H) as Hd.
  apply shape_drawing_check_keeps in H as (Hd1 & Hd2 & _).
  repeat split.
  - intros Hin. rewrite Hd2, Hs2.
    destruct Hp3 as [->|Hp3]; [|exact Hp3].
    destruct Hc2 as [->|[Hc2 _]]; [|exact Hc2]. now rewrite Hk2.
  - intros Hin. rewrite Hd1, Hs1, Hp1.
    destruct Hc2 as [->|[_ Hc2]]; [|exact Hc2]. now rewrite Hk1.
  - intros Hin.
    destruct Hd as [->| ->]; [|cbn; tauto].
    destruct Hs3 as [->|Hs3]; [|exact Hs3].
    now rewrite Hp2, Hc1, Hk3.
Qed.

(** *** The hit zones and what is painted *)






End HitTestEffects.

(** ** The gesture under a change of position *)

Section Gestures.

Import EnhancedHandTracker.

(** The finger vector of a full hand, written with the landmarks looked up. *)
Lemma detect_gesture_full (hands : Results) :
  (21 <= length (get_hand_landmarks hands))%nat ->
  exists thumb_mcp thumb_tip index_pip index_tip middle_pip middle_tip
         ring_pip ring_tip pinky_pip pinky_tip,
    get_hand_landmarks hands !! 1%nat = Some thumb_mcp /\
    get_hand_landmarks hands !! 4%nat = Some thumb_tip /\
    get_hand_landmarks hands !! 6%nat = Some index_pip /\
    get_hand_landmarks hands !! 8%nat = Some index_tip /\
    get_hand_landmarks hands !! 10%nat = Some middle_pip /\
    get_hand_landmarks hands !! 12%nat = Some middle_tip /\
    get_hand_landmarks hands !! 14%nat = Some ring_pip /\
    get_hand_landmarks hands !! 16%nat = Some ring_tip /\
    get_hand_landmarks hands !! 18%nat = Some pinky_pip /\
    get_hand_landmarks hands !! 20%nat = Some pinky_tip /\
    detect_gesture hands
    = Ok [thumb_tip.1 <? thumb_mcp.1; index_tip.2 <? index_pip.2;
          middle_tip.2 <? middle_pip.2; ring_tip.2 <? ring_pip.2;
          pinky_tip.2 <? pinky_pip.2] /\
    get_pointing_finger hands = Ok (Some index_tip).
Proof.
  intros Hlen. unfold detect_gesture, get_pointing_finger.
  destruct (Nat.ltb_spec (length (get_hand_landmarks hands)) 21) as [Hlt|_]; [lia|].
  destruct (Nat.leb_spec 8 (length (get_hand_landmarks hands))) as [_|Hlt]; [|lia].
  destruct (get_hand_landmarks hands) as [|p0 landmarks]; [simpl in Hlen; lia|].
  do 20 (destruct landmarks as [|? landmarks]; [simpl in Hlen; lia|]).
  cbn. eexists _, _, _, _, _, _, _, _, _, _. repeat split; reflexivity.
Qed.

Lemma get_hand_landmarks_fmap (g : Point -> Point) (hands : Results) :
  get_hand_landmarks (fmap (M:=list) (fmap (M:=list) g) hands) = fmap (M:=list) g (get_hand_landmarks hands).
Proof. now destruct hands. Qed.

Lemma ltb_shift (a b d : Z) : (a + d <? b + d) = (a <? b).
Proof. apply eq_true_iff_eq. rewrite !Z.ltb_lt. lia. Qed.

Lemma lookup_moved (g : Point -> Point) (l : list Point) (i : nat) (p q : Point) :
  l !! i = Some p -> fmap (M:=list) g l !! i = Some q -> q = g p.
Proof. intros Hp. rewrite list_lookup_fmap, Hp. now intros [= <-]. Qed.

(** X11: moving every landmark of the hands by the same [(dx, dy)] leaves
    the result of [detect_gesture] as it is and moves the result of
    [get_pointing_finger] by [(dx, dy)], errors included: the finger vector
    depends on the positions of the landmarks relative to each other only. *)
Theorem gesture_translation (hands : Results) (dx dy : Z) :
  let move := fun p : Point => (p.1 + dx, p.2 + dy) in
  detect_gesture (fmap (M:=list) (fmap (M:=list) move) hands) = detect_gesture hands /\
  get_pointing_finger (fmap (M:=list) (fmap (M:=list) move) hands)
  = let* pointing_finger := get_pointing_finger hands in
    Ok (move <$> pointing_finger).
Proof.
  intros move.
  destruct (Nat.ltb_spec (length (get_hand_landmarks hands)) 21) as [Hlt|Hge].
  - split.
    + unfold detect_gesture. rewrite get_hand_landmarks_fmap, length_fmap.
      destruct (Nat.ltb_spec (length (get_hand_landmarks hands)) 21); [reflexivity|lia].
    + unfold get_pointing_finger. rewrite get_hand_landmarks_fmap, length_fmap.
      destruct (8 <=? length (get_hand_landmarks hands))%nat; [|reflexivity].
      unfold getitem. rewrite list_lookup_fmap.
      now destruct (get_hand_landmarks hands !! HandLandmark.INDEX_TIP).
  - destruct (detect_gesture_full hands Hge)
      as (p1 & p4 & p6 & p8 & p10 & p12 & p14 & p16 & p18 & p20 &
          H1 & H4 & H6 & H8 & H10 & H12 & H14 & H16 & H18 & H20 & -> & ->).
    destruct (detect_gesture_full (fmap (M:=list) (fmap (M:=list) move) hands))
      as (q1 & q4 & q6 & q8 & q10 & q12 & q14 & q16 & q18 & q20 &
          G1 & G4 & G6 & G8 & G10 & G12 & G14 & G16 & G18 & G20 & -> & ->).
    { now rewrite get_hand_landmarks_fmap, length_fmap. }
    rewrite get_hand_landmarks_fmap in G1, G4, G6, G8, G10, G12, G14, G16, G18, G20.
    apply (lookup_moved _ _ _ _ _ H1) in G1 as ->.
    apply (lookup_moved _ _ _ _ _ H4) in G4 as ->.
    apply (lookup_moved _ _ _ _ _ H6) in G6 as ->.
    apply (lookup_moved _ _ _ _ _ H8) in G8 as ->.
    apply (lookup_moved _ _ _ _ _ H10) in G10 as ->.
    apply (lookup_moved _ _ _ _ _ H12) in G12 as ->.
    apply (lookup_moved _ _ _ _ _ H14) in G14 as ->.
    apply (lookup_moved _ _ _ _ _ H16) in G16 as ->.
    apply (lookup_moved _ _ _ _ _ H18) in G18 as ->.
    apply (lookup_moved _ _ _ _ _ H20) in G20 as ->.
    split; [|reflexivity]. subst move. cbn [fst snd].
    now rewrite !ltb_shift.
Qed.

(** X12: mirroring the hand about a vertical axis ([x] becomes
    [width - x]) leaves the index, middle, ring and pinky flags as they are
    and inverts the thumb flag, provided the thumb tip is not exactly above
    or below its base: the thumb rule [tip.x < mcp.x] reads the same thumb
    as up for one hand and down for the other. *)
Theorem gesture_mirror (hands : Results) (width : Z)
    (thumb index middle ring pinky : bool) (thumb_mcp thumb_tip : Point) :
  let flip := fun p : Point => (width - p.1, p.2) in
  detect_gesture hands = Ok [thumb; index; middle; ring; pinky] ->
  get_hand_landmarks hands !! 1%nat = Some thumb_mcp ->
  get_hand_landmarks hands !! 4%nat = Some thumb_tip ->
  thumb_tip.1 <> thumb_mcp.1 ->
  detect_gesture (fmap (M:=list) (fmap (M:=list) flip) hands) = Ok [negb thumb; index; middle; ring; pinky].
Proof.
  intros flip Hgesture Hmcp Htip Hne.
  destruct (Nat.ltb_spec (length (get_hand_landmarks hands)) 21) as [Hlt|Hge].
  { unfold detect_gesture in Hgesture.
    destruct (Nat.ltb_spec (length (get_hand_landmarks hands)) 21); [discriminate|lia]. }
  destruct (detect_gesture_full hands Hge)
    as (p1 & p4 & p6 & p8 & p10 & p12 & p14 & p16 & p18 & p20 &
        H1 & H4 & H6 & H8 & H10 & H12 & H14 & H16 & H18 & H20 & Hg & _).
  rewrite Hg in Hgesture. injection Hgesture as <- <- <- <- <-.
  pose proof (eq_trans (eq_sym H1) Hmcp) as [= <-].
  pose proof (eq_trans (eq_sym H4) Htip) as [= <-].
  destruct (detect_gesture_full (fmap (M:=list) (fmap (M:=list) flip) hands))
    as (q1 & q4 & q6 & q8 & q10 & q12 & q14 & q16 & q18 & q20 &
        G1 & G4 & G6 & G8 & G10 & G12 & G14 & G16 & G18 & G20 & -> & _).
  { now rewrite get_hand_landmarks_fmap, length_fmap. }
  rewrite get_hand_landmarks_fmap in G1, G4, G6, G8, G10, G12, G14, G16, G18, G20.
  apply (lookup_moved _ _ _ _ _ H1) in G1 as ->.
  apply (lookup_moved _ _ _ _ _ H4) in G4 as ->.
  apply (lookup_moved _ _ _ _ _ H6) in G6 as ->.
  apply (lookup_moved _ _ _ _ _ H8) in G8 as ->.
  apply (lookup_moved _ _ _ _ _ H10) in G10 as ->.
  apply (lookup_moved _ _ _ _ _ H12) in G12 as ->.
  apply (lookup_moved _ _ _ _ _ H14) in G14 as ->.
  apply (lookup_moved _ _ _ _ _ H16) in G16 as ->.
  apply (lookup_moved _ _ _ _ _ H18) in G18 as ->.
  apply (lookup_moved _ _ _ _ _ H20) in G20 as ->.
  subst flip. cbn [fst snd]. do 2 f_equal.
  apply eq_true_iff_eq. rewrite negb_true_iff, Z.ltb_lt, Z.ltb_ge. lia.
Qed.

Lemma gesture_mirror_witness :
  detect_gesture
    (fmap (M:=list) (fmap (M:=list) (fun p : Point => (1280 - p.1, p.2)))
       [Sample.hand21])
  = Ok [negb false; true; false; false; false].
Proof.
  apply (gesture_mirror [Sample.hand21] 1280 false true false false false
           (560, 580) (590, 520)).
  - reflexivity.
  - reflexivity.
  - reflexivity.
  - simpl. lia.
Defined.

End Gestures.

(** ** One iteration of the loop *)

Section Iteration.

Import Main.

(** A shape collapsed to the point [p]. *)
Lemma draw_shape_collapsed (ui : PainterUI.t) (st : Np.Store) (target : Np.ref)
    (p : Point) :
  (target < length st)%nat ->
  let after := (PainterUI.draw_shape ui st target p p).1 in
  let c := PainterUI.current_color ui in
  let b := PainterUI.current_brush_size ui in
  Np.read after target = Np.read st target \/
  exists call,
    Np.read after target = Np.read st target ++ [call] /\
    (call = Np.Circle p 0 c b \/ call = Np.Rectangle p p c b \/
     call = Np.Polylines [p; p; p] true c b).
Proof.
  intros Hwf. destruct p as [x y]. unfold PainterUI.draw_shape.
  repeat (destruct (bool_decide _); cbn [fst];
          [right; eexists; split; [apply read_draw; exact Hwf|]|]).
  - left. rewrite !Z.sub_diag. reflexivity.
  - right; left. reflexivity.
  - right; right. replace ((x + x) / 2) with x; [reflexivity|].
    replace (x + x) with (x * 2) by lia. now rewrite Z.div_mul.
  - left. reflexivity.
Qed.

(** What the canvas step can do, when a raised shape flag comes with the
    anchor at the current point. *)
Lemma update_canvas_effect ui interactions st cv previous current :
  (cv < length st)%nat ->
  (Interactions.shape_drawing_mode interactions = true ->
   PainterUI.shape_start_point ui = Some current) ->
  let after := update_canvas ui interactions st cv previous current in
  let c := PainterUI.current_color ui in
  let b := PainterUI.current_brush_size ui in
  exists base,
    (base = Np.read st cv \/ base = []) /\
    (Np.read after.1 after.2 = base \/
     exists call,
       Np.read after.1 after.2 = base ++ [call] /\
       (call = Np.Line previous current c b /\ previous <> (0, 0) \/
        call = Np.Circle current 0 c b \/
        call = Np.Rectangle current current c b \/
        call = Np.Polylines [current; current; current] true c b)).
Proof.
  intros Hwf Hanchor after c b. subst after. unfold update_canvas.
  destruct (if Interactions.clear_canvas interactions then _ else _)
    as [st1 cv1] eqn:Hclear.
  assert (H1 : (cv1 < length st1)%nat /\
               (Np.read st1 cv1 = Np.read st cv \/ Np.read st1 cv1 = [])).
  { destruct (Interactions.clear_canvas interactions); injection Hclear as <- <-.
    - split; [rewrite length_app; cbn; lia|]. right.
      apply (read_alloc_new st Np.white).
    - auto. }
  destruct H1 as [Hwf1 Hbase].
  exists (Np.read st1 cv1). split; [exact Hbase|].
  destruct (Interactions.shape_drawing_mode interactions) eqn:Hflag.
  - rewrite (Hanchor eq_refl). unfold Np.copy, Np.alloc.
    pose proof (draw_shape_spec ui (st1 ++ [Np.read st1 cv1]) (length st1)
                  current current) as (Href & _ & _).
    rewrite Href.
    pose proof (draw_shape_collapsed ui (st1 ++ [Np.read st1 cv1]) (length st1)
                  current) as Hdraw.
    cbv zeta in Hdraw.
    assert (Hnew : Np.read (st1 ++ [Np.read st1 cv1]) (length st1) = Np.read st1 cv1).
    { apply (read_alloc_new st1 (Np.read st1 cv1)). }
    rewrite Hnew in Hdraw.
    destruct Hdraw as [Hsame|(call & Hcall & Hshape)].
    + rewrite length_app. cbn. lia.
    + left. exact Hsame.
    + right. exists call. split; [exact Hcall|]. tauto.
  - assert (Hfree :
      Np.read (freehand_segment st1 cv1 (Interactions.drawing_mode interactions)
                 previous current c b) cv1 = Np.read st1 cv1 \/
      Np.read (freehand_segment st1 cv1 (Interactions.drawing_mode interactions)
                 previous current c b) cv1
      = Np.read st1 cv1 ++ [Np.Line previous current c b] /\ previous <> (0, 0)).
    { unfold freehand_segment.
      destruct (Interactions.drawing_mode interactions); [|now left].
      cbn [andb]. destruct (bool_decide (previous = (0, 0))) eqn:Hprev; [now left|].
      right. cbn [negb]. split; [now apply read_draw|].
      now apply bool_decide_eq_false in Hprev. }
    assert (Hgoal :
      Np.read (freehand_segment st1 cv1 (Interactions.drawing_mode interactions)
                 previous current c b) cv1 = Np.read st1 cv1 \/
      exists call,
        Np.read (freehand_segment st1 cv1 (Interactions.drawing_mode interactions)
                   previous current c b) cv1 = Np.read st1 cv1 ++ [call] /\
        (call = Np.Line previous current c b /\ previous <> (0, 0) \/
         call = Np.Circle current 0 c b \/
         call = Np.Rectangle current current c b \/
         call = Np.Polylines [current; current; current] true c b)).
    { destruct Hfree as [Hsame|[Hline Hprev]]; [now left|].
      right. eexists. split; [exact Hline|]. now left. }
    destruct (PainterUI.shape_start_point ui); exact Hgoal.
Qed.

(** X13: in one iteration, from a state whose [canvas] is an allocated
    array, the array bound to [canvas] afterwards holds what the canvas held
    before, or nothing (after Clear), followed by at most one drawing call in
    the colour and brush size current after the hit test.  A line starts at
    the previous cursor position, which is then not the (0, 0) marker, and
    ends at the cursor.  A shape is always collapsed to the cursor: a circle
    of radius 0, a rectangle from the cursor to the cursor, or a triangle
    with its three corners at the cursor. *)
Theorem iteration_canvas_effect (s s' : State) (f : Frame) (o : Out) :
  wf s ->
  frame s f = Ok (s', o) ->
  let c := PainterUI.current_color (painter_ui s') in
  let b := PainterUI.current_brush_size (painter_ui s') in
  let p := previous s' in
  exists base,
    (base = Np.read (store s) (canvas s) \/ base = []) /\
    (Np.read (store s') (canvas s') = base \/
     exists call,
       Np.read (store s') (canvas s') = base ++ [call] /\
       (call = Np.Line (previous s) p c b /\ previous s <> (0, 0) \/
        call = Np.Circle p 0 c b \/
        call = Np.Rectangle p p c b \/
        call = Np.Polylines [p; p; p] true c b)).
Proof.
  intros Hwf Hframe c b p. subst c b p.
  apply frame_inv in Hframe
    as (fingers_up & pointing_finger & cd & cnt & _ & _ & Hstep).
  destruct pointing_finger as [xy|]; [destruct fingers_up as [|f0 fingers_up]|];
    try (subst s'; exists (Np.read (store s) (canvas s)); split; [now left|now left]).
  apply pointer_step_inv in Hstep
    as (ix & iy & ui & interactions & _ & _ & Hui & ->).
  cbn [store canvas previous painter_ui set_save_state].
  apply update_canvas_effect; [exact Hwf|].
  intros Hflag.
  now apply (shape_flag_anchor _ _ _ _ _ _ Hui) in Hflag as (-> & _).
Qed.

Lemma iteration_canvas_effect_witness :
  exists s' o base,
    frame init (Sample.pointing (600, 400) false) = Ok (s', o) /\
    (base = Np.read (store init) (canvas init) \/ base = []) /\
    (Np.read (store s') (canvas s') = base \/
     exists call,
       Np.read (store s') (canvas s') = base ++ [call] /\
       (call = Np.Line (previous init) (previous s')
                 (PainterUI.current_color (painter_ui s'))
                 (PainterUI.current_brush_size (painter_ui s')) /\
        previous init <> (0, 0) \/
        call = Np.Circle (previous s') 0
                 (PainterUI.current_color (painter_ui s'))
                 (PainterUI.current_brush_size (painter_ui s')) \/
        call = Np.Rectangle (previous s') (previous s')
                 (PainterUI.current_color (painter_ui s'))
                 (PainterUI.current_brush_size (painter_ui s')) \/
        call = Np.Polylines [previous s'; previous s'; previous s'] true
                 (PainterUI.current_color (painter_ui s'))
                 (PainterUI.current_brush_size (painter_ui s')))).
Proof.
  assert (Hframe : exists s' o,
             frame init (Sample.pointing (600, 400) false) = Ok (s', o)).
  { eexists _, _. vm_compute. reflexivity. }
  destruct Hframe as (s' & o & Hframe).
  destruct (iteration_canvas_effect init s' (Sample.pointing (600, 400) false) o)
    as (base & Hbase & Hcalls).
  - unfold wf. simpl. lia.
  - exact Hframe.
  - exists s', o, base. auto.
Defined.

(** *** Partial hands and errors *)

(** A hand with fewer than 21 landmarks gives no finger vector. *)
Lemma detect_fingers_partial (f : Frame) :
  (length (EnhancedHandTracker.get_hand_landmarks (multi_hand_landmarks f)) < 21)%nat ->
  detect_fingers f = Ok [].
Proof.
  intros Hlen. unfold detect_fingers.
  destruct (multi_hand_landmarks f) as [|hand hands] eqn:Hhands; [reflexivity|].
  unfold EnhancedHandTracker.detect_gesture.
  destruct (Nat.ltb_spec
              (length (EnhancedHandTracker.get_hand_landmarks (hand :: hands))) 21)
    as [_|Hge]; [reflexivity|lia].
Qed.

(** A hand with 21 landmarks or more gives a finger vector and a pointer. *)
Lemma detect_fingers_full (f : Frame) :
  (21 <= length (EnhancedHandTracker.get_hand_landmarks (multi_hand_landmarks f)))%nat ->
  exists thumb index rest xy,
    detect_fingers f = Ok (thumb :: index :: rest) /\
    EnhancedHandTracker.get_hand_landmarks (multi_hand_landmarks f) !! 8%nat = Some xy /\
    EnhancedHandTracker.get_pointing_finger (multi_hand_landmarks f) = Ok (Some xy).
Proof.
  intros Hlen.
  destruct (detect_gesture_full _ Hlen)
    as (p1 & p4 & p6 & p8 & p10 & p12 & p14 & p16 & p18 & p20 &
        _ & _ & _ & H8 & _ & _ & _ & _ & _ & _ & Hg & Hp).
  unfold detect_fingers.
  destruct (multi_hand_landmarks f) as [|hand hands] eqn:Hhands;
    [cbn in Hlen; lia|].
  rewrite Hg. eauto 10.
Qed.

(** The off-by-one of [get_pointing_finger] stops the whole iteration. *)
Lemma frame_eight_landmarks (s : State) (f : Frame) :
  length (EnhancedHandTracker.get_hand_landmarks (multi_hand_landmarks f)) = 8%nat ->
  frame s f = Raise IndexError.
Proof.
  intros Hlen. unfold frame. rewrite detect_fingers_partial by lia. cbn [Py.bind].
  unfold EnhancedHandTracker.get_pointing_finger.
  rewrite Hlen. cbn [Nat.leb].
  rewrite getitem_short by (unfold HandLandmark.INDEX_TIP; lia).
  reflexivity.
Qed.

(** Any other partial hand is treated as no hand. *)
Lemma frame_partial_hand (s : State) (f : Frame) :
  (length (EnhancedHandTracker.get_hand_landmarks (multi_hand_landmarks f)) < 21)%nat ->
  length (EnhancedHandTracker.get_hand_landmarks (multi_hand_landmarks f)) <> 8%nat ->
  exists s' o,
    frame s f = Ok (s', o) /\
    painter_ui s' = painter_ui s /\
    store s' = store s /\ canvas s' = canvas s /\
    smooth s' = smooth s /\
    previous s' = (0, 0).
Proof.
  intros Hlen Hne. unfold frame. rewrite detect_fingers_partial by lia.
  cbn [Py.bind].
  assert (Hptr : exists pointing_finger,
             EnhancedHandTracker.get_pointing_finger (multi_hand_landmarks f)
             = Ok pointing_finger).
  { unfold EnhancedHandTracker.get_pointing_finger.
    set (landmarks := EnhancedHandTracker.get_hand_landmarks _) in *.
    destruct (Nat.leb_spec 8 (length landmarks)) as [Hge|Hlt]; [|eauto].
    destruct (lookup_lt_is_Some_2 landmarks HandLandmark.INDEX_TIP) as [p Hp].
    { unfold HandLandmark.INDEX_TIP. lia. }
    rewrite (getitem_lookup _ _ _ Hp). cbn. eauto. }
  destruct Hptr as [pointing_finger ->]. cbn [Py.bind].
  destruct (detect_mouth_open_total (mouth_landmarks f)) as [is_mouth_open ->].
  cbn [Py.bind].
  destruct (save_trigger _ _ _) as [[cd cnt] fired].
  destruct pointing_finger; cbn [Py.bind]; eexists _, _;
    repeat split; reflexivity.
Qed.

(** X14: a frame whose first hand has exactly 8 landmarks makes the
    iteration raise IndexError, from every state.  A frame whose first hand
    has fewer than 21 landmarks, and not 8, is treated as a frame without a
    hand, even when a pointer is found (9 to 20 landmarks): the iteration
    completes, the UI state, the arrays, [canvas] and the smoothed position
    are unchanged and the previous point is reset to the (0, 0) marker. *)
Theorem partial_detection (s : State) (f : Frame) :
  let landmarks := EnhancedHandTracker.get_hand_landmarks (multi_hand_landmarks f) in
  (length landmarks = 8%nat -> frame s f = Raise IndexError) /\
  ((length landmarks < 21)%nat -> length landmarks <> 8%nat ->
   exists s' o,
     frame s f = Ok (s', o) /\
     painter_ui s' = painter_ui s /\
     store s' = store s /\ canvas s' = canvas s /\
     smooth s' = smooth s /\
     previous s' = (0, 0)).
Proof.
  intros landmarks. split.
  - apply frame_eight_landmarks.
  - apply frame_partial_hand.
Qed.

Lemma partial_detection_witness :
  frame init (Scene.partial 8) = Raise IndexError /\
  exists s' o,
    frame init (Scene.partial 9) = Ok (s', o) /\
    painter_ui s' = painter_ui init /\
    store s' = store init /\ canvas s' = canvas init /\
    smooth s' = smooth init /\
    previous s' = (0, 0).
Proof.
  split.
  - apply (proj1 (partial_detection init (Scene.partial 8))). reflexivity.
  - apply (proj2 (partial_detection init (Scene.partial 9))).
    + simpl. lia.
    + simpl. lia.
Defined.

(** An iteration with a full hand, once the smoothed coordinates are
    finite. *)
Lemma frame_full_hand (s : State) (f : Frame) (width height : Z) (xy : Point)
    (ix iy : Z) :
  PainterUI.layout (painter_ui s) = PainterUI.layout (PainterUI.init width height) ->
  (21 <= length (EnhancedHandTracker.get_hand_landmarks (multi_hand_landmarks f)))%nat ->
  EnhancedHandTracker.get_hand_landmarks (multi_hand_landmarks f) !! 8%nat = Some xy ->
  Py.int_of_float (smooth_update xy (smooth s)).1 = Ok ix ->
  Py.int_of_float (smooth_update xy (smooth s)).2 = Ok iy ->
  exists s' o,
    frame s f = Ok (s', o) /\ previous s' = (ix, iy) /\
    smooth s' = smooth_update xy (smooth s).
Proof.
  intros Hlayout Hge Hxy Hix Hiy.
  destruct (detect_fingers_full f Hge)
    as (thumb & index & rest & xy' & Hfingers & Hxy' & Hptr).
  pose proof (eq_trans (eq_sym Hxy) Hxy') as [= <-].
  unfold frame. rewrite Hfingers, Hptr. cbn [Py.bind].
  destruct (detect_mouth_open_total (mouth_landmarks f)) as [is_mouth_open ->].
  cbn [Py.bind].
  destruct (save_trigger _ _ _) as [[cd cnt] fired].
  unfold pointer_step. cbn [smooth set_save_state].
  destruct (smooth_update xy (smooth s)) as [smooth_x smooth_y].
  cbn [fst snd] in Hix, Hiy. rewrite Hix, Hiy. cbn [Py.bind painter_ui set_save_state].
  destruct (handle_interactions_total (painter_ui s) width height ix iy
              thumb index rest Hlayout) as (ui & interactions & ->).
  cbn [Py.bind].
  destruct (update_canvas _ _ _ _ _ _) as [st cv]. cbn [Py.bind].
  eexists _, _. repeat split; reflexivity.
Qed.



(** *** The cursor lags behind the fingertip *)
Lemma first_step_sound (X : nat) :
  Scene.first_step_table X = true ->
  forall x, 0 <= x <= Z.of_nat X ->
  Py.int_of_float (ema x (float_of_int 0)) = Ok (2 * x / 5).
Proof.
  unfold Scene.first_step_table. intros Htable x Hx.
  rewrite forallb_forall in Htable.
  specialize (Htable x (upto_In X x Hx)). unfold Scene.first_step_row in Htable.
  destruct (Py.int_of_float (ema x (float_of_int 0))) as [i|]; [|discriminate].
  apply Z.eqb_eq in Htable. now subst.
Qed.

Lemma first_step_frame : Scene.first_step_table 1280 = true.
Proof. vm_cast_no_check (eq_refl true). Qed.

(** X16: from a state with the layout of the constructor and the smoother
    at its initial (0, 0), a frame with a full hand whose index fingertip is
    at [(x, y)] inside the 1280 x 720 frame completes and leaves the cursor
    (the point used for the hit test, stored as the previous point) at
    [(2 * x / 5, 2 * y / 5)], integer quotients: the binary64 products
    [0.4 * x] never fall below the exact value by rounding. *)
Theorem first_frame_cursor (s : State) (f : Frame) (width height x y : Z) :
  PainterUI.layout (painter_ui s) = PainterUI.layout (PainterUI.init width height) ->
  smooth s = (float_of_int 0, float_of_int 0) ->
  (21 <= length (EnhancedHandTracker.get_hand_landmarks (multi_hand_landmarks f)))%nat ->
  EnhancedHandTracker.get_hand_landmarks (multi_hand_landmarks f) !! 8%nat
  = Some (x, y) ->
  0 <= x <= FRAME_WIDTH -> 0 <= y <= FRAME_HEIGHT ->
  exists s' o, frame s f = Ok (s', o) /\ previous s' = (2 * x / 5, 2 * y / 5).
Proof.
  unfold FRAME_WIDTH, FRAME_HEIGHT.
  intros Hlayout Hsmooth Hge Hxy Hx Hy.
  destruct (frame_full_hand s f width height (x, y) (2 * x / 5) (2 * y / 5))
    as (s' & o & Hframe & Hprev & _); try assumption.
  - rewrite Hsmooth. cbn [smooth_update fst snd].
    apply (first_step_sound 1280 first_step_frame). lia.
  - rewrite Hsmooth. cbn [smooth_update fst snd].
    apply (first_step_sound 1280 first_step_frame). lia.
  - eauto.
Qed.

Lemma first_frame_cursor_witness :
  exists s' o,
    frame init (Sample.pointing (600, 400) false) = Ok (s', o) /\
    previous s' = (2 * 600 / 5, 2 * 400 / 5).
Proof.
  apply (first_frame_cursor init (Sample.pointing (600, 400) false) 1280 720 600 400).
  - reflexivity.
  - reflexivity.
  - simpl. lia.
  - reflexivity.
  - unfold FRAME_WIDTH. lia.
  - unfold FRAME_HEIGHT. lia.
Defined.

(** X17: from a state with the layout of the constructor, an iteration
    whose cursor ends on the Clear button with the index finger up rebinds
    [canvas] to a newly allocated white array and draws nothing on it; the
    arrays that existed, the old canvas among them, are left as they were,
    and the UI state does not change. *)
Theorem clear_button_blanks_canvas (s s' : State) (f : Frame) (o : Out)
    (width height : Z) (fingers_up : list bool) (btn : UIElement.t) :
  PainterUI.layout (painter_ui s) = PainterUI.layout (PainterUI.init width height) ->
  frame s f = Ok (s', o) ->
  detect_fingers f = Ok fingers_up ->
  fingers_up !! 1%nat = Some true ->
  PainterUI.first_over (PainterUI.toggle_buttons (painter_ui s))
    (previous s').1 (previous s').2 = Some btn ->
  UIElement.text btn = "Clear"%string ->
  store s' = store s ++ [Np.white] /\
  canvas s' = length (store s) /\
  Np.read (store s') (canvas s') = Np.white /\
  painter_ui s' = painter_ui s.
Proof.
  intros Hlayout Hframe Hfingers Hindex Hbtn Hclear.
  apply frame_inv in Hframe
    as (fingers_up' & pointing_finger & cd & cnt & Hf & _ & Hstep).
  rewrite Hfingers in Hf. injection Hf as <-.
  assert (Hmiss : PainterUI.first_over (PainterUI.toggle_buttons (painter_ui s)) 0 0
                  = None).
  { apply layout_fields in Hlayout as (-> & _).
    apply toggle_buttons_other_row. lia. }
  destruct pointing_finger as [xy|]; [destruct fingers_up as [|b fingers_up]|];
    try (subst s'; cbn [previous reset_previous fst snd] in Hbtn; congruence).
  apply pointer_step_inv in Hstep as (ix & iy & ui & interactions & _ & _ & Hui & ->).
  cbn [previous fst snd painter_ui set_save_state store canvas] in *.
  rewrite (toggle_hit _ width height ix iy _ btn Hlayout Hindex Hbtn) in Hui.
  rewrite Hclear in Hui.
  repeat (rewrite bool_decide_eq_false_2 in Hui by discriminate).
  rewrite bool_decide_eq_true_2 in Hui by reflexivity.
  injection Hui as <- <-.
  unfold update_canvas, Np.alloc, freehand_segment. cbn.
  destruct (PainterUI.shape_start_point (painter_ui s));
    cbn; unfold Np.read; rewrite lookup_app_r, Nat.sub_diag by lia;
    repeat split; reflexivity.
Qed.

Lemma clear_button_blanks_canvas_witness :
  exists s outs s' o,
    run init (replicate 3 (Sample.pointing (700, 50) false)) = Ok (s, outs) /\
    frame s (Sample.pointing (700, 50) false) = Ok (s', o) /\
    previous s' = (609, 43) /\
    store s' = store s ++ [Np.white] /\
    canvas s' = length (store s) /\
    Np.read (store s') (canvas s') = Np.white /\
    painter_ui s' = painter_ui s.
Proof.
  assert (Hrun : exists s outs s' o,
             run init (replicate 3 (Sample.pointing (700, 50) false)) = Ok (s, outs) /\
             frame s (Sample.pointing (700, 50) false) = Ok (s', o) /\
             previous s' = (609, 43) /\
             PainterUI.layout (painter_ui s)
             = PainterUI.layout (PainterUI.init 1280 720)).
  { eexists _, _, _, _. split; [vm_compute; reflexivity|].
    split; [vm_compute; reflexivity|]. split; reflexivity. }
  destruct Hrun as (s & outs & s' & o & Hrun & Hframe & Hprev & Hlayout).
  exists s, outs, s', o. split; [exact Hrun|]. split; [exact Hframe|].
  split; [exact Hprev|].
  apply (clear_button_blanks_canvas s s' (Sample.pointing (700, 50) false) o
           1280 720 Scene.index_only
           (UIElement.mk 570 20 120 50 (100, 100, 100) "Clear")).
  - exact Hlayout.
  - exact Hframe.
  - reflexivity.
  - reflexivity.
  - apply layout_fields in Hlayout as (Htoggle & _).
    rewrite Hprev, Htoggle. reflexivity.
  - reflexivity.
Defined.

(** X18: from a state with the layout of the constructor whose [canvas]
    is an allocated array, a frame with a full hand, index finger up and
    thumb down, whose cursor is inside the canvas region, entered with a
    previous point other than the (0, 0) marker: [canvas] stays bound to the
    same array, which gains exactly one line, from the previous point to the
    cursor, in the colour and brush size current after the hit test; no
    other array changes. *)
Theorem freehand_stroke (s s' : State) (f : Frame) (o : Out)
    (width height : Z) (rest : list bool) :
  wf s ->
  PainterUI.layout (painter_ui s) = PainterUI.layout (PainterUI.init width height) ->
  frame s f = Ok (s', o) ->
  detect_fingers f = Ok (false :: true :: rest) ->
  UIElement.is_over (PainterUI.canvas (painter_ui s))
    (previous s').1 (previous s').2 = true ->
  previous s <> (0, 0) ->
  canvas s' = canvas s /\
  Np.read (store s') (canvas s')
  = Np.read (store s) (canvas s) ++
    [Np.Line (previous s) (previous s')
       (PainterUI.current_color (painter_ui s'))
       (PainterUI.current_brush_size (painter_ui s'))] /\
  forall r, r <> canvas s -> Np.read (store s') r = Np.read (store s) r.
Proof.
  intros Hwf Hlayout Hframe Hfingers Hover Hprev.
  apply frame_inv in Hframe
    as (fingers_up & pointing_finger & cd & cnt & Hf & _ & Hstep).
  rewrite Hfingers in Hf. injection Hf as <-.
  destruct pointing_finger as [xy|].
  2:{ subst s'. cbn [previous reset_previous fst snd] in Hover.
      apply layout_fields in Hlayout as (_ & _ & _ & _ & _ & Hcanvas & _).
      rewrite Hcanvas in Hover. apply is_over_row in Hover as [Hx _].
      cbn in Hx. lia. }
  apply pointer_step_inv in Hstep as (ix & iy & ui & interactions & _ & _ & Hui & ->).
  cbn [previous fst snd painter_ui set_save_state store canvas] in *.
  destruct (canvas_stroke_flags _ width height _ _ _ _ _ Hlayout Hover Hui)
    as (Hdraw & Hclear & Hflag).
  unfold update_canvas. rewrite Hclear, Hflag. cbn [fst snd].
  unfold freehand_segment. rewrite Hdraw.
  rewrite bool_decide_eq_false_2 by exact Hprev. cbn [andb negb].
  split; [reflexivity|]. split.
  - now apply read_draw.
  - intros r Hr. now apply read_draw_other.
Qed.

Lemma freehand_stroke_witness :
  exists s outs s' o,
    run init [Sample.pointing (600, 400) false] = Ok (s, outs) /\
    frame s (Sample.pointing (600, 400) false) = Ok (s', o) /\
    canvas s' = canvas s /\
    Np.read (store s') (canvas s')
    = Np.read (store s) (canvas s) ++ [Np.Line (240, 160) (384, 256) (50, 120, 220) 5].
Proof.
  assert (Hrun : exists s outs s' o,
             run init [Sample.pointing (600, 400) false] = Ok (s, outs) /\
             frame s (Sample.pointing (600, 400) false) = Ok (s', o) /\
             wf s /\
             PainterUI.layout (painter_ui s)
             = PainterUI.layout (PainterUI.init 1280 720) /\
             previous s = (240, 160) /\ previous s' = (384, 256) /\
             PainterUI.current_color (painter_ui s') = (50, 120, 220) /\
             PainterUI.current_brush_size (painter_ui s') = 5).
  { eexists _, _, _, _. split; [vm_compute; reflexivity|].
    split; [vm_compute; reflexivity|].
    split; [unfold wf; simpl; lia|]. repeat split; reflexivity. }
  destruct Hrun
    as (s & outs & s' & o & Hrun & Hframe & Hwf & Hlayout & Hp & Hp' & Hc & Hb).
  exists s, outs, s', o. split; [exact Hrun|]. split; [exact Hframe|].
  destruct (freehand_stroke s s' (Sample.pointing (600, 400) false) o 1280 720
              [false; false; false]) as (Hcanvas & Hread & _).
  - exact Hwf.
  - exact Hlayout.
  - exact Hframe.
  - reflexivity.
  - apply layout_fields in Hlayout as (_ & _ & _ & _ & _ & Hcv & _).
    rewrite Hcv, Hp'. reflexivity.
  - rewrite Hp. discriminate.
  - split; [exact Hcanvas|]. rewrite Hread, Hp, Hp', Hc, Hb. reflexivity.
Defined.

End Iteration.

(** ** Saving *)

Section Saving.

Import Main.

(** X19: an iteration writes the canvas to disk if and only if the mouth
    test holds in its frame, the open counter had reached 9 and the
    cooldown was 0 or 1 on entry; what it writes is the canvas as it stood
    before the iteration, without the drawing or the clearing of this
    frame.  Neither the hand nor the Save button has any part in it. *)
Theorem save_needs_the_mouth (s s' : State) (f : Frame) (o : Out) :
  frame s f = Ok (s', o) ->
  (saved o = None \/ saved o = Some (Np.read (store s) (canvas s))) /\
  (is_Some (saved o) <->
   MouthTracker.detect_mouth_open (mouth_landmarks f) = Ok true /\
   9 <= mouth_open_count s /\
   (save_cooldown s = 0 \/ save_cooldown s = 1)).
Proof.
  intros Hframe.
  apply frame_save_trigger in Hframe as (is_open & fired & Hopen & Htrigger & Hsaved).
  split; [rewrite Hsaved; destruct fired; auto|].
  rewrite Hsaved, Hopen. unfold save_trigger in Htrigger.
  unfold MOUTH_OPEN_THRESHOLD in Htrigger.
  destruct (Z.ltb_spec 0 (save_cooldown s)) as [Hcd|Hcd];
    destruct is_open;
    match type of Htrigger with
    | (if (?a <=? ?b) && (?c =? ?d) then _ else _) = _ =>
        destruct (Z.leb_spec a b); destruct (Z.eqb_spec c d)
    end; cbn [andb] in Htrigger; injection Htrigger as _ _ <-;
    (split;
     [intros [img Himg];
      first [discriminate Himg | lia | split; [reflexivity|lia]]
     |intros (Ho & Hcnt & Hc);
      first [discriminate Ho | lia | eauto]]).
Qed.

Lemma save_needs_the_mouth_witness :
  exists s' o,
    frame Scene.about_to_save Scene.gaping = Ok (s', o) /\
    MouthTracker.detect_mouth_open (mouth_landmarks Scene.gaping) = Ok true /\
    9 <= mouth_open_count Scene.about_to_save /\
    (save_cooldown Scene.about_to_save = 0 \/ save_cooldown Scene.about_to_save = 1).
Proof.
  assert (Hframe : exists s' o, frame Scene.about_to_save Scene.gaping = Ok (s', o) /\
                                is_Some (saved o)).
  { eexists _, _. split; [vm_compute; reflexivity|]. simpl. eauto. }
  destruct Hframe as (s' & o & Hframe & Hsaved).
  exists s', o. split; [exact Hframe|].
  apply (proj1 (proj2 (save_needs_the_mouth Scene.about_to_save s' Scene.gaping o
                         Hframe))).
  exact Hsaved.
Defined.

(** The saves of a run are the trigger run over the mouth states of its
    frames. *)
Lemma run_save_events (fs : list Frame) : forall (s s' : State) (outs : list Out),
  run s fs = Ok (s', outs) ->
  exists opens,
    Forall2 (fun f is_open =>
               MouthTracker.detect_mouth_open (mouth_landmarks f) = Ok is_open)
            fs opens /\
    (fun o => bool_decide (is_Some (saved o))) <$> outs
    = save_events (save_cooldown s) (mouth_open_count s) opens.
Proof.
  induction fs as [|f fs IH]; intros s s' outs Hrun.
  - cbn in Hrun. injection Hrun as _ <-. exists []. split; [constructor|reflexivity].
  - cbn [run] in Hrun.
    destruct (frame s f) as [[s1 o]|] eqn:Hframe; [|discriminate].
    cbn [Py.bind] in Hrun.
    destruct (run s1 fs) as [[s2 os]|] eqn:Hrest; [|discriminate].
    cbn [Py.bind] in Hrun. injection Hrun as _ <-.
    apply frame_save_trigger in Hframe
      as (is_open & fired & Hopen & Htrigger & Hsaved).
    destruct (IH _ _ _ Hrest) as (opens & Hopens & Hevents).
    exists (is_open :: opens). split; [now constructor|].
    cbn [fmap list_fmap save_events]. rewrite Htrigger.
    change (list_fmap _ _ ?f os) with (f <$> os). rewrite Hevents. f_equal.
    rewrite Hsaved. now destruct fired.
Qed.

(** A save at frame [i] needs the counter to have reached 10: either the
    frames [i - 9 .. i] were all open, or every frame so far was and the
    counter started high enough. *)
Lemma save_events_needs_open (opens : list bool) : forall (cd cnt : Z) (i : nat),
  0 <= cnt ->
  save_events cd cnt opens !! i = Some true ->
  9 - cnt <= Z.of_nat i /\
  forall j, (i - 9 <= j <= i)%nat -> opens !! j = Some true.
Proof.
  induction opens as [|o opens IH]; intros cd cnt i Hcnt Hfire; [discriminate|].
  cbn [save_events] in Hfire.
  destruct (save_trigger cd cnt o) as [[cd' cnt'] fired] eqn:Htrigger.
  assert (Hstep : 0 <= cnt' /\
                  (fired = true -> o = true /\ 9 <= cnt) /\
                  (o = true -> fired = false -> cnt' = cnt + 1) /\
                  (o = false -> cnt' = 0)).
  { unfold save_trigger, MOUTH_OPEN_THRESHOLD in Htrigger.
    destruct o;
      match type of Htrigger with
      | (if (?a <=? ?b) && ?c then _ else _) = _ =>
          destruct (Z.leb_spec a b); destruct c
      end; cbn [andb] in Htrigger; injection Htrigger as <- <- <-;
      repeat split; intros; try discriminate; lia. }
  destruct Hstep as (Hcnt' & Hfired & Hopen & Hclosed).
  destruct i as [|i].
  - cbn in Hfire. injection Hfire as ->.
    destruct (Hfired eq_refl) as [-> Hnine]. split; [lia|].
    intros j Hj. assert (j = 0%nat) as -> by lia. reflexivity.
  - cbn [lookup list_lookup] in Hfire.
    change (list_lookup i ?l) with (l !! i) in Hfire.
    destruct (IH _ _ _ Hcnt' Hfire) as [Hi Hrange].
    destruct fired.
    + destruct (Hfired eq_refl) as [-> Hnine].
      apply save_trigger_fired in Htrigger as [_ ->].
      split; [lia|]. intros j Hj. destruct j as [|j]; [lia|].
      apply Hrange. lia.
    + destruct o.
      * rewrite (Hopen eq_refl eq_refl) in Hi. split; [lia|].
        intros j Hj. destruct j as [|j]; [reflexivity|]. apply Hrange. lia.
      * rewrite (Hclosed eq_refl) in Hi. split; [lia|].
        intros j Hj. destruct j as [|j]; [lia|]. apply Hrange. lia.
Qed.

(** X20: in a run entered with the open counter at 0, as on entry to the
    loop, a frame [i] that saves the canvas is at least the 10th frame, and
    the mouth test held in it and in each of the nine frames before it,
    whatever the hands did in between. *)
Theorem save_needs_ten_open_frames (fs : list Frame) (s s' : State)
    (outs : list Out) (i : nat) (o : Out) :
  mouth_open_count s = 0 ->
  run s fs = Ok (s', outs) ->
  outs !! i = Some o ->
  is_Some (saved o) ->
  (9 <= i)%nat /\
  forall j, (i - 9 <= j <= i)%nat ->
    exists f, fs !! j = Some f /\
      MouthTracker.detect_mouth_open (mouth_landmarks f) = Ok true.
Proof.
  intros Hcnt Hrun Ho Hsaved.
  apply run_save_events in Hrun as (opens & Hopens & Hevents).
  assert (Hfire : save_events (save_cooldown s) (mouth_open_count s) opens !! i
                  = Some true).
  { rewrite <- Hevents, list_lookup_fmap, Ho. cbn.
    now rewrite bool_decide_eq_true_2. }
  apply save_events_needs_open in Hfire as [Hi Hrange]; [|lia].
  split; [lia|]. intros j Hj. specialize (Hrange j Hj).
  destruct (Forall2_lookup_r _ _ _ _ _ Hopens Hrange) as (f & Hf & Hopen).
  eauto.
Qed.

Lemma save_needs_ten_open_frames_witness :
  (9 <= 9)%nat /\
  forall j, (9 - 9 <= j <= 9)%nat ->
    exists f, replicate 10 Scene.gaping !! j = Some f /\
      MouthTracker.detect_mouth_open (mouth_landmarks f) = Ok true.
Proof.
  assert (Hrun : exists s' outs o,
             run init (replicate 10 Scene.gaping) = Ok (s', outs) /\
             outs !! 9%nat = Some o /\ is_Some (saved o)).
  { eexists _, _, _. split; [vm_compute; reflexivity|].
    split; [reflexivity|]. simpl. eauto. }
  destruct Hrun as (s' & outs & o & Hrun & Ho & Hsaved).
  apply (save_needs_ten_open_frames (replicate 10 Scene.gaping) init s' outs 9 o).
  - reflexivity.
  - exact Hrun.
  - exact Ho.
  - exact Hsaved.
Defined.

(** With the mouth held open, the time to the next save is the larger of
    the remaining cooldown and the frames the counter still needs; after
    that a save fires every 60 frames. *)
Lemma save_events_held_open (n : nat) : forall (cd cnt : Z) (i : nat),
  0 <= cd -> 0 <= cnt -> (i < n)%nat ->
  let t := Z.max 0 (Z.max (cd - 1) (9 - cnt)) in
  save_events cd cnt (replicate n true) !! i
  = Some (bool_decide (t <= Z.of_nat i /\ (Z.of_nat i - t) mod 60 = 0)).
Proof.
  induction n as [|n IH]; intros cd cnt i Hcd Hcnt Hi t; [lia|].
  cbn [replicate save_events].
  destruct (save_trigger cd cnt true) as [[cd' cnt'] fired] eqn:Htrigger.
  assert (Hstep : (t = 0 /\ fired = true /\ cd' = 60 /\ cnt' = 0) \/
                  (0 < t /\ fired = false /\ 0 <= cd' /\ 0 <= cnt' /\
                   Z.max 0 (Z.max (cd' - 1) (9 - cnt')) = t - 1)).
  { unfold save_trigger, MOUTH_OPEN_THRESHOLD, SAVE_COOLDOWN_FRAMES in Htrigger.
    subst t.
    destruct (Z.ltb_spec 0 cd);
      match type of Htrigger with
      | (if (?a <=? ?b) && (?c =? ?d) then _ else _) = _ =>
          destruct (Z.leb_spec a b); destruct (Z.eqb_spec c d)
      end; cbn [andb] in Htrigger; injection Htrigger as <- <- <-; lia. }
  destruct i as [|i].
  - cbn [lookup list_lookup]. f_equal.
    destruct Hstep as [(Ht & -> & _)|(Ht & -> & _)].
    + rewrite Ht. now rewrite bool_decide_eq_true_2.
    + rewrite bool_decide_eq_false_2; [reflexivity|]. cbn. lia.
  - cbn [lookup list_lookup].
    change (list_lookup i ?l) with (l !! i).
    destruct Hstep as [(Ht & _ & -> & ->)|(Ht & _ & Hcd' & Hcnt' & Ht')].
    + rewrite IH by lia. cbv zeta.
      replace (Z.max 0 (Z.max (60 - 1) (9 - 0))) with 59 by lia.
      rewrite Ht. f_equal. apply bool_decide_ext.
      replace (Z.of_nat (S i) - 0) with (Z.of_nat i - 59 + 1 * 60) by lia.
      rewrite Z_mod_plus_full.
      split; [intros [? ?]; split; [lia|assumption]|].
      intros [_ Hmod]. split; [|exact Hmod].
      destruct (Z.le_gt_cases 59 (Z.of_nat i)) as [|Hlt]; [assumption|].
      exfalso.
      replace (Z.of_nat i - 59) with (Z.of_nat i + 1 + (-1) * 60) in Hmod by lia.
      rewrite Z_mod_plus_full, Z.mod_small in Hmod; lia.
    + rewrite IH by lia. cbv zeta. rewrite Ht'. f_equal.
      apply bool_decide_ext.
      replace (Z.of_nat i - (t - 1)) with (Z.of_nat (S i) - t) by lia. lia.
Qed.

(** From the entry to the loop: the 10th frame, then every 60 frames. *)
Lemma save_events_period (n i : nat) :
  (i < n)%nat ->
  save_events 0 0 (replicate n true) !! i
  = Some (bool_decide (Z.of_nat i mod 60 = 9)).
Proof.
  intros Hi. rewrite save_events_held_open by lia.
  cbv zeta. replace (Z.max 0 (Z.max (0 - 1) (9 - 0))) with 9 by lia.
  f_equal. apply bool_decide_ext.
  split.
  - intros [Hge Hmod].
    replace (Z.of_nat i) with (Z.of_nat i - 9 + 9) by lia.
    rewrite Z.add_mod, Hmod by lia. reflexivity.
  - intros Hmod. pose proof (Z.div_mod (Z.of_nat i) 60 ltac:(lia)) as Hdiv.
    rewrite Hmod in Hdiv.
    assert (0 <= Z.of_nat i / 60) by (apply Z.div_pos; lia).
    split; [lia|].
    replace (Z.of_nat i - 9) with (0 + (Z.of_nat i / 60) * 60) by lia.
    now rewrite Z_mod_plus_full.
Qed.

(** X21: in a run entered with the cooldown and the open counter at 0, as
    on entry to the loop, in which the mouth test holds in every frame, the
    canvas is saved in the 10th frame and then in every 60th frame after it,
    and in no other: frame [i], counted from 0, saves iff [i mod 60 = 9]. *)
Theorem held_open_saves_periodically (fs : list Frame) (s s' : State)
    (outs : list Out) (i : nat) (o : Out) :
  save_cooldown s = 0 -> mouth_open_count s = 0 ->
  Forall (fun f => MouthTracker.detect_mouth_open (mouth_landmarks f) = Ok true) fs ->
  run s fs = Ok (s', outs) ->
  outs !! i = Some o ->
  is_Some (saved o) <-> Z.of_nat i mod 60 = 9.
Proof.
  intros Hcd Hcnt Hopen Hrun Ho.
  apply run_save_events in Hrun as (opens & Hopens & Hevents).
  assert (Htrue : opens = replicate (length fs) true).
  { clear Hevents. induction Hopens as [|f b fs opens Hb _ IH]; [reflexivity|].
    apply Forall_cons in Hopen as [Hf Hopen].
    rewrite Hf in Hb. injection Hb as <-. cbn. f_equal. now apply IH. }
  assert (Hlen : forall l cd cnt, length (save_events cd cnt l) = length l).
  { induction l as [|b l IH]; intros cd cnt; [reflexivity|].
    cbn [save_events]. destruct (save_trigger cd cnt b) as [[cd' cnt'] fired].
    cbn [length]. now rewrite IH. }
  assert (Hi : (i < length fs)%nat).
  { apply lookup_lt_Some in Ho.
    pose proof (f_equal length Hevents) as Hl. rewrite length_fmap, Hlen in Hl.
    rewrite (Forall2_length _ _ _ Hopens). lia. }
  pose proof (f_equal (fun l => l !! i) Hevents) as Hlook. cbn beta in Hlook.
  rewrite list_lookup_fmap, Ho, Hcd, Hcnt, Htrue in Hlook. cbn [fmap option_fmap option_map] in Hlook.
  rewrite (save_events_period (length fs) i Hi) in Hlook.
  injection Hlook as Hlook.
  rewrite <- (bool_decide_spec (is_Some (saved o))), Hlook.
  apply bool_decide_spec.
Qed.

Lemma held_open_saves_periodically_witness :
  exists s' outs o,
    run init (replicate 10 Scene.gaping) = Ok (s', outs) /\
    outs !! 9%nat = Some o /\
    (is_Some (saved o) <-> Z.of_nat 9 mod 60 = 9).
Proof.
  assert (Hrun : exists s' outs o,
             run init (replicate 10 Scene.gaping) = Ok (s', outs) /\
             outs !! 9%nat = Some o).
  { eexists _, _, _. split; [vm_compute; reflexivity|]. reflexivity. }
  destruct Hrun as (s' & outs & o & Hrun & Ho).
  exists s', outs, o. split; [exact Hrun|]. split; [exact Ho|].
  apply (held_open_saves_periodically (replicate 10 Scene.gaping) init s' outs 9 o).
  - reflexivity.
  - reflexivity.
  - apply Forall_replicate. vm_compute. reflexivity.
  - exact Hrun.
  - exact Ho.
Defined.

End Saving.

(** ** The states the loop reaches *)

Section Reachable.

Import Main.

(** The trigger keeps the cooldown within 0..60 and the counter below the
    threshold once the cooldown has run out. *)
Lemma save_trigger_bounds (cd cnt : Z) (o : bool) (cd' cnt' : Z) (fired : bool) :
  save_trigger cd cnt o = (cd', cnt', fired) ->
  0 <= cd <= SAVE_COOLDOWN_FRAMES -> 0 <= cnt ->
  (cd = 0 -> cnt < MOUTH_OPEN_THRESHOLD) ->
  (0 < cd -> cnt <= SAVE_COOLDOWN_FRAMES - cd) ->
  0 <= cd' <= SAVE_COOLDOWN_FRAMES /\ 0 <= cnt' /\
  (cd' = 0 -> cnt' < MOUTH_OPEN_THRESHOLD) /\
  (0 < cd' -> cnt' <= SAVE_COOLDOWN_FRAMES - cd').
Proof.
  unfold save_trigger, MOUTH_OPEN_THRESHOLD, SAVE_COOLDOWN_FRAMES.
  intros Htrigger Hcd Hcnt Hzero Hpos.
  destruct (Z.ltb_spec 0 cd); destruct o;
    match type of Htrigger with
    | (if (?a <=? ?b) && (?c =? ?d) then _ else _) = _ =>
        destruct (Z.leb_spec a b); destruct (Z.eqb_spec c d)
    end; cbn [andb] in Htrigger; injection Htrigger as <- <- <-; lia.
Qed.

Lemma frame_keeps_inv (s s' : State) (f : Frame) (o : Out) :
  Reach.inv s -> frame s f = Ok (s', o) -> Reach.inv s'.
Proof.
  unfold Reach.inv.
  intros (Hwf & Hlayout & Hbrush & Hcolor & Hshape & Hphase & Hcd & Hcnt & Hzero & Hpos)
         Hframe.
  split; [now apply (frame_wf s s' f o)|].
  split; [now rewrite (frame_layout s s' f o Hframe)|].
  assert (Hsave : 0 <= save_cooldown s' <= SAVE_COOLDOWN_FRAMES /\
                  0 <= mouth_open_count s' /\
                  (save_cooldown s' = 0 -> mouth_open_count s' < MOUTH_OPEN_THRESHOLD) /\
                  (0 < save_cooldown s' ->
                   mouth_open_count s' <= SAVE_COOLDOWN_FRAMES - save_cooldown s')).
  { destruct (frame_save_trigger s s' f o Hframe)
      as (is_open & fired & _ & Htrigger & _).
    now apply (save_trigger_bounds _ _ _ _ _ _ Htrigger). }
  apply frame_inv in Hframe
    as (fingers_up & pointing_finger & cd & cnt & _ & _ & Hstep).
  destruct pointing_finger as [xy|]; [destruct fingers_up as [|b fingers_up]|];
    try (subst s'; cbn [painter_ui reset_previous set_save_state] in *; tauto).
  apply pointer_step_inv in Hstep as (ix & iy & ui & interactions & _ & _ & Hui & Hs').
  cbn [painter_ui set_save_state] in Hui.
  pose proof (handle_interactions_values _ 1280 720 _ _ _ _ _ Hlayout Hui)
    as (Hb & Hc & Hsh).
  pose proof (shape_phase_preserved _ _ _ _ _ _ Hui Hphase) as Hph.
  rewrite Hs' in *. cbn [painter_ui] in *. tauto.
Qed.

Lemma init_inv : Reach.inv init.
Proof.
  unfold Reach.inv, wf, SAVE_COOLDOWN_FRAMES, MOUTH_OPEN_THRESHOLD. cbn.
  repeat split; try lia; try tauto; try discriminate.
Qed.

(** X22: every state that a run of the loop reaches from the state on
    entry satisfies [Reach.inv]: [canvas] is an allocated array; the layout
    is the one of [PainterUI(1280, 720)]; the brush size is 5, 10, 15 or 20;
    the colour is one of the five palette colours or white; the shape is
    none, Circle, Rectangle or Triangle; the shape phase is on only with a
    shape selected and an anchor set; the cooldown is within 0..60 and the
    open counter is non-negative, below 10 when the cooldown is 0 and at
    most [60 - cooldown] otherwise.  The run gives one output per frame. *)
Theorem reachable_states (fs : list Frame) (s' : State) (outs : list Out) :
  run init fs = Ok (s', outs) -> Reach.inv s' /\ length outs = length fs.
Proof.
  assert (Hgen : forall fs s s' outs,
             Reach.inv s -> run s fs = Ok (s', outs) ->
             Reach.inv s' /\ length outs = length fs).
  { clear. induction fs as [|f fs IH]; intros s s' outs Hinv Hrun.
    - cbn in Hrun. injection Hrun as <- <-. auto.
    - cbn [run] in Hrun.
      destruct (frame s f) as [[s1 o]|] eqn:Hframe; [|discriminate].
      cbn [Py.bind] in Hrun.
      destruct (run s1 fs) as [[s2 os]|] eqn:Hrest; [|discriminate].
      cbn [Py.bind] in Hrun. injection Hrun as <- <-.
      destruct (IH s1 s2 os) as [Hinv2 Hlen];
        [now apply (frame_keeps_inv s s1 f o)|exact Hrest|].
      split; [exact Hinv2|]. cbn [length]. now rewrite Hlen. }
  apply Hgen. exact init_inv.
Qed.

Lemma reachable_states_witness :
  exists s' outs,
    run init Sample.shape_gesture = Ok (s', outs) /\
    Reach.inv s' /\ length outs = length Sample.shape_gesture.
Proof.
  assert (Hrun : exists s' outs, run init Sample.shape_gesture = Ok (s', outs)).
  { eexists _, _. vm_compute. reflexivity. }
  destruct Hrun as (s' & outs & Hrun).
  exists s', outs. split; [exact Hrun|].
  apply (reachable_states Sample.shape_gesture s' outs). exact Hrun.
Defined.

End Reachable.
